(** * VIP Sentinel: the scheduled VIP service and the VIP manager

    A shallow embedding of [src/vip-service.js] (class [VIPService]) and of
    the VIP manager it drives (class [VIPManager]: [makeRequest],
    [sendDiscordNotification], [testConnection], [downloadVipFile],
    [formatVipList], [analyzeVips], [cleanupOldBackups]).

    Conventions of the embedding.
    - A JavaScript [Date] is its time value, an integer number of
      milliseconds ([Z]), or the Invalid Date ([None]).
      [setDate(getDate() - k)] is computed as the language defines it: on
      the local calendar, whose offset from UTC belongs to the surroundings,
      and clipped to the range of time values.  Time values stay in the
      range in which the double arithmetic of
      [Math.ceil((a - b) / msPerDay)] is exact.
    - A download or an analysis stamps what it names and writes with one
      reading of the clock; a sweep, which runs after them, reads the clock
      anew, each sweep for itself.
    - Counters are natural numbers; strings are byte strings holding the
      UTF-8 encoding of the source's literals.
    - What the code asks of its surroundings (the remote API, the webhook,
      the file system, the clock, node-cron) is read from a [World]; what it
      does to them is written back to it.  Methods are functions
      [World -> Outcome A * World], an exception being the [Throw] outcome.
    - The [Date] parser, [toISOString] and [cron.validate] belong to the
      JavaScript runtime and to node-cron and are parameters. *)

From Stdlib Require Import ZArith Lia String Ascii List Bool.
From stdpp Require Import gmap strings list fin_maps pretty.
Import ListNotations.

Local Open Scope string_scope.

(** ** Data model *)

(** One element of the array answered by [/api/get_vip_ids].  [expiration]
    and [description] may be absent ([null] or [undefined]). *)
Record VipRecord := {
  player_id : string;
  name : string;
  expiration : option string;
  description : option string
}.

(** [analysis.platforms] *)
Record Platforms := {
  pc : nat;
  console : nat;
  unknown : nat
}.

(** The [analysis] object built by [analyzeVips]. *)
Record Analysis := {
  total : nat;
  permanent : nat;
  temporary : nat;
  expired : nat;
  expiringSoon : nat;
  expiringToday : nat;
  platforms : Platforms
}.

(** JavaScript truthiness of an optional string: [null], [undefined] and the
    empty string are falsy. *)
Definition truthy (o : option string) : bool :=
  match o with
  | Some s => negb (String.eqb s EmptyString)
  | None => false
  end.

(** [s.startsWith(p)] *)
Definition startsWith (s p : string) : bool := String.prefix p s.

(** [1000 * 60 * 60 * 24] *)
Definition msPerDay : Z := 1000 * 60 * 60 * 24.

(** [Math.ceil(a / b)] on integers, [b] positive. *)
Definition Math_ceil_div (a b : Z) : Z := (- ((- a) / b))%Z.

(** [array.push(x)] *)
Definition push {A : Type} (l : list A) (x : A) : list A := (l ++ [x])%list.

(** [`${n}`] for a counter and for an integer. *)
Definition show (n : nat) : string := pretty n.
Definition showZ (z : Z) : string := pretty z.

(** Field updates of the [analysis] object ([analysis.permanent++], ...). *)
Definition incr_pc (a : Analysis) : Analysis :=
  {| total := total a; permanent := permanent a; temporary := temporary a;
     expired := expired a; expiringSoon := expiringSoon a;
     expiringToday := expiringToday a;
     platforms := {| pc := S (pc (platforms a));
                     console := console (platforms a);
                     unknown := unknown (platforms a) |} |}.

Definition incr_console (a : Analysis) : Analysis :=
  {| total := total a; permanent := permanent a; temporary := temporary a;
     expired := expired a; expiringSoon := expiringSoon a;
     expiringToday := expiringToday a;
     platforms := {| pc := pc (platforms a);
                     console := S (console (platforms a));
                     unknown := unknown (platforms a) |} |}.

Definition incr_unknown (a : Analysis) : Analysis :=
  {| total := total a; permanent := permanent a; temporary := temporary a;
     expired := expired a; expiringSoon := expiringSoon a;
     expiringToday := expiringToday a;
     platforms := {| pc := pc (platforms a);
                     console := console (platforms a);
                     unknown := S (unknown (platforms a)) |} |}.

Definition incr_permanent (a : Analysis) : Analysis :=
  {| total := total a; permanent := S (permanent a); temporary := temporary a;
     expired := expired a; expiringSoon := expiringSoon a;
     expiringToday := expiringToday a; platforms := platforms a |}.

Definition incr_temporary (a : Analysis) : Analysis :=
  {| total := total a; permanent := permanent a; temporary := S (temporary a);
     expired := expired a; expiringSoon := expiringSoon a;
     expiringToday := expiringToday a; platforms := platforms a |}.

Definition incr_expired (a : Analysis) : Analysis :=
  {| total := total a; permanent := permanent a; temporary := temporary a;
     expired := S (expired a); expiringSoon := expiringSoon a;
     expiringToday := expiringToday a; platforms := platforms a |}.

Definition incr_expiringSoon (a : Analysis) : Analysis :=
  {| total := total a; permanent := permanent a; temporary := temporary a;
     expired := expired a; expiringSoon := S (expiringSoon a);
     expiringToday := expiringToday a; platforms := platforms a |}.

Definition incr_expiringToday (a : Analysis) : Analysis :=
  {| total := total a; permanent := permanent a; temporary := temporary a;
     expired := expired a; expiringSoon := expiringSoon a;
     expiringToday := S (expiringToday a); platforms := platforms a |}.

(** The [analysis] object as [analyzeVips] creates it. *)
Definition initial_analysis (len : nat) : Analysis :=
  {| total := len; permanent := 0; temporary := 0; expired := 0;
     expiringSoon := 0; expiringToday := 0;
     platforms := {| pc := 0; console := 0; unknown := 0 |} |}.

(** [!vip.expiration || vip.expiration === 'None'] *)
Definition is_permanent (vip : VipRecord) : bool :=
  negb (truthy (expiration vip)) ||
  match expiration vip with
  | Some e => String.eqb e "None"
  | None => false
  end.

Section Analyzer.

(** [new Date(text).getTime()]; [None] is the Invalid Date, whose time
    value is NaN. *)
Variable Date_parse : string -> option Z.

(** The body of [vipList.forEach(vip => ...)] in [analyzeVips]; the
    accumulator is the pair of [analysis] and [alerts]. *)
Definition analyzeVips_forEach (now : Z) (acc : Analysis * list string)
    (vip : VipRecord) : Analysis * list string :=
  let '(analysis, alerts) := acc in
  (* Platform detection *)
  let analysis :=
    if startsWith (player_id vip) "76561198" then incr_pc analysis
    else if startsWith (player_id vip) "11000"
            || startsWith (player_id vip) "76561199"
    then incr_console analysis
    else incr_unknown analysis in
  (* Expiration analysis *)
  match expiration vip with
  | None => (incr_permanent analysis, alerts)
  | Some e =>
    if String.eqb e EmptyString || String.eqb e "None"
    then (incr_permanent analysis, alerts)
    else
      let analysis := incr_temporary analysis in
      match Date_parse e with
      | None => (analysis, alerts) (* NaN compares false with everything *)
      | Some expDate =>
        let daysUntilExpiry := Math_ceil_div (expDate - now) msPerDay in
        if (daysUntilExpiry <? 0)%Z then
          (incr_expired analysis,
           push alerts ("❌ **" ++ name vip ++ "** expired "
                        ++ showZ (Z.abs daysUntilExpiry) ++ " days ago"))
        else if (daysUntilExpiry =? 0)%Z then
          (incr_expiringToday analysis,
           push alerts ("🚨 **" ++ name vip ++ "** expires TODAY"))
        else if (daysUntilExpiry <=? 7)%Z then
          (incr_expiringSoon analysis,
           push alerts ("⚠️ **" ++ name vip ++ "** expires in "
                        ++ showZ daysUntilExpiry ++ " days"))
        else (analysis, alerts)
      end
  end.

(** The classification of [analyzeVips]: the [analysis] object and the
    [alerts] array once the [forEach] is over. *)
Definition analyzeVips_classify (now : Z) (vipList : list VipRecord)
    : Analysis * list string :=
  fold_left (analyzeVips_forEach now) vipList
            (initial_analysis (length vipList), []).

End Analyzer.

(** ** The fallback formatter *)

(** The line feed of the source's [\n]. *)
Definition LF : string := String "010"%char EmptyString.

(** [a || b] on optional strings, [b] a string. *)
Definition or_else (o : option string) (d : string) : string :=
  match o with
  | Some s => if String.eqb s EmptyString then d else s
  | None => d
  end.

Section Formatter.

(** [date.toISOString()] *)
Variable toISOString : Z -> string.

(** What [vipList.forEach(vip => ...)] of [formatVipList] appends to
    [formatted] for one record. *)
Definition formatVipList_forEach (formatted : string) (vip : VipRecord)
    : string :=
  let expiration :=
    match expiration vip with
    | Some e =>
      if negb (String.eqb e EmptyString) && negb (String.eqb e "None")
      then " (expires: " ++ e ++ ")"
      else " (permanent)"
    | None => " (permanent)"
    end in
  let description :=
    match description vip with
    | Some d => if String.eqb d EmptyString then EmptyString else " - " ++ d
    | None => EmptyString
    end in
  formatted ++ (player_id vip ++ " # " ++ name vip ++ expiration
                ++ description ++ LF).

Definition formatVipList (now : Z) (vipList : list VipRecord) : string :=
  let formatted := "# VIP File Generated " ++ toISOString now ++ LF in
  let formatted :=
    formatted ++ ("# Total VIPs: " ++ show (length vipList) ++ LF) in
  let formatted :=
    formatted
    ++ ("# Format: STEAM_ID_64 # Player_Name (expiration)" ++ LF ++ LF) in
  fold_left formatVipList_forEach vipList formatted.

End Formatter.

(** *** Reading an export back *)

(** [text.split('\n')] *)
Fixpoint lines (text : string) : list string :=
  match text with
  | EmptyString => [EmptyString]
  | String c rest =>
    if Ascii.eqb c "010"%char then EmptyString :: lines rest
    else match lines rest with
         | h :: t => String c h :: t
         | [] => [String c EmptyString]
         end
  end.

(** The text before the first occurrence of [c] (all of it when there is
    none). *)
Fixpoint before (c : ascii) (s : string) : string :=
  match s with
  | EmptyString => EmptyString
  | String x rest =>
    if Ascii.eqb x c then EmptyString else String x (before c rest)
  end.

(** The text after the first occurrence of [c]. *)
Fixpoint after (c : ascii) (s : string) : option string :=
  match s with
  | EmptyString => None
  | String x rest => if Ascii.eqb x c then Some rest else after c rest
  end.

(** Modelled from the spec: the re-parser of one per-record line of the
    export format [<playerId> # <name> (<expiration-or-"permanent">)[ -
    <description>]], which the repository does not contain.  Comment lines
    (leading [#]) and blank lines carry no record; the player ID is the text
    before the first space, and the record is permanent when the first
    parenthesis opens [(permanent)]. *)
Definition parseVipLine (line : string) : option (string * bool) :=
  if String.eqb line EmptyString || String.prefix "#" line then None
  else Some (before " "%char line,
             match after "("%char line with
             | Some rest => String.prefix "permanent)" rest
             | None => false
             end).

(** Modelled from the spec: the re-parser of an export, which the repository
    does not contain: the player ID and the permanent flag of every record
    line, in order. *)
Definition parseVipFile (text : string) : list (string * bool) :=
  omap parseVipLine (lines text).

(** What the round trip is to recover of a record. *)
Definition vip_summary (vip : VipRecord) : string * bool :=
  (player_id vip, is_permanent vip).

(** [c] does not occur in [s]. *)
Fixpoint lacks (c : ascii) (s : string) : bool :=
  match s with
  | EmptyString => true
  | String x rest => negb (Ascii.eqb x c) && lacks c rest
  end.

Definition lacks_opt (c : ascii) (o : option string) : bool :=
  match o with
  | Some s => lacks c s
  | None => true
  end.

(** Records whose fields keep clear of the delimiters of the export format:
    no line feed anywhere; no space and no parenthesis in the player ID, which
    does not start a comment either; no parenthesis in the name. *)
Definition delimiter_free (vip : VipRecord) : bool :=
  lacks "010"%char (player_id vip) && lacks " "%char (player_id vip)
  && lacks "("%char (player_id vip) && negb (String.prefix "#" (player_id vip))
  && lacks "010"%char (name vip) && lacks "("%char (name vip)
  && lacks_opt "010"%char (expiration vip)
  && lacks_opt "010"%char (description vip).

(** ** The surroundings of the program *)

(** The three endpoints the manager calls. *)
Inductive Endpoint := get_status | download_vips | get_vip_ids.

Definition endpoint_path (e : Endpoint) : string :=
  match e with
  | get_status => "/api/get_status"
  | download_vips => "/api/download_vips"
  | get_vip_ids => "/api/get_vip_ids"
  end.

(** The object answered by [/api/get_status]. *)
Record ServerStatus := {
  status_name : option string;
  player_count : nat;
  player_count_max : nat
}.

(** The values a request can resolve to. *)
Inductive JsValue :=
| JNull
| JText (text : string)
| JVips (vipList : list VipRecord)
| JStatus (status : ServerStatus).

(** [response.data]: an object with a [result] key, or anything else. *)
Inductive ResponseData :=
| Enveloped (result : JsValue) (failed : bool) (error : option string)
| Bare (value : JsValue).

(** What [axios(config)] settles to: a response, or a rejection with
    [error.response?.status], [error.response?.data?.error] and
    [error.message]. *)
Inductive HttpResult :=
| Responded (data : ResponseData)
| Rejected (status : option nat) (data_error : option string)
           (message : string).

(** A file of the backup directory as [fs.stat] and [fs.unlink] see it. *)
Record File := {
  mtime : Z;
  content : string;
  stat_fails : bool;
  unlink_fails : bool
}.

(** The arguments of [sendDiscordNotification]. *)
Record Notification := {
  n_title : string;
  n_description : string;
  n_color : Z
}.

Inductive Job := BackupJob | HealthCheckJob.

(** A task of node-cron's registry. *)
Record CronTask := {
  expression : string;
  job : Job;
  timezone : string;
  running : bool
}.

Inductive Component := Service | Manager.
Inductive Level := LInfo | LSuccess | LError | LWarning.

(** What a run leaves behind outside the file system and the scheduler:
    [this.log] lines (without time stamp and prefix), [console.log] lines,
    requests to the remote API, calls of [sendDiscordNotification] and
    the posts to the webhook they lead to. *)
Inductive Event :=
| Logged (c : Component) (l : Level) (message : string)
| Printed (line : string)
| Requested (url : string)
| Notified (n : Notification)
| Posted (url : string) (n : Notification).

(** [process.env] as the constructors read it, and the fields they set. *)
Record Config := {
  baseUrl : string;
  apiToken : option string;
  webhookUrl : option string;
  backupSchedule : string;
  alertSchedule : string;
  retentionDays : Z;
  TIMEZONE : option string
}.

(** What the surroundings answer: the clock, the time zone, the remote API
    and the webhook (by the number of HTTP calls made before), and the
    faults of the file system.
    - [clock] is the instant a download or an analysis reads; [elapsed n] is
      the time that has passed since [clock] when a sweep reads the clock
      after [n] earlier sweeps.
    - [LocalTZA_utc t] is the offset of local time from UTC at the instant
      [t], and [LocalTZA_local l] the offset at which the local time value
      [l] is read back as an instant.
    - [invalid_data_error] is the message of [fs.writeFile] for data that is
      no string, buffer or iterable, [invalid_chunk_error] its message for
      a chunk of an iterable that is no string or buffer. *)
Record Env := {
  clock : Z;
  elapsed : nat -> Z;
  LocalTZA_utc : Z -> Z;
  LocalTZA_local : Z -> Z;
  remote : nat -> Endpoint -> HttpResult;
  webhook : nat -> option string;
  readdir_fails : bool;
  mkdir_error : option string;
  writeFile_error : string -> option string;
  invalid_data_error : string;
  invalid_chunk_error : string
}.

(** The state of a run: [httpCalls] counts the HTTP calls made, [sweeps] the
    sweeps begun. *)
Record World := {
  config : Config;
  env : Env;
  isRunning : bool;
  httpCalls : nat;
  sweeps : nat;
  backups : option (gmap string File);
  cronTasks : list CronTask;
  timers : list (Z * Job);
  signalHandlers : list string;
  trace : list Event
}.

Definition set_isRunning (b : bool) (w : World) : World :=
  {| config := config w; env := env w; isRunning := b;
     httpCalls := httpCalls w; sweeps := sweeps w; backups := backups w;
     cronTasks := cronTasks w; timers := timers w;
     signalHandlers := signalHandlers w; trace := trace w |}.

Definition set_httpCalls (n : nat) (w : World) : World :=
  {| config := config w; env := env w; isRunning := isRunning w;
     httpCalls := n; sweeps := sweeps w; backups := backups w;
     cronTasks := cronTasks w; timers := timers w;
     signalHandlers := signalHandlers w; trace := trace w |}.

Definition set_sweeps (n : nat) (w : World) : World :=
  {| config := config w; env := env w; isRunning := isRunning w;
     httpCalls := httpCalls w; sweeps := n; backups := backups w;
     cronTasks := cronTasks w; timers := timers w;
     signalHandlers := signalHandlers w; trace := trace w |}.

Definition set_backups (d : option (gmap string File)) (w : World) : World :=
  {| config := config w; env := env w; isRunning := isRunning w;
     httpCalls := httpCalls w; sweeps := sweeps w; backups := d;
     cronTasks := cronTasks w; timers := timers w;
     signalHandlers := signalHandlers w; trace := trace w |}.

Definition set_cronTasks (l : list CronTask) (w : World) : World :=
  {| config := config w; env := env w; isRunning := isRunning w;
     httpCalls := httpCalls w; sweeps := sweeps w; backups := backups w;
     cronTasks := l; timers := timers w;
     signalHandlers := signalHandlers w; trace := trace w |}.

Definition set_timers (l : list (Z * Job)) (w : World) : World :=
  {| config := config w; env := env w; isRunning := isRunning w;
     httpCalls := httpCalls w; sweeps := sweeps w; backups := backups w;
     cronTasks := cronTasks w; timers := l;
     signalHandlers := signalHandlers w; trace := trace w |}.

Definition set_signalHandlers (l : list string) (w : World) : World :=
  {| config := config w; env := env w; isRunning := isRunning w;
     httpCalls := httpCalls w; sweeps := sweeps w; backups := backups w;
     cronTasks := cronTasks w; timers := timers w;
     signalHandlers := l; trace := trace w |}.

Definition set_trace (l : list Event) (w : World) : World :=
  {| config := config w; env := env w; isRunning := isRunning w;
     httpCalls := httpCalls w; sweeps := sweeps w; backups := backups w;
     cronTasks := cronTasks w; timers := timers w;
     signalHandlers := signalHandlers w; trace := l |}.

(** ** Methods as state transformers with exceptions *)

Inductive Outcome (A : Type) : Type :=
| Ok (a : A)
| Throw (message : string).

Arguments Ok {A} a.
Arguments Throw {A} message.

Definition M (A : Type) : Type := World -> Outcome A * World.

Definition ret {A : Type} (a : A) : M A := fun w => (Ok a, w).

Definition throw {A : Type} (message : string) : M A :=
  fun w => (Throw message, w).

Definition bind {A B : Type} (m : M A) (k : A -> M B) : M B :=
  fun w =>
    match m w with
    | (Ok a, w') => k a w'
    | (Throw message, w') => (Throw message, w')
    end.

(** [try { m } catch (error) { handler(error.message) }] *)
Definition try_catch {A : Type} (m : M A) (handler : string -> M A) : M A :=
  fun w =>
    match m w with
    | (Ok a, w') => (Ok a, w')
    | (Throw message, w') => handler message w'
    end.

Notation "'let*' x ':=' m 'in' k" := (bind m (fun x => k))
  (at level 10, x binder, m at level 100, k at level 200).

Definition emit (e : Event) : M unit :=
  fun w => (Ok tt, set_trace (push (trace w) e) w).

(** [this.log(message, level)] of either class. *)
Definition log (c : Component) (message : string) (l : Level) : M unit :=
  emit (Logged c l message).

(** [console.log(line)] *)
Definition console_log (line : string) : M unit := emit (Printed line).

(** The calls of [sendDiscordNotification] recorded in a trace. *)
Fixpoint notifications (t : list Event) : list Notification :=
  match t with
  | [] => []
  | Notified n :: rest => n :: notifications rest
  | _ :: rest => notifications rest
  end.

Definition notified (w : World) : list Notification :=
  notifications (trace w).

(** The requests to the remote API recorded in a trace. *)
Fixpoint requests (t : list Event) : list string :=
  match t with
  | [] => []
  | Requested url :: rest => url :: requests rest
  | _ :: rest => requests rest
  end.

Definition requested (w : World) : list string := requests (trace w).

(** ** The file system of the backup directory *)

(** [path.join(this.backupDir, file)] with [this.backupDir = './backups'] *)
Definition path_join_backupDir (file : string) : string := "backups/" ++ file.

(** [fs.mkdir(this.backupDir, { recursive: true })]: nothing to do when the
    directory exists. *)
Definition fs_mkdir : M unit :=
  fun w =>
    match backups w with
    | Some _ => (Ok tt, w)
    | None =>
      match mkdir_error (env w) with
      | Some message => (Throw message, w)
      | None => (Ok tt, set_backups (Some ∅) w)
      end
    end.

(** [fs.writeFile(path.join(this.backupDir, file), data)] *)
Definition fs_writeFile (file : string) (data : string) : M unit :=
  fun w =>
    match backups w with
    | None =>
      (Throw ("ENOENT: no such file or directory, open '"
              ++ path_join_backupDir file ++ "'"), w)
    | Some files =>
      match writeFile_error (env w) file with
      | Some message => (Throw message, w)
      | None =>
        (Ok tt,
         set_backups
           (Some (<[file := {| mtime := clock (env w); content := data;
                               stat_fails := false;
                               unlink_fails := false |}]> files)) w)
      end
    end.

(** [fs.writeFile(path.join(this.backupDir, file), data)] for an array
    [data]: an array is iterable, so the file is opened, and with that
    created or emptied, and the array is written chunk by chunk; a chunk
    that is no string or buffer, as a record is, is refused. *)
Definition fs_writeFile_chunks (file : string) (chunks : list VipRecord)
    : M unit :=
  fun w =>
    match backups w with
    | None =>
      (Throw ("ENOENT: no such file or directory, open '"
              ++ path_join_backupDir file ++ "'"), w)
    | Some files =>
      match writeFile_error (env w) file with
      | Some message => (Throw message, w)
      | None =>
        let w' :=
          set_backups
            (Some (<[file := {| mtime := clock (env w);
                                content := EmptyString;
                                stat_fails := false;
                                unlink_fails := false |}]> files)) w in
        match chunks with
        | [] => (Ok tt, w')
        | _ :: _ => (Throw (invalid_chunk_error (env w)), w')
        end
      end
    end.

(** [fs.readdir(this.backupDir).catch(() => [])] *)
Definition fs_readdir_or_empty (w : World) : list string :=
  match backups w with
  | Some files => if readdir_fails (env w) then [] else (map_to_list files).*1
  | None => []
  end.

(** [(await fs.stat(filepath)).mtime] *)
Definition fs_stat_mtime (file : string) : M Z :=
  fun w =>
    match backups w with
    | Some files =>
      match files !! file with
      | Some f =>
        if stat_fails f
        then (Throw ("EACCES: permission denied, stat '"
                     ++ path_join_backupDir file ++ "'"), w)
        else (Ok (mtime f), w)
      | None =>
        (Throw ("ENOENT: no such file or directory, stat '"
                ++ path_join_backupDir file ++ "'"), w)
      end
    | None =>
      (Throw ("ENOENT: no such file or directory, stat '"
              ++ path_join_backupDir file ++ "'"), w)
    end.

(** [fs.unlink(filepath)] *)
Definition fs_unlink (file : string) : M unit :=
  fun w =>
    match backups w with
    | Some files =>
      match files !! file with
      | Some f =>
        if unlink_fails f
        then (Throw ("EPERM: operation not permitted, unlink '"
                     ++ path_join_backupDir file ++ "'"), w)
        else (Ok tt, set_backups (Some (delete file files)) w)
      | None =>
        (Throw ("ENOENT: no such file or directory, unlink '"
                ++ path_join_backupDir file ++ "'"), w)
      end
    | None =>
      (Throw ("ENOENT: no such file or directory, unlink '"
              ++ path_join_backupDir file ++ "'"), w)
    end.

(** ** VIPManager *)

(** Truthiness of a resolved value. *)
Definition js_truthy (v : JsValue) : bool :=
  match v with
  | JNull => false
  | JText text => negb (String.eqb text EmptyString)
  | JVips _ => true
  | JStatus _ => true
  end.

(** [text.length]: UTF-16 code units of a UTF-8 byte string. *)
Definition utf16_units (c : ascii) : nat :=
  let n := nat_of_ascii c in
  if (n <? 128)%nat then 1
  else if (n <? 192)%nat then 0
  else if (n <? 240)%nat then 1
  else 2.

Fixpoint js_length (text : string) : nat :=
  match text with
  | EmptyString => 0
  | String c rest => utf16_units c + js_length rest
  end.

(** [text.replace(/[:.]/g, '-')] *)
Fixpoint replace_colon_dot (text : string) : string :=
  match text with
  | EmptyString => EmptyString
  | String c rest =>
    String (if Ascii.eqb c ":"%char || Ascii.eqb c "."%char
            then "-"%char else c)
           (replace_colon_dot rest)
  end.

(** [error.response?.status === code] *)
Definition status_is (status : option nat) (code : nat) : bool :=
  match status with
  | Some c => Nat.eqb c code
  | None => false
  end.

(** [makeRequest(endpoint)]; every call of the program leaves [method] at
    ['GET'] and [data] at [null]. *)
Definition makeRequest (endpoint : Endpoint) : M JsValue :=
  fun w =>
    if negb (truthy (apiToken (config w)))
    then (Throw "CRCON_API_TOKEN is required for bot authentication", w)
    else
      let url := baseUrl (config w) ++ endpoint_path endpoint in
      let w := snd (log Manager ("Making GET request to "
                                 ++ endpoint_path endpoint) LInfo w) in
      let answer := remote (env w) (httpCalls w) endpoint in
      let w := snd (emit (Requested url) (set_httpCalls (S (httpCalls w)) w)) in
      match answer with
      | Responded (Enveloped result failed error) =>
        if failed
        then (* thrown inside the try: its catch wraps the message *)
          (Throw ("Request failed: " ++ or_else error "CRCON request failed"),
           w)
        else (Ok result, w)
      | Responded (Bare value) => (Ok value, w)
      | Rejected status data_error message =>
        if status_is status 401
        then (Throw ("API token authentication failed - "
                     ++ "check your CRCON_API_TOKEN"), w)
        else if status_is status 403
        then (Throw "API token does not have required permissions", w)
        else if truthy data_error
        then (Throw ("CRCON error: " ++ or_else data_error EmptyString), w)
        else (Throw ("Request failed: " ++ message), w)
      end.

(** [sendDiscordNotification(title, description, color)] *)
Definition sendDiscordNotification (title description : string) (color : Z)
    : M unit :=
  let n := {| n_title := title; n_description := description;
              n_color := color |} in
  let* _ := emit (Notified n) in
  fun w =>
    if negb (truthy (webhookUrl (config w)))
    then log Manager "No Discord webhook configured, skipping notification"
             LInfo w
    else
      let answer := webhook (env w) (httpCalls w) in
      let url := or_else (webhookUrl (config w)) EmptyString in
      let w := snd (emit (Posted url n)
                         (set_httpCalls (S (httpCalls w)) w)) in
      match answer with
      | None =>
        log Manager "Discord notification sent successfully" LSuccess w
      | Some message =>
        log Manager ("Failed to send Discord notification: " ++ message)
            LWarning w
      end.

(** What [testConnection] resolves to. *)
Inductive ConnectionTest :=
| Connected (serverName : string) (playerCount maxPlayers : nat)
| Disconnected (error : string).

Definition connected (t : ConnectionTest) : bool :=
  match t with
  | Connected _ _ _ => true
  | Disconnected _ => false
  end.

(** [status.name || 'Unknown Server'], [status.player_count || 0] and
    [status.player_count_max || 0] of a truthy [status]. *)
Definition status_fields (v : JsValue) : string * nat * nat :=
  match v with
  | JStatus st =>
    (or_else (status_name st) "Unknown Server", player_count st,
     player_count_max st)
  | _ => ("Unknown Server", 0, 0)
  end.

Definition testConnection : M ConnectionTest :=
  try_catch
    (let* _ := log Manager "Testing CRCON connection..." LInfo in
     let* status := makeRequest get_status in
     if js_truthy status then
       let '(serverName, playerCount, maxPlayers) := status_fields status in
       let* _ := log Manager ("✅ Connected to: " ++ serverName) LSuccess in
       let* _ := log Manager ("👥 Players: " ++ show playerCount ++ "/"
                              ++ show maxPlayers) LInfo in
       ret (Connected serverName playerCount maxPlayers)
     else throw "No status data received")
    (fun message =>
       let* _ := log Manager ("❌ Connection test failed: " ++ message)
                     LError in
       ret (Disconnected message)).

(** What [downloadVipFile] resolves to; [dl_size] is the [size] key, a name
    taken by the size of finite maps. *)
Record DownloadResult := {
  filepath : string;
  filename : string;
  dl_size : nat
}.

(** [analysis.expired > 0 || analysis.expiringToday > 0 ||
    analysis.expiringSoon > 0] *)
Definition needs_attention (a : Analysis) : bool :=
  (0 <? expired a)%nat || (0 <? expiringToday a)%nat
  || (0 <? expiringSoon a)%nat.

(** The texts [analyzeVips] builds from a finished [analysis]. *)
Definition analysis_display (a : Analysis) : list string :=
  app
  [LF ++ "📊 VIP Analysis Report";
   "========================";
   "👥 Total VIPs: " ++ show (total a);
   "🔒 Permanent: " ++ show (permanent a);
   "⏱️ Temporary: " ++ show (temporary a);
   "❌ Expired: " ++ show (expired a);
   "⚠️ Expiring Soon (≤7 days): " ++ show (expiringSoon a);
   "🚨 Expiring Today: " ++ show (expiringToday a);
   "💻 PC Players: " ++ show (pc (platforms a));
   "🎮 Console Players: " ++ show (console (platforms a))]
  (if (0 <? unknown (platforms a))%nat
   then ["❓ Unknown Platform: " ++ show (unknown (platforms a))]
   else []).

Definition analysis_report (iso : string) (a : Analysis)
    (alerts : list string) : string :=
  let reportContent := "VIP Analysis Report - " ++ iso ++ LF in
  let reportContent :=
    reportContent ++ ("Total VIPs: " ++ show (total a) ++ LF) in
  let reportContent :=
    reportContent ++ ("Permanent: " ++ show (permanent a) ++ LF) in
  let reportContent :=
    reportContent ++ ("Temporary: " ++ show (temporary a) ++ LF) in
  let reportContent :=
    reportContent ++ ("Expired: " ++ show (expired a) ++ LF) in
  let reportContent :=
    reportContent ++ ("Expiring Soon: " ++ show (expiringSoon a) ++ LF) in
  let reportContent :=
    reportContent
    ++ ("Expiring Today: " ++ show (expiringToday a) ++ LF ++ LF) in
  match alerts with
  | [] => reportContent
  | _ =>
    fold_left (fun reportContent alert => reportContent ++ (alert ++ LF))
              alerts (reportContent ++ "ALERTS:" ++ LF)
  end.

Definition analysis_notification (a : Analysis) : string :=
  let notification := "📊 **VIP Status Alert**" ++ LF in
  let notification :=
    if (0 <? expiringToday a)%nat
    then notification ++ ("🚨 " ++ show (expiringToday a) ++ " expire TODAY"
                          ++ LF)
    else notification in
  let notification :=
    if (0 <? expiringSoon a)%nat
    then notification ++ ("⚠️ " ++ show (expiringSoon a)
                          ++ " expire within 7 days" ++ LF)
    else notification in
  if (0 <? expired a)%nat
  then notification ++ ("❌ " ++ show (expired a) ++ " already expired" ++ LF)
  else notification.

(** [printer(line)] for every line, in order. *)
Fixpoint forEach_M {A : Type} (f : A -> M unit) (l : list A) : M unit :=
  match l with
  | [] => ret tt
  | x :: rest => let* _ := f x in forEach_M f rest
  end.

Section Runtime.

(** [new Date(text).getTime()], [None] for the Invalid Date. *)
Variable Date_parse : string -> option Z.

(** [date.toISOString()] *)
Variable toISOString : Z -> string.

(** [cron.validate(expression)] *)
Variable cron_validate : string -> bool.

Definition downloadVipFile : M DownloadResult :=
  try_catch
    (let* _ := log Manager "Downloading VIP file from CRCON..." LInfo in
     (* Try the download endpoint first *)
     let* vipData :=
       try_catch
         (let* vipData := makeRequest download_vips in
          let* _ := log Manager
                        "VIP file downloaded via download_vips endpoint"
                        LSuccess in
          ret vipData)
         (fun _ =>
            let* _ := log Manager
                          "Download endpoint failed, trying VIP list endpoint..."
                          LWarning in
            (* Fallback to getting VIP list and formatting it *)
            let* vipList := makeRequest get_vip_ids in
            match vipList with
            | JVips l =>
              fun w =>
                (let* _ := log Manager "VIP list retrieved and formatted"
                               LSuccess in
                 ret (JText (formatVipList toISOString (clock (env w)) l)))
                  w
            | _ => throw "No VIP data available from either endpoint"
            end) in
     if negb (js_truthy vipData) then throw "No VIP file data received"
     else
       (* Ensure backup directory exists *)
       let* _ := fs_mkdir in
       (* Save with timestamp *)
       fun w =>
         let timestamp := replace_colon_dot (toISOString (clock (env w))) in
         let filename := "vip_file_" ++ timestamp ++ ".txt" in
         let filepath := path_join_backupDir filename in
         (* [fs.writeFile(filepath, vipData)] and [vipData.length], by
            what [vipData] is *)
         (let* length :=
            match vipData with
            | JText text =>
              let* _ := fs_writeFile filename text in ret (js_length text)
            | JVips chunks =>
              let* _ := fs_writeFile_chunks filename chunks in
              ret (List.length chunks)
            | _ => throw (invalid_data_error (env w))
            end in
          let* _ := log Manager ("VIP file saved: " ++ filename) LSuccess in
          let* _ := log Manager ("File path: " ++ filepath) LInfo in
          let* _ := log Manager ("File size: " ++ show length
                                 ++ " bytes") LInfo in
          let* _ := sendDiscordNotification
                      "VIP File Downloaded"
                      ("✅ VIP file backed up successfully" ++ LF
                       ++ "📁 **File:** " ++ filename ++ LF
                       ++ "📊 **Size:** " ++ show length
                       ++ " bytes")
                      0x00FF00 in
          ret {| filepath := filepath; filename := filename;
                 dl_size := length |}) w)
    (fun message =>
       let* _ := log Manager ("Download failed: " ++ message) LError in
       let* _ := sendDiscordNotification "VIP Download Failed"
                                         ("❌ " ++ message) 0xFF0000 in
       throw message).

Definition analyzeVips : M Analysis :=
  try_catch
    (let* _ := log Manager "Analyzing VIP data..." LInfo in
     let* vipList := makeRequest get_vip_ids in
     match vipList with
     | JVips vipList =>
       fun w =>
         let now := clock (env w) in
         let '(analysis, alerts) :=
           analyzeVips_classify Date_parse now vipList in
         (* Display analysis *)
         (let* _ := forEach_M console_log (analysis_display analysis) in
          (* Save analysis report *)
          let timestamp := replace_colon_dot (toISOString now) in
          let report := "vip_analysis_" ++ timestamp ++ ".txt" in
          let reportContent :=
            analysis_report (toISOString now) analysis alerts in
          let* _ := fs_mkdir in
          let* _ := fs_writeFile report reportContent in
          (* Send Discord notification for critical issues *)
          let* _ :=
            if needs_attention analysis
            then sendDiscordNotification "VIP Status Alert"
                   (analysis_notification analysis) 0xFF8C00
            else ret tt in
          ret analysis) w
     | _ => throw "No VIP data available"
     end)
    (fun message =>
       let* _ := log Manager ("Analysis failed: " ++ message) LError in
       throw message).

(** The range of time values: beyond 8.64e15 milliseconds on either side of
    the epoch [TimeClip] gives the Invalid Date. *)
Definition maxTimeValue : Z := 8640000000000000.

Definition TimeClip (time : Z) : option Z :=
  if (Z.abs time <=? maxTimeValue)%Z then Some time else None.

(** [cutoffDate]: [new Date()], read at [now], after
    [cutoffDate.setDate(cutoffDate.getDate() - keepDays)].  [setDate] works
    on the local time of the date: the day of the month less [keepDays] is
    the day [keepDays] days earlier on the local calendar ([MakeDay]), at
    the same local time of day ([MakeDate]); the local time value is read
    back as an instant ([UTC]) and clipped ([TimeClip]). *)
Definition cutoffDate (e : Env) (now keepDays : Z) : option Z :=
  let local := (now + LocalTZA_utc e now)%Z in
  let newDate := (local - keepDays * msPerDay)%Z in
  TimeClip (newDate - LocalTZA_local e newDate).

(** [mtime < cutoffDate]: false against the Invalid Date. *)
Definition Date_lt (mtime : Z) (cutoff : option Z) : bool :=
  match cutoff with
  | Some time => (mtime <? time)%Z
  | None => false
  end.

(** [new Date()] of a sweep. *)
Definition sweepDate (w : World) : Z :=
  (clock (env w) + elapsed (env w) (sweeps w))%Z.

Definition new_Date_sweep : M Z :=
  fun w => (Ok (sweepDate w), set_sweeps (S (sweeps w)) w).

(** The body of [for (const file of files)] in [cleanupOldBackups], with
    [deletedCount] threaded through; an exception of [fs.stat] or
    [fs.unlink] is caught and the file skipped. *)
Definition cleanupOldBackups_file (cutoff : option Z) (deletedCount : nat)
    (file : string) : M nat :=
  try_catch
    (let* mtime := fs_stat_mtime file in
     if Date_lt mtime cutoff then
       let* _ := fs_unlink file in
       let* _ := log Manager ("Deleted old backup: " ++ file) LInfo in
       ret (S deletedCount)
     else ret deletedCount)
    (fun _ => ret deletedCount).

Fixpoint cleanupOldBackups_loop (cutoff : option Z) (files : list string)
    (deletedCount : nat) : M nat :=
  match files with
  | [] => ret deletedCount
  | file :: rest =>
    let* deletedCount := cleanupOldBackups_file cutoff deletedCount file in
    cleanupOldBackups_loop cutoff rest deletedCount
  end.

Definition cleanupOldBackups (keepDays : Z) : M nat :=
  try_catch
    (let* _ := log Manager ("Cleaning up backups older than "
                            ++ showZ keepDays ++ " days...") LInfo in
     fun w =>
       let files := fs_readdir_or_empty w in
       (let* now := new_Date_sweep in
        let cutoff := cutoffDate (env w) now keepDays in
        let* deletedCount := cleanupOldBackups_loop cutoff files 0 in
        let* _ := log Manager ("Cleanup complete: " ++ show deletedCount
                               ++ " files removed") LSuccess in
        ret deletedCount) w)
    (fun message =>
       let* _ := log Manager ("Cleanup failed: " ++ message) LError in
       ret 0).

(** ** VIPService *)

Definition performScheduledBackup : M unit :=
  try_catch
    (let* _ := log Service "Starting scheduled backup..." LInfo in
     (* Download VIP file *)
     let* downloadResult := downloadVipFile in
     (* Analyze VIP status *)
     let* analysis := analyzeVips in
     (* Cleanup old backups *)
     let* deletedCount :=
       fun w => cleanupOldBackups (retentionDays (config w)) w in
     let* _ := log Service "Scheduled backup completed successfully"
                   LSuccess in
     (* Send summary notification *)
     sendDiscordNotification
       "Scheduled Backup Complete"
       ("✅ **Backup Summary**" ++ LF ++ "📁 VIP file backed up" ++ LF
        ++ "📊 " ++ show (total analysis) ++ " VIPs analyzed" ++ LF
        ++ "🧹 " ++ show deletedCount ++ " old files cleaned")
       0x00FF00)
    (fun message =>
       let* _ := log Service ("Scheduled backup failed: " ++ message)
                     LError in
       sendDiscordNotification "Backup Failed"
         ("❌ Scheduled backup failed: " ++ message) 0xFF0000).

(** [criticalIssues] of [performHealthCheck] *)
Definition criticalIssues (analysis : Analysis) : list string :=
  let criticalIssues := [] in
  let criticalIssues :=
    if (0 <? expiringToday analysis)%nat
    then push criticalIssues
              ("🚨 " ++ show (expiringToday analysis) ++ " VIPs expire TODAY")
    else criticalIssues in
  let criticalIssues :=
    if (0 <? expired analysis)%nat
    then push criticalIssues
              ("❌ " ++ show (expired analysis) ++ " VIPs have expired")
    else criticalIssues in
  if (0 <? expiringSoon analysis)%nat
  then push criticalIssues
            ("⚠️ " ++ show (expiringSoon analysis)
             ++ " VIPs expire within 7 days")
  else criticalIssues.

Definition performHealthCheck : M unit :=
  try_catch
    (let* _ := log Service "Performing health check..." LInfo in
     let* connectionTest := testConnection in
     match connectionTest with
     | Disconnected error => throw error
     | Connected _ _ _ =>
       let* analysis := analyzeVips in
       (* Check for critical issues *)
       let criticalIssues := criticalIssues analysis in
       (* Send alerts if needed *)
       let* _ :=
         if (0 <? length criticalIssues)%nat
         then sendDiscordNotification
                "VIP Alert"
                ("🔔 **VIP Status Alert**" ++ LF
                 ++ String.concat LF criticalIssues)
                0xFF8C00
         else ret tt in
       log Service ("Health check completed - " ++ show (total analysis)
                    ++ " VIPs checked") LSuccess
     end)
    (fun message =>
       let* _ := log Service ("Health check failed: " ++ message) LError in
       sendDiscordNotification "Health Check Failed"
         ("❌ VIP health check failed: " ++ message) 0xFF0000).

(** [cron.schedule(expression, job, { scheduled: false, timezone })]: the
    task joins the registry stopped; its place there is the handle. *)
Definition cron_schedule (expression : string) (job : Job)
    (timezone : string) : M nat :=
  fun w =>
    (Ok (length (cronTasks w)),
     set_cronTasks
       (push (cronTasks w)
             {| expression := expression; job := job;
                timezone := timezone; running := false |}) w).

Definition set_running (b : bool) (t : CronTask) : CronTask :=
  {| expression := expression t; job := job t; timezone := timezone t;
     running := b |}.

(** [task.start()] *)
Definition task_start (task : nat) : M unit :=
  fun w =>
    (Ok tt,
     set_cronTasks (alter (set_running true) task (cronTasks w)) w).

(** [cron.getTasks().forEach(task => task.stop())] *)
Definition cron_stop_all : M unit :=
  fun w => (Ok tt, set_cronTasks (map (set_running false) (cronTasks w)) w).

(** [setTimeout(() => job, delay)] *)
Definition setTimeout (job : Job) (delay : Z) : M unit :=
  fun w => (Ok tt, set_timers (push (timers w) (delay, job)) w).

(** [process.on(signal, handler)] *)
Definition process_on (signal : string) : M unit :=
  fun w => (Ok tt, set_signalHandlers (push (signalHandlers w) signal) w).

(** [start()]; the startup notification, which the source does not
    await, is taken to complete in place. *)
Definition start : M unit :=
  fun w =>
    if isRunning w
    then log Service "Service is already running" LWarning w
    else
      (let* _ := log Service "Starting VIP Service..." LInfo in
       let* _ := log Service ("Backup schedule: "
                              ++ backupSchedule (config w)) LInfo in
       let* _ := log Service ("Alert schedule: "
                              ++ alertSchedule (config w)) LInfo in
       let* _ := log Service ("Retention period: "
                              ++ showZ (retentionDays (config w))
                              ++ " days") LInfo in
       (* Validate cron expressions *)
       if negb (cron_validate (backupSchedule (config w)))
       then throw ("Invalid backup schedule: " ++ backupSchedule (config w))
       else if negb (cron_validate (alertSchedule (config w)))
       then throw ("Invalid alert schedule: " ++ alertSchedule (config w))
       else
         (* Schedule backup task *)
         let* backupTask :=
           cron_schedule (backupSchedule (config w)) BackupJob
                         (or_else (TIMEZONE (config w)) "UTC") in
         (* Schedule health check task *)
         let* healthTask :=
           cron_schedule (alertSchedule (config w)) HealthCheckJob
                         (or_else (TIMEZONE (config w)) "UTC") in
         (* Start tasks *)
         let* _ := task_start backupTask in
         let* _ := task_start healthTask in
         let* _ := fun w => (Ok tt, set_isRunning true w) in
         let* _ := log Service "VIP Service started successfully"
                       LSuccess in
         (* Send startup notification *)
         let* _ := sendDiscordNotification
                     "VIP Service Started"
                     ("🚀 **VIP Service Online**" ++ LF
                      ++ "📅 Backup: " ++ backupSchedule (config w) ++ LF
                      ++ "🔔 Health checks: " ++ alertSchedule (config w))
                     0x00FF00 in
         (* Perform initial health check after 30 seconds *)
         let* _ := setTimeout HealthCheckJob 30000 in
         (* Handle graceful shutdown *)
         let* _ := process_on "SIGINT" in
         process_on "SIGTERM") w.

Definition stop : M unit :=
  fun w =>
    if negb (isRunning w)
    then log Service "Service is not running" LWarning w
    else
      (let* _ := log Service "Stopping VIP Service..." LInfo in
       let* _ := cron_stop_all in
       let* _ := fun w => (Ok tt, set_isRunning false w) in
       log Service "VIP Service stopped" LSuccess) w.

(** The tasks of the registry that fire: the active triggers. *)
Definition activeTriggers (w : World) : list CronTask :=
  List.filter running (cronTasks w).

End Runtime.

(** ** Vocabulary of the properties *)

(** [l.filter(p).length] *)
Definition count_where {A : Type} (p : A -> bool) (l : list A) : nat :=
  length (List.filter p l).

(** The three alert buckets of an [analysis] together. *)
Definition alerted (a : Analysis) : nat :=
  expired a + expiringToday a + expiringSoon a.

Definition b2n (b : bool) : nat := if b then 1 else 0.

(** What the manager's methods leave alone: the configuration, the
    surroundings' answers, the service flag and the scheduler. *)
Definition same_setting (w w' : World) : Prop :=
  config w' = config w /\ env w' = env w /\ isRunning w' = isRunning w /\
  cronTasks w' = cronTasks w /\ timers w' = timers w /\
  signalHandlers w' = signalHandlers w.

(** What a stretch of a run from [w] to [w'] has done besides touching the
    backup directory: it has sent the notifications [notes] and requested
    [urls], in this order, and left the setting alone. *)
Record step_facts (w w' : World) (notes : list Notification)
    (urls : list string) : Prop := {
  sf_setting : same_setting w w';
  sf_notified : notified w' = (notified w ++ notes)%list;
  sf_requested : requested w' = (requested w ++ urls)%list
}.

Definition note (title description : string) (color : Z) : Notification :=
  {| n_title := title; n_description := description; n_color := color |}.

(** The notification [downloadVipFile] sends on its way out. *)
Definition download_note (r : Outcome DownloadResult) : Notification :=
  match r with
  | Ok res =>
    note "VIP File Downloaded"
         ("✅ VIP file backed up successfully" ++ LF
          ++ "📁 **File:** " ++ filename res ++ LF
          ++ "📊 **Size:** " ++ show (dl_size res) ++ " bytes")
         0x00FF00
  | Throw message => note "VIP Download Failed" ("❌ " ++ message) 0xFF0000
  end.

(** The notification [analyzeVips] sends on its way out, if any. *)
Definition analysis_notes (r : Outcome Analysis) : list Notification :=
  match r with
  | Ok a =>
    if needs_attention a
    then [note "VIP Status Alert" (analysis_notification a) 0xFF8C00]
    else []
  | Throw _ => []
  end.

(** The notifications of [performScheduledBackup] itself. *)
Definition backup_failed_note (message : string) : Notification :=
  note "Backup Failed" ("❌ Scheduled backup failed: " ++ message) 0xFF0000.

Definition backup_summary_note (a : Analysis) (deletedCount : nat)
    : Notification :=
  note "Scheduled Backup Complete"
       ("✅ **Backup Summary**" ++ LF ++ "📁 VIP file backed up" ++ LF
        ++ "📊 " ++ show (total a) ++ " VIPs analyzed" ++ LF
        ++ "🧹 " ++ show deletedCount ++ " old files cleaned")
       0x00FF00.

(** The notifications of [performHealthCheck] itself. *)
Definition health_failed_note (message : string) : Notification :=
  note "Health Check Failed" ("❌ VIP health check failed: " ++ message)
       0xFF0000.

Definition health_alert_note (a : Analysis) : Notification :=
  note "VIP Alert"
       ("🔔 **VIP Status Alert**" ++ LF
        ++ String.concat LF (criticalIssues a))
       0xFF8C00.

(** Failure notifications are the red ones ([0xFF0000]); alert notifications
    the orange ones ([0xFF8C00]); the summary is the one titled
    [Scheduled Backup Complete]. *)
Definition is_failure (n : Notification) : bool := (n_color n =? 0xFF0000)%Z.
Definition is_alert (n : Notification) : bool := (n_color n =? 0xFF8C00)%Z.
Definition is_summary (n : Notification) : bool :=
  String.eqb (n_title n) "Scheduled Backup Complete".

(** ** Vocabulary of the retention sweep *)

(** An instant before the cutoff of a sweep; none is before the Invalid
    Date. *)
Definition before_cutoff (time : Z) (cutoff : option Z) : Prop :=
  match cutoff with
  | Some c => (time < c)%Z
  | None => False
  end.

(** A file a sweep with [cutoff] removes: it can be inspected, its
    modification time is before the cutoff, and it can be deleted. *)
Definition old_and_accessible (cutoff : option Z) (f : File) : Prop :=
  stat_fails f = false /\ before_cutoff (mtime f) cutoff /\
  unlink_fails f = false.

Global Instance before_cutoff_dec (time : Z) (cutoff : option Z) :
  Decision (before_cutoff time cutoff).
Proof. destruct cutoff; cbn; apply _. Defined.

Global Instance old_and_accessible_dec (cutoff : option Z) (f : File) :
  Decision (old_and_accessible cutoff f).
Proof. unfold old_and_accessible. apply _. Defined.

(** The files a sweep removes from a directory, and those it leaves. *)
Definition removed (cutoff : option Z) (files : gmap string File)
    : gmap string File :=
  filter (fun entry => old_and_accessible cutoff entry.2) files.

Definition kept (cutoff : option Z) (files : gmap string File)
    : gmap string File :=
  filter (fun entry => ~ old_and_accessible cutoff entry.2) files.

(** A cutoff that is not later than another: the Invalid Date takes no
    file, so it is later than none. *)
Definition not_later (second first : option Z) : Prop :=
  match second, first with
  | Some c2, Some c1 => (c2 <= c1)%Z
  | Some _, None => False
  | None, _ => True
  end.

(** The cutoff of [cleanupOldBackups(keepDays)] started in [w]: the sweep's
    reading of the clock, moved back by [setDate]. *)
Definition sweep_cutoff (keepDays : Z) (w : World) : option Z :=
  cutoffDate (env w) (sweepDate w) keepDays.

(** The backup directory after [cleanupOldBackups(keepDays)], and the count
    it returns: a missing or unreadable directory is left as it is. *)
Definition backups_after_cleanup (keepDays : Z) (w : World)
    : option (gmap string File) :=
  match backups w with
  | Some files =>
    if readdir_fails (env w) then Some files
    else Some (kept (sweep_cutoff keepDays w) files)
  | None => None
  end.

Definition deleted_by_cleanup (keepDays : Z) (w : World) : nat :=
  match backups w with
  | Some files =>
    if readdir_fails (env w) then 0
    else size (removed (sweep_cutoff keepDays w) files)
  | None => 0
  end.

(** ** Vocabulary of the scheduler *)

(** The two triggers [start] registers and starts. *)
Definition backup_trigger (c : Config) : CronTask :=
  {| expression := backupSchedule c; job := BackupJob;
     timezone := or_else (TIMEZONE c) "UTC"; running := true |}.

Definition health_trigger (c : Config) : CronTask :=
  {| expression := alertSchedule c; job := HealthCheckJob;
     timezone := or_else (TIMEZONE c) "UTC"; running := true |}.

(** The warning either no-op leaves in the log. *)
Definition warned (line : string) (w : World) : World :=
  set_trace (push (trace w) (Logged Service LWarning line)) w.

(** ** Vocabulary of the export format *)

(** The per-record line of [formatVipList], without its line feed. *)
Definition record_line (v : VipRecord) : string :=
  player_id v ++ " # " ++ name v
  ++ (if is_permanent v then " (permanent)"
      else " (expires: " ++ or_else (expiration v) EmptyString ++ ")")
  ++ (match description v with
      | Some d => if String.eqb d EmptyString then EmptyString else " - " ++ d
      | None => EmptyString
      end).

(** ** Sample surroundings *)

(** 2024-03-10T12:00:00.000Z *)
Definition sample_now : Z := 1710072000000.

(** The runtime's [toISOString], [Date] parser and node-cron's [validate] at
    the instants, texts and expressions of the samples. *)
Definition sample_toISOString (t : Z) : string :=
  if (t =? sample_now)%Z then "2024-03-10T12:00:00.000Z"
  else "1970-01-01T00:00:00.000Z".

Definition sample_Date_parse (text : string) : option Z :=
  if String.eqb text "2024-03-10T12:00:00.000Z" then Some 1710072000000%Z
  else if String.eqb text "2024-03-10T11:59:59.999Z" then Some 1710071999999%Z
  else if String.eqb text "2024-03-09T12:00:00.000Z" then Some 1709985600000%Z
  else if String.eqb text "2024-03-17T12:00:00.000Z" then Some 1710676800000%Z
  else if String.eqb text "2024-03-18T12:00:00.000Z" then Some 1710763200000%Z
  else if String.eqb text "1970-01-01T00:00:00.000Z" then Some 0%Z
  else None.

Definition sample_cron_validate (expression : string) : bool :=
  String.eqb expression "0 2 * * *" || String.eqb expression "0 9 * * *".

Definition sample_config : Config :=
  {| baseUrl := "http://localhost:8010";
     apiToken := Some "token";
     webhookUrl := Some "https://discord.com/api/webhooks/1/token";
     backupSchedule := "0 2 * * *";
     alertSchedule := "0 9 * * *";
     retentionDays := 30;
     TIMEZONE := None |}.

(** Surroundings in UTC whose sweeps read the clock at the instant of the
    stamps. *)
Definition sample_env (remote : nat -> Endpoint -> HttpResult) : Env :=
  {| clock := sample_now;
     elapsed := fun _ => 0%Z;
     LocalTZA_utc := fun _ => 0%Z;
     LocalTZA_local := fun _ => 0%Z;
     remote := remote;
     webhook := fun _ => None;
     readdir_fails := false;
     mkdir_error := None;
     writeFile_error := fun _ => None;
     invalid_data_error :=
       "The data argument must be of type string or an instance of Buffer";
     invalid_chunk_error :=
       "The buffer argument must be an instance of Buffer or TypedArray" |}.

Definition sample_world (remote : nat -> Endpoint -> HttpResult)
    (dir : option (gmap string File)) : World :=
  {| config := sample_config;
     env := sample_env remote;
     isRunning := false;
     httpCalls := 0;
     sweeps := 0;
     backups := dir;
     cronTasks := [];
     timers := [];
     signalHandlers := [];
     trace := [] |}.

(** A remote API that cannot be reached. *)
Definition remote_unreachable (n : nat) (e : Endpoint) : HttpResult :=
  Rejected None None "connect ECONNREFUSED 127.0.0.1:8010".

(** A remote API that answers, with [vipList] as its VIP records. *)
Definition remote_serving (vipList : list VipRecord) (n : nat) (e : Endpoint)
    : HttpResult :=
  match e with
  | get_status =>
    Responded (Enveloped (JStatus {| status_name := Some "Sample Server";
                                     player_count := 12;
                                     player_count_max := 100 |})
                         false None)
  | download_vips => Responded (Bare (JText "76561198000000001 Alice"))
  | get_vip_ids => Responded (Enveloped (JVips vipList) false None)
  end.

(** A regular file last modified [days] days before [sample_now]. *)
Definition aged_file (days : Z) : File :=
  {| mtime := (sample_now - days * msPerDay)%Z; content := EmptyString;
     stat_fails := false; unlink_fails := false |}.

(** Backups aged 40, 31, 29 and 1 days. *)
Definition sample_backups : gmap string File :=
  <["vip_file_40.txt" := aged_file 40]>
    (<["vip_file_31.txt" := aged_file 31]>
       (<["vip_file_29.txt" := aged_file 29]>
          (<["vip_file_01.txt" := aged_file 1]> ∅))).

Definition sample_backups_swept : gmap string File :=
  <["vip_file_29.txt" := aged_file 29]>
    (<["vip_file_01.txt" := aged_file 1]> ∅).

Definition vip (id name : string) (expiration : option string) : VipRecord :=
  {| player_id := id; name := name; expiration := expiration;
     description := None |}.

(** Three records on the three platforms: a permanent one, one expiring in a
    week and one expired the day before. *)
Definition sample_vips : list VipRecord :=
  [vip "76561198000000001" "Alice" None;
   vip "1100000100000001" "Bob" (Some "2024-03-17T12:00:00.000Z");
   vip "990000000" "Carol" (Some "2024-03-09T12:00:00.000Z")].

(** Two pairs of records that the fallback formatter renders alike: a
    permanent record whose name ends like an expiration against a dated one
    whose date ends like the permanent mark, and two records that split
    [1 # # y] differently into identifier and name. *)
Definition permanent_lookalike : VipRecord :=
  vip "1" "x (expires: T)" None.

Definition dated_lookalike : VipRecord :=
  vip "1" "x" (Some "T) (permanent").

Definition short_id_record : VipRecord := vip "1" "# y" None.
Definition long_id_record : VipRecord := vip "1 #" "y" None.


(** ** Vocabulary of the further properties *)

(** The files of the backup directory, none when it is missing. *)
Definition files_of (w : World) : gmap string File :=
  default ∅ (backups w).

(** The posts to the webhook recorded in a trace. *)
Fixpoint posts (t : list Event) : list (string * Notification) :=
  match t with
  | [] => []
  | Posted url n :: rest => (url, n) :: posts rest
  | _ :: rest => posts rest
  end.

Definition posted (w : World) : list (string * Notification) :=
  posts (trace w).

(** A file as [fs.writeFile] leaves it at time [now]. *)
Definition written (now : Z) (data : string) : File :=
  {| mtime := now; content := data; stat_fails := false;
     unlink_fails := false |}.

(** The names [downloadVipFile] and [analyzeVips] give their files at time
    [now]. *)
Definition snapshot_name (toISOString : Z -> string) (now : Z) : string :=
  "vip_file_" ++ replace_colon_dot (toISOString now) ++ ".txt".

Definition report_name (toISOString : Z -> string) (now : Z) : string :=
  "vip_analysis_" ++ replace_colon_dot (toISOString now) ++ ".txt".

(** Two analyses added up, counter by counter. *)
Definition plus_analysis (a b : Analysis) : Analysis :=
  {| total := total a + total b;
     permanent := permanent a + permanent b;
     temporary := temporary a + temporary b;
     expired := expired a + expired b;
     expiringSoon := expiringSoon a + expiringSoon b;
     expiringToday := expiringToday a + expiringToday b;
     platforms :=
       {| pc := pc (platforms a) + pc (platforms b);
          console := console (platforms a) + console (platforms b);
          unknown := unknown (platforms a) + unknown (platforms b) |} |}.

(** The notification [start] sends once the triggers run. *)
Definition startup_note (c : Config) : Notification :=
  note "VIP Service Started"
       ("🚀 **VIP Service Online**" ++ LF
        ++ "📅 Backup: " ++ backupSchedule c ++ LF
        ++ "🔔 Health checks: " ++ alertSchedule c)
       0x00FF00.

(** A stretch of a run from [w] to [w'] keeps the file of [name]: it leaves
    the setting alone and the entry of [name] in the backup directory as it
    was, there or not. *)
Definition keeps (name : string) (w w' : World) : Prop :=
  same_setting w w' /\ files_of w' !! name = files_of w !! name.

(** A computation spares the file of [name] when every run of it started at
    clock time [now] keeps it. *)
Definition spares {A : Type} (name : string) (now : Z) (m : M A) : Prop :=
  forall (w w' : World) (r : Outcome A),
    clock (env w) = now -> m w = (r, w') -> keeps name w w'.

(** ** The status report, the command lines and the health server *)

(** [console.error(line)]; the trace keeps it with the [console.log] lines. *)
Definition console_error (line : string) : M unit := emit (Printed line).

(** [connectionTest.serverName || 'Unknown'], [connectionTest.playerCount
    || 0] and [connectionTest.maxPlayers || 0]: a failed test has none of
    the three keys. *)
Definition serverName_or (t : ConnectionTest) (d : string) : string :=
  match t with
  | Connected serverName _ _ => or_else (Some serverName) d
  | Disconnected _ => d
  end.

Definition playerCount_or_0 (t : ConnectionTest) : nat :=
  match t with
  | Connected _ playerCount _ => playerCount
  | Disconnected _ => 0
  end.

Definition maxPlayers_or_0 (t : ConnectionTest) : nat :=
  match t with
  | Connected _ _ maxPlayers => maxPlayers
  | Disconnected _ => 0
  end.

(** How a [main] leaves the process: it returns, or [process.exit(code)]. *)
Inductive Exit := Returned | Exited (code : nat).

(** [command === name], for [command = args[0]] that may be missing. *)
Definition command_is (command : option string) (name : string) : bool :=
  match command with
  | Some c => String.eqb c name
  | None => false
  end.

(** The default colour of [sendDiscordNotification]. *)
Definition default_color : Z := 0x00D4FF.

(** The usage texts of the two command lines. *)
Definition service_usage : list string :=
  ["🎖️  VIP Service - Automated VIP Management";
   "==========================================";
   EmptyString;
   "Commands:";
   "  start   - Start the automated service (runs continuously)";
   "  backup  - Perform manual backup now";
   "  check   - Perform manual health check now";
   "  status  - Show current service status";
   "  test    - Test Discord notifications"].

Definition manager_usage : list string :=
  ["🎖️  VIP Manager for Hell Let Loose CRCON";
   "==========================================";
   EmptyString;
   "Usage:";
   "  node vip-manager.js test        - Test CRCON connection and Discord";
   "  node vip-manager.js download    - Download and backup VIP file";
   "  node vip-manager.js analyze     - Analyze VIP status and expiration";
   "  node vip-manager.js backup      - Complete backup (download + analyze)";
   "  node vip-manager.js cleanup [days] - Clean old backups (default: 30 days)";
   EmptyString;
   "Configuration:";
   "  CRCON_BASE_URL     - Your CRCON server URL";
   "  CRCON_API_TOKEN    - API token from CRCON web interface";
   "  DISCORD_WEBHOOK_URL - Discord webhook for notifications (optional)";
   EmptyString;
   "Examples:";
   "  node vip-manager.js test         # Test connection";
   "  node vip-manager.js backup       # Download and analyze";
   "  node vip-manager.js cleanup 7    # Clean backups older than 7 days"].

Section Interfaces.

Variable Date_parse : string -> option Z.
Variable toISOString : Z -> string.
Variable cron_validate : string -> bool.

(** [parseInt(args[1])], [None] for [NaN]. *)
Variable parseInt : option string -> option Z.

(** [VIPService.status()] *)
Definition status : M unit :=
  try_catch
    (let* connectionTest := testConnection in
     let* analysis := analyzeVips Date_parse toISOString in
     let* _ := console_log (LF ++ "📊 VIP Service Status") in
     let* _ := console_log "=====================" in
     let* _ := fun w =>
                 console_log ("🔄 Service Running: "
                              ++ (if isRunning w then "Yes" else "No")) w in
     let* _ := console_log ("🌐 Server: "
                            ++ serverName_or connectionTest "Unknown") in
     let* _ := console_log ("👥 Players: "
                            ++ show (playerCount_or_0 connectionTest) ++ "/"
                            ++ show (maxPlayers_or_0 connectionTest)) in
     let* _ := console_log ("🎖️ Total VIPs: " ++ show (total analysis)) in
     let* _ := console_log ("⚠️ Needs Attention: "
                            ++ show (expired analysis + expiringToday analysis
                                     + expiringSoon analysis)) in
     let* _ := fun w =>
                 console_log ("📅 Next Backup: "
                              ++ backupSchedule (config w)) w in
     fun w =>
       console_log ("🔔 Next Health Check: " ++ alertSchedule (config w)) w)
    (fun message => console_error ("❌ Status check failed: " ++ message)).

(** [main] of the service's command line, for [command = args[0]]. *)
Definition service_main (command : option string) : M Exit :=
  try_catch
    (let* _ :=
       if command_is command "start" then
         (* Keep process alive *)
         start cron_validate
       else if command_is command "backup" then
         performScheduledBackup Date_parse toISOString
       else if command_is command "check" then
         performHealthCheck Date_parse toISOString
       else if command_is command "status" then status
       else if command_is command "test" then
         let* _ := sendDiscordNotification
                     "Service Test"
                     "🧪 VIP Service test notification - all systems operational!"
                     default_color in
         console_log "✅ Test notification sent"
       else forEach_M console_log service_usage in
     ret Returned)
    (fun message =>
       let* _ := console_error ("❌ Service failed: " ++ message) in
       ret (Exited 1)).

(** [parseInt(args[1]) || 30] *)
Definition days_or_30 (arg : option string) : Z :=
  match parseInt arg with
  | Some days => if (days =? 0)%Z then 30%Z else days
  | None => 30%Z
  end.

(** [main] of the manager's command line, for [command = args[0]],
    [arg = args[1]] and the variable [CRCON_BASE_URL] of the process's
    environment. *)
Definition manager_main (CRCON_BASE_URL command arg : option string)
    : M Exit :=
  fun w =>
    (* Validate environment *)
    if negb (truthy CRCON_BASE_URL) then
      (let* _ := console_error
                   "❌ CRCON_BASE_URL environment variable is required" in
       ret (Exited 1)) w
    else if negb (truthy (apiToken (config w))) then
      (let* _ := console_error
                   "❌ CRCON_API_TOKEN environment variable is required" in
       let* _ := console_error
                   "   Generate an API token in your CRCON web interface" in
       ret (Exited 1)) w
    else
      try_catch
        ((* Test connection first *)
         let* connectionTest := testConnection in
         match connectionTest with
         | Disconnected error => throw error
         | Connected _ _ _ =>
           let* _ :=
             if command_is command "test" then
               let* _ := console_log "✅ Connection test successful!" in
               let* _ := sendDiscordNotification
                           "Test Notification"
                           "🧪 VIP Manager is working correctly!"
                           default_color in
               console_log "✅ Test notification sent"
             else if command_is command "download" then
               let* _ := downloadVipFile toISOString in ret tt
             else if command_is command "analyze" then
               let* _ := analyzeVips Date_parse toISOString in ret tt
             else if command_is command "backup" then
               let* _ := console_log "🔄 Starting complete backup..." in
               let* downloadResult := downloadVipFile toISOString in
               let* analysis := analyzeVips Date_parse toISOString in
               console_log (LF ++ "✅ Complete backup finished!")
             else if command_is command "cleanup" then
               let days := days_or_30 arg in
               let* _ := cleanupOldBackups days in ret tt
             else forEach_M console_log manager_usage in
           ret Returned
         end)
        (fun message =>
           let* _ := console_error ("❌ Operation failed: " ++ message) in
           ret (Exited 1)) w.

(** [handleHealthCheck(req, res)] of the health server, by the status code
    it writes. *)
Definition handleHealthCheck : M nat :=
  try_catch
    ((* Test CRCON connection *)
     let* connectionTest := testConnection in
     let statusCode := if connected connectionTest then 200 else 503 in
     ret statusCode)
    (fun _ => ret 503).

(** [handleStatus(req, res)], by the status code it writes; the package
    description whose version it reports is taken to be in place. *)
Definition handleStatus : M nat :=
  try_catch
    (let* connectionTest := testConnection in
     let* analysis := analyzeVips Date_parse toISOString in
     ret 200)
    (fun _ => ret 500).

(** The request listener of [createHealthServer], by the status code it
    writes for a request of [method] and [url]; [handleRoot] writes its
    page with 200. *)
Definition health_server (method url : string) : M nat :=
  if String.eqb method "OPTIONS" then ret 200
  else
    (* Route handling *)
    if String.eqb url "/health" then handleHealthCheck
    else if String.eqb url "/status" then handleStatus
    else if String.eqb url "/" then ret 200
    else ret 404.

End Interfaces.

(** ** Further sample surroundings *)

(** A remote API whose export endpoint is missing, but which answers with
    [vipList] as its VIP records. *)
Definition remote_without_export (vipList : list VipRecord) (n : nat)
    (e : Endpoint) : HttpResult :=
  match e with
  | download_vips =>
    Rejected (Some 404) None "Request failed with status code 404"
  | _ => remote_serving vipList n e
  end.

(** A remote API whose export is the empty text. *)
Definition remote_empty_export (n : nat) (e : Endpoint) : HttpResult :=
  match e with
  | download_vips => Responded (Bare (JText EmptyString))
  | _ => remote_serving [] n e
  end.

(** A remote API whose export is the array of the records [vipList]. *)
Definition remote_array_export (vipList : list VipRecord) (n : nat)
    (e : Endpoint) : HttpResult :=
  match e with
  | download_vips => Responded (Enveloped (JVips vipList) false None)
  | _ => remote_serving vipList n e
  end.

(** The sample world in other surroundings. *)
Definition sample_world_in (e : Env) (dir : option (gmap string File))
    : World :=
  {| config := sample_config;
     env := e;
     isRunning := false;
     httpCalls := 0;
     sweeps := 0;
     backups := dir;
     cronTasks := [];
     timers := [];
     signalHandlers := [];
     trace := [] |}.

(** The time zone America/New_York about [sample_now]: summer time began on
    2024-03-10 at 07:00 UTC, when the local clocks went from 02:00 to 03:00;
    local time is five hours behind UTC before and four hours after, and a
    local time of the skipped hour is read with the offset before. *)
Definition new_york_utc (t : Z) : Z :=
  if (t <? 1710054000000)%Z then (-18000000)%Z else (-14400000)%Z.

Definition new_york_local (l : Z) : Z :=
  if (l <? 1710039600000)%Z then (-18000000)%Z else (-14400000)%Z.

Definition sample_env_new_york : Env :=
  {| clock := sample_now;
     elapsed := fun _ => 0%Z;
     LocalTZA_utc := new_york_utc;
     LocalTZA_local := new_york_local;
     remote := remote_unreachable;
     webhook := fun _ => None;
     readdir_fails := false;
     mkdir_error := None;
     writeFile_error := fun _ => None;
     invalid_data_error := invalid_data_error (sample_env remote_unreachable);
     invalid_chunk_error :=
       invalid_chunk_error (sample_env remote_unreachable) |}.

(** Surroundings in UTC whose clock moves on by a millisecond from one sweep
    to the next. *)
Definition sample_env_ticking : Env :=
  {| clock := sample_now;
     elapsed := fun n => Z.of_nat n;
     LocalTZA_utc := fun _ => 0%Z;
     LocalTZA_local := fun _ => 0%Z;
     remote := remote_unreachable;
     webhook := fun _ => None;
     readdir_fails := false;
     mkdir_error := None;
     writeFile_error := fun _ => None;
     invalid_data_error := invalid_data_error (sample_env remote_unreachable);
     invalid_chunk_error :=
       invalid_chunk_error (sample_env remote_unreachable) |}.

(** A backup half an hour short of 30 days old at [sample_now], and one that
    is 30 days old to the millisecond. *)
Definition edge_backups : gmap string File :=
  <["edge.txt" := {| mtime := (sample_now - 30 * msPerDay + 1800000)%Z;
                     content := EmptyString; stat_fails := false;
                     unlink_fails := false |}]> ∅.

Definition due_backups : gmap string File :=
  <["due.txt" := aged_file 30]> ∅.

(** The sample world under another configuration. *)
Definition configured (c : Config) (w : World) : World :=
  {| config := c; env := env w; isRunning := isRunning w;
     httpCalls := httpCalls w; sweeps := sweeps w; backups := backups w;
     cronTasks := cronTasks w; timers := timers w;
     signalHandlers := signalHandlers w; trace := trace w |}.

(** The sample configuration with a retention of [days] days. *)
Definition sample_config_keeping (days : Z) : Config :=
  {| baseUrl := baseUrl sample_config;
     apiToken := apiToken sample_config;
     webhookUrl := webhookUrl sample_config;
     backupSchedule := backupSchedule sample_config;
     alertSchedule := alertSchedule sample_config;
     retentionDays := days;
     TIMEZONE := TIMEZONE sample_config |}.

(** The sample configuration with an alert schedule that is no cron
    expression. *)
Definition sample_config_misscheduled : Config :=
  {| baseUrl := baseUrl sample_config;
     apiToken := apiToken sample_config;
     webhookUrl := webhookUrl sample_config;
     backupSchedule := backupSchedule sample_config;
     alertSchedule := "every morning";
     retentionDays := retentionDays sample_config;
     TIMEZONE := TIMEZONE sample_config |}.

(** [parseInt] at the arguments of the samples. *)
Definition sample_parseInt (arg : option string) : option Z :=
  match arg with
  | Some text =>
    if String.eqb text "0" then Some 0%Z
    else if String.eqb text "7" then Some 7%Z
    else None
  | None => None
  end.

(** What the download and the analysis of the sample records come to. *)
Definition sample_download : DownloadResult :=
  {| filepath := "backups/vip_file_2024-03-10T12-00-00-000Z.txt";
     filename := "vip_file_2024-03-10T12-00-00-000Z.txt";
     dl_size := 23 |}.

Definition sample_analysis : Analysis :=
  {| total := 3; permanent := 1; temporary := 2; expired := 1;
     expiringSoon := 1; expiringToday := 0;
     platforms := {| pc := 1; console := 1; unknown := 1 |} |}.

(** * Properties *)

(** ** Running methods *)

Lemma notifications_app (t1 t2 : list Event) :
  notifications (t1 ++ t2) = (notifications t1 ++ notifications t2)%list.
Proof.
  induction t1 as [|e t1 IH]; [reflexivity|].
  destruct e; simpl; rewrite IH; reflexivity.
Qed.

Lemma requests_app (t1 t2 : list Event) :
  requests (t1 ++ t2) = (requests t1 ++ requests t2)%list.
Proof.
  induction t1 as [|e t1 IH]; [reflexivity|].
  destruct e; simpl; rewrite IH; reflexivity.
Qed.

Lemma same_setting_refl (w : World) : same_setting w w.
Proof. unfold same_setting. auto 10. Qed.

Lemma same_setting_trans (w1 w2 w3 : World) :
  same_setting w1 w2 -> same_setting w2 w3 -> same_setting w1 w3.
Proof. unfold same_setting. intuition congruence. Qed.

Lemma bind_inv {A B : Type} (m : M A) (k : A -> M B) (w w' : World)
    (r : Outcome B) :
  bind m k w = (r, w') ->
  (exists a w1, m w = (Ok a, w1) /\ k a w1 = (r, w')) \/
  (exists message, m w = (Throw message, w') /\ r = Throw message).
Proof.
  unfold bind. destruct (m w) as [[a|message] w1]; intros H.
  - left. eauto.
  - right. injection H as <- <-. eauto.
Qed.

Lemma try_catch_inv {A : Type} (m : M A) (h : string -> M A) (w w' : World)
    (r : Outcome A) :
  try_catch m h w = (r, w') ->
  (exists a, m w = (Ok a, w') /\ r = Ok a) \/
  (exists message w1, m w = (Throw message, w1) /\ h message w1 = (r, w')).
Proof.
  unfold try_catch. destruct (m w) as [[a|message] w1]; intros H.
  - left. injection H as <- <-. eauto.
  - right. eauto.
Qed.

Lemma step_facts_refl (w : World) : step_facts w w [] [].
Proof.
  split; [apply same_setting_refl | |]; rewrite app_nil_r; reflexivity.
Qed.

Lemma step_facts_trans (w1 w2 w3 : World) (n1 n2 : list Notification)
    (u1 u2 : list string) :
  step_facts w1 w2 n1 u1 -> step_facts w2 w3 n2 u2 ->
  step_facts w1 w3 (n1 ++ n2) (u1 ++ u2).
Proof.
  intros [S1 N1 U1] [S2 N2 U2]. split.
  - eapply same_setting_trans; eassumption.
  - rewrite N2, N1, app_assoc. reflexivity.
  - rewrite U2, U1, app_assoc. reflexivity.
Qed.

Lemma emit_facts (e : Event) (w w' : World) (r : Outcome unit) :
  emit e w = (r, w') ->
  r = Ok tt /\ backups w' = backups w /\ httpCalls w' = httpCalls w /\
  step_facts w w' (notifications [e]) (requests [e]).
Proof.
  unfold emit. intros H. injection H as <- <-.
  repeat split; try reflexivity.
  - unfold notified, push. simpl. apply notifications_app.
  - unfold requested, push. simpl. apply requests_app.
Qed.

Lemma log_facts (c : Component) (message : string) (l : Level)
    (w w' : World) (r : Outcome unit) :
  log c message l w = (r, w') ->
  r = Ok tt /\ backups w' = backups w /\ httpCalls w' = httpCalls w /\
  step_facts w w' [] [].
Proof. unfold log. apply emit_facts. Qed.

Lemma makeRequest_facts (endpoint : Endpoint) (w w' : World)
    (r : Outcome JsValue) :
  makeRequest endpoint w = (r, w') ->
  backups w' = backups w /\
  exists urls, step_facts w w' [] urls.
Proof.
  unfold makeRequest.
  destruct (negb (truthy (apiToken (config w)))).
  { intros H. injection H as <- <-. split; [reflexivity|].
    exists []. apply step_facts_refl. }
  cbn [snd log emit].
  set (w1 := set_trace _ (set_httpCalls _ _)).
  assert (F : backups w1 = backups w /\
              step_facts w w1 []
                [baseUrl (config w) ++ endpoint_path endpoint]).
  { split; [reflexivity|]. split.
    - repeat split.
    - unfold notified, w1, push. cbn [trace set_trace set_httpCalls].
      rewrite !notifications_app. simpl. rewrite !app_nil_r. reflexivity.
    - unfold requested, w1, push. cbn [trace set_trace set_httpCalls config].
      rewrite !requests_app. simpl. rewrite !app_nil_r. reflexivity. }
  destruct F as [F1 F2].
  intros H. assert (w' = w1) as ->.
  { repeat match type of H with
           | context [match ?x with _ => _ end] => destruct x
           end; injection H as _ <-; reflexivity. }
  split; [exact F1|]. eexists. exact F2.
Qed.

(** ** The analyzer *)

Lemma count_where_cons {A : Type} (p : A -> bool) (x : A) (l : list A) :
  count_where p (x :: l) = b2n (p x) + count_where p l.
Proof. unfold count_where. simpl. destruct (p x); reflexivity. Qed.

Section AnalyzerFacts.

Variable Date_parse : string -> option Z.
Variable now : Z.

Local Abbreviation step := (analyzeVips_forEach Date_parse now).

(** One round of the [forEach]: every counter moves by what the record
    calls for, and an alert line is pushed exactly when an alert bucket
    grows. *)
Lemma analyzeVips_forEach_counts (a : Analysis) (alerts : list string)
    (vip : VipRecord) :
  let r := step (a, alerts) vip in
  total (fst r) = total a /\
  permanent (fst r) = permanent a + b2n (is_permanent vip) /\
  temporary (fst r) = temporary a + b2n (negb (is_permanent vip)) /\
  pc (platforms (fst r))
  = pc (platforms a) + b2n (startsWith (player_id vip) "76561198") /\
  console (platforms (fst r))
  = console (platforms a)
    + b2n (negb (startsWith (player_id vip) "76561198")
           && (startsWith (player_id vip) "11000"
               || startsWith (player_id vip) "76561199")) /\
  unknown (platforms (fst r))
  = unknown (platforms a)
    + b2n (negb (startsWith (player_id vip) "76561198")
           && negb (startsWith (player_id vip) "11000"
                    || startsWith (player_id vip) "76561199")) /\
  alerted a <= alerted (fst r) /\
  alerted (fst r) - alerted a <= b2n (negb (is_permanent vip)) /\
  length (snd r) = length alerts + (alerted (fst r) - alerted a).
Proof.
  unfold analyzeVips_forEach, is_permanent, truthy, alerted, push.
  destruct (startsWith (player_id vip) "76561198");
    destruct (startsWith (player_id vip) "11000");
    destruct (startsWith (player_id vip) "76561199");
    destruct (expiration vip) as [e|]; simpl;
    try destruct (String.eqb e EmptyString);
    try destruct (String.eqb e "None");
    simpl;
    try destruct (Date_parse e) as [t|]; simpl;
    repeat match goal with
           | |- context [if ?c then _ else _] => destruct c
           end;
    simpl; rewrite ?length_app; simpl; repeat split; lia.
Qed.

(** The counters after the whole [forEach], from any starting point. *)
Lemma analyzeVips_fold_counts (l : list VipRecord) :
  forall (a : Analysis) (alerts : list string),
    let r := fold_left step l (a, alerts) in
    total (fst r) = total a /\
    permanent (fst r) = permanent a + count_where is_permanent l /\
    temporary (fst r)
    = temporary a + count_where (fun v => negb (is_permanent v)) l /\
    pc (platforms (fst r))
    = pc (platforms a)
      + count_where (fun v => startsWith (player_id v) "76561198") l /\
    console (platforms (fst r))
    = console (platforms a)
      + count_where
          (fun v => negb (startsWith (player_id v) "76561198")
                    && (startsWith (player_id v) "11000"
                        || startsWith (player_id v) "76561199")) l /\
    unknown (platforms (fst r))
    = unknown (platforms a)
      + count_where
          (fun v => negb (startsWith (player_id v) "76561198")
                    && negb (startsWith (player_id v) "11000"
                             || startsWith (player_id v) "76561199")) l /\
    alerted a <= alerted (fst r) /\
    alerted (fst r) - alerted a
    <= count_where (fun v => negb (is_permanent v)) l /\
    length (snd r) = length alerts + (alerted (fst r) - alerted a).
Proof.
  induction l as [|vip rest IH]; intros a alerts.
  - simpl. unfold count_where. simpl. repeat split; lia.
  - change (fold_left step (vip :: rest) (a, alerts))
      with (fold_left step rest (step (a, alerts) vip)).
    pose proof (analyzeVips_forEach_counts a alerts vip) as Hstep.
    destruct (step (a, alerts) vip) as [a1 alerts1].
    cbv zeta in Hstep. cbn [fst snd] in Hstep.
    specialize (IH a1 alerts1). cbv zeta in IH.
    rewrite !count_where_cons. cbv zeta.
    repeat split; lia.
Qed.

End AnalyzerFacts.

Lemma fs_mkdir_facts (w w' : World) (r : Outcome unit) :
  fs_mkdir w = (r, w') -> trace w' = trace w /\ step_facts w w' [] [].
Proof.
  unfold fs_mkdir. intros H.
  assert (E : trace w' = trace w /\ same_setting w w').
  { destruct (backups w); [|destruct (mkdir_error (env w))];
      injection H as <- <-; split; try reflexivity; repeat split. }
  destruct E as [E1 E2]. split; [exact E1|].
  split; [exact E2 | |]; unfold notified, requested; rewrite E1, app_nil_r;
    reflexivity.
Qed.

Lemma fs_writeFile_facts (file data : string) (w w' : World)
    (r : Outcome unit) :
  fs_writeFile file data w = (r, w') ->
  trace w' = trace w /\ step_facts w w' [] [].
Proof.
  unfold fs_writeFile. intros H.
  assert (E : trace w' = trace w /\ same_setting w w').
  { destruct (backups w); [destruct (writeFile_error (env w) file)|];
      injection H as <- <-; split; try reflexivity; repeat split. }
  destruct E as [E1 E2]. split; [exact E1|].
  split; [exact E2 | |]; unfold notified, requested; rewrite E1, app_nil_r;
    reflexivity.
Qed.

Lemma fs_writeFile_chunks_facts (file : string) (chunks : list VipRecord)
    (w w' : World) (r : Outcome unit) :
  fs_writeFile_chunks file chunks w = (r, w') ->
  trace w' = trace w /\ step_facts w w' [] [].
Proof.
  unfold fs_writeFile_chunks. intros H.
  assert (E : trace w' = trace w /\ same_setting w w').
  { destruct (backups w); [destruct (writeFile_error (env w) file)|];
      [|destruct chunks|]; injection H as <- <-; split; try reflexivity;
      repeat split. }
  destruct E as [E1 E2]. split; [exact E1|].
  split; [exact E2 | |]; unfold notified, requested; rewrite E1, app_nil_r;
    reflexivity.
Qed.

Lemma sendDiscordNotification_facts (title description : string) (color : Z)
    (w w' : World) (r : Outcome unit) :
  sendDiscordNotification title description color w = (r, w') ->
  r = Ok tt /\ backups w' = backups w /\
  step_facts w w'
    [{| n_title := title; n_description := description; n_color := color |}]
    [].
Proof.
  unfold sendDiscordNotification, bind, log, emit. cbn [snd].
  intros H.
  destruct (negb (truthy (webhookUrl (config _)))); cbn in H;
    [|destruct (webhook _ _)]; injection H as <- <-;
    (split; [reflexivity|]); (split; [reflexivity|]);
    (split; [repeat split | |]);
    unfold notified, requested, push; cbn;
    rewrite ?notifications_app, ?requests_app; cbn;
    rewrite ?app_nil_r, <- ?app_assoc; reflexivity.
Qed.

Lemma forEach_console_log_facts (ls : list string) :
  forall (w w' : World) (r : Outcome unit),
    forEach_M console_log ls w = (r, w') ->
    r = Ok tt /\ backups w' = backups w /\ step_facts w w' [] [].
Proof.
  induction ls as [|line rest IH]; intros w w' r H; cbn [forEach_M] in H.
  - unfold ret in H. simplify_eq.
    repeat split; try reflexivity; apply step_facts_refl.
  - apply bind_inv in H.
    destruct H as [(? & w1 & H1 & H) | (? & H & ?)];
      apply emit_facts in H1 || apply emit_facts in H.
    + destruct H1 as (_ & B1 & _ & F1). apply IH in H.
      destruct H as (-> & B & F). cbn in F1.
      pose proof (step_facts_trans _ _ _ _ _ _ _ F1 F) as F2. cbn in F2.
      split; [reflexivity | split; [congruence | exact F2]].
    + destruct H as (? & _). simplify_eq.
Qed.

Ltac chain_facts :=
  repeat match goal with
         | H1 : step_facts ?a ?b _ _, H2 : step_facts ?b ?c _ _ |- _ =>
           pose proof (step_facts_trans _ _ _ _ _ _ _ H1 H2);
           clear H1 H2
         end.

Ltac env_facts :=
  repeat match goal with
         | H : step_facts ?a ?b _ _ |- _ =>
           lazymatch goal with
           | E : env b = env a |- _ => fail
           | _ => assert (env b = env a) by apply H
           end
         end.

Ltac inv_run :=
  repeat
    (cbv beta in *;
     match goal with
     | H : bind _ _ _ = (_, _) |- _ =>
       apply bind_inv in H;
       destruct H as [(? & ? & ? & H) | (? & H & ?)]
     | H : try_catch _ _ _ = (_, _) |- _ =>
       apply try_catch_inv in H;
       destruct H as [(? & H & ?) | (? & ? & ? & H)]
     | H : ret _ _ = (_, _) |- _ => unfold ret in H; simplify_eq
     | H : throw _ _ = (_, _) |- _ => unfold throw in H; simplify_eq
     | H : log _ _ _ _ = (_, _) |- _ =>
       apply log_facts in H; destruct H as (? & _ & _ & H)
     | H : console_log _ _ = (_, _) |- _ =>
       apply emit_facts in H; destruct H as (? & _ & _ & H); cbn in H
     | H : makeRequest _ _ = (_, _) |- _ =>
       apply makeRequest_facts in H; destruct H as (_ & ? & H)
     | H : sendDiscordNotification _ _ _ _ = (_, _) |- _ =>
       apply sendDiscordNotification_facts in H; destruct H as (? & _ & H)
     | H : fs_mkdir _ = (_, _) |- _ =>
       apply fs_mkdir_facts in H; destruct H as (_ & H)
     | H : fs_writeFile _ _ _ = (_, _) |- _ =>
       apply fs_writeFile_facts in H; destruct H as (_ & H)
     | H : fs_writeFile_chunks _ _ _ = (_, _) |- _ =>
       apply fs_writeFile_chunks_facts in H; destruct H as (_ & H)
     | H : forEach_M console_log _ _ = (_, _) |- _ =>
       apply forEach_console_log_facts in H; destruct H as (? & _ & H)
     | H : (if ?c then _ else _) _ = (_, _) |- _ => destruct c eqn:?
     | H : (let '(_, _) := ?p in _) _ = (_, _) |- _ => destruct p eqn:?
     | H : match ?v with _ => _ end _ = (_, _) |- _ => destruct v eqn:?
     | H : (let '(_, _) := ?p in _) = (_, _) |- _ => destruct p eqn:?
     | _ => progress simplify_eq
     end).

Lemma testConnection_facts (w w' : World) (r : Outcome ConnectionTest) :
  testConnection w = (r, w') ->
  (exists t, r = Ok t) /\ exists urls, step_facts w w' [] urls.
Proof.
  unfold testConnection. intros H. inv_run; chain_facts.
  all: cbn in *; (split; [eauto|]); eexists; eassumption.
Qed.

Section RunFacts.

Variable Date_parse : string -> option Z.
Variable toISOString : Z -> string.

Lemma downloadVipFile_facts (w w' : World) (r : Outcome DownloadResult) :
  downloadVipFile toISOString w = (r, w') ->
  exists urls, step_facts w w' [download_note r] urls.
Proof.
  unfold downloadVipFile. intros H. inv_run; chain_facts.
  all: cbn in *.
  all: try (eexists; eassumption).
Qed.

Lemma analyzeVips_facts (w w' : World) (r : Outcome Analysis) :
  analyzeVips Date_parse toISOString w = (r, w') ->
  (exists urls, step_facts w w' (analysis_notes r) urls) /\
  forall a, r = Ok a ->
    exists vipList,
      a = fst (analyzeVips_classify Date_parse (clock (env w)) vipList).
Proof.
  unfold analyzeVips. intros H. inv_run; env_facts; chain_facts.
  all: cbn [analysis_notes] in *; unfold note.
  all: try match goal with
           | E : needs_attention _ = _ |- _ => rewrite E
           end.
  all: split;
    [cbn in *; eexists; eassumption | intros ? ?; simplify_eq].
  all: match goal with
       | E : analyzeVips_classify _ (clock (env ?v)) ?l = _ |- _ =>
         exists l; replace (env w) with (env v) by congruence;
         rewrite E; reflexivity
       end.
Qed.

End RunFacts.

(** ** The retention sweep *)

Lemma Date_lt_before (time : Z) (cutoff : option Z) :
  Date_lt time cutoff = true <-> before_cutoff time cutoff.
Proof.
  destruct cutoff as [c|]; cbn; [apply Z.ltb_lt|].
  split; [discriminate | contradiction].
Qed.

Lemma doomed_decide (cutoff : option Z) (f : File) :
  (if decide (old_and_accessible cutoff f) then true else false)
  = negb (stat_fails f) && Date_lt (mtime f) cutoff
    && negb (unlink_fails f).
Proof.
  destruct (decide _) as [(S & T & U)|N].
  - rewrite S, U. apply Date_lt_before in T. rewrite T. reflexivity.
  - unfold old_and_accessible in N.
    destruct (stat_fails f), (unlink_fails f); simpl;
      rewrite ?andb_false_r; try reflexivity.
    rewrite andb_true_r. symmetry. apply not_true_is_false.
    intros T. apply Date_lt_before in T. apply N. auto.
Qed.

(** One file of the sweep: it goes exactly when it is old and accessible,
    and the count moves with it. *)
Lemma cleanupOldBackups_file_spec (cutoff : option Z) (c : nat)
    (file : string) (w : World) (files : gmap string File) :
  backups w = Some files ->
  let gone :=
    match files !! file with
    | Some f => bool_decide (old_and_accessible cutoff f)
    | None => false
    end in
  exists w',
    cleanupOldBackups_file cutoff c file w
    = (Ok (c + b2n gone), w') /\
    backups w' = Some (if gone then delete file files else files) /\
    step_facts w w' [] [] /\ sweeps w' = sweeps w.
Proof.
  intros B. cbv zeta.
  unfold cleanupOldBackups_file, try_catch, bind, fs_stat_mtime, fs_unlink,
    log, emit, ret.
  rewrite B.
  destruct (files !! file) as [f|] eqn:L.
  - unfold bool_decide. rewrite doomed_decide.
    destruct (stat_fails f); cbn.
    { rewrite Nat.add_0_r. eexists. repeat split; rewrite ?app_nil_r; auto. }
    destruct (Date_lt (mtime f) cutoff); cbn.
    2:{ rewrite Nat.add_0_r. eexists. repeat split; rewrite ?app_nil_r; auto. }
    rewrite B, L.
    destruct (unlink_fails f); cbn.
    { rewrite Nat.add_0_r. eexists. repeat split; rewrite ?app_nil_r; auto. }
    rewrite Nat.add_1_r. eexists. split; [reflexivity|].
    split; [reflexivity|]. split; [|reflexivity].
    split; [repeat split | |];
      unfold notified, requested, push; cbn;
      rewrite ?notifications_app, ?requests_app; reflexivity.
  - cbn. rewrite Nat.add_0_r. eexists.
    repeat split; rewrite ?app_nil_r; auto.
Qed.

(** The loop over distinct names: a name of the listing goes exactly when its
    file is old and accessible; the count grows by what the directory
    loses. *)
Lemma cleanupOldBackups_loop_spec (cutoff : option Z) (names : list string) :
  forall (c : nat) (w : World) (files : gmap string File),
    backups w = Some files -> NoDup names ->
    exists c' w' files',
      cleanupOldBackups_loop cutoff names c w
      = (Ok c', w') /\
      backups w' = Some files' /\ step_facts w w' [] [] /\
      sweeps w' = sweeps w /\
      c' + size files' = c + size files /\
      forall name,
        files' !! name
        = match files !! name with
          | Some f =>
            if bool_decide (name ∈ names)
               && bool_decide (old_and_accessible cutoff f)
            then None else Some f
          | None => None
          end.
Proof.
  induction names as [|file rest IH]; intros c w files B ND.
  - exists c, w, files. cbn. repeat split; auto using step_facts_refl.
    + rewrite !app_nil_r; reflexivity.
    + rewrite !app_nil_r; reflexivity.
    + intros name. destruct (files !! name); reflexivity.
  - apply NoDup_cons in ND as [NI ND].
    destruct (cleanupOldBackups_file_spec cutoff c file w files B)
      as (w1 & R1 & B1 & F1 & S1).
    cbv zeta in R1, B1.
    set (gone := match files !! file with
                 | Some f => bool_decide (old_and_accessible cutoff f)
                 | None => false
                 end) in *.
    destruct (IH (c + b2n gone) w1 _ B1 ND)
      as (c' & w' & files' & R & B' & F & S' & C & L).
    exists c', w', files'.
    split. { cbn [cleanupOldBackups_loop]. unfold bind. rewrite R1. exact R. }
    split; [exact B'|].
    split. { pose proof (step_facts_trans _ _ _ _ _ _ _ F1 F) as F2.
             exact F2. }
    split; [congruence|].
    split.
    { rewrite C. unfold gone. destruct (files !! file) as [f|] eqn:Lf;
        [|simpl; lia].
      destruct (bool_decide (old_and_accessible cutoff f)); simpl;
        [|lia].
      rewrite map_size_delete, Lf.
      assert (size files <> 0); [|simpl; lia].
      apply map_size_ne_0_lookup. eauto. }
    intros name. rewrite L. clear L C R R1.
    destruct (decide (name = file)) as [->|Ne].
    + rewrite (bool_decide_eq_false_2 (file ∈ rest)) by exact NI.
      rewrite (bool_decide_eq_true_2 (file ∈ file :: rest))
        by apply list_elem_of_here.
      unfold gone. destruct (files !! file) as [f|] eqn:Lf; cbn.
      * destruct (bool_decide (old_and_accessible cutoff f)); cbn.
        -- rewrite lookup_delete_eq. reflexivity.
        -- rewrite Lf. reflexivity.
      * rewrite Lf. reflexivity.
    + assert (E : (if gone then delete file files else files) !! name
                  = files !! name).
      { destruct gone; [apply lookup_delete_ne; congruence | reflexivity]. }
      rewrite E. destruct (files !! name) as [f|]; [|reflexivity].
      assert (Eb : bool_decide (name ∈ file :: rest)
                   = bool_decide (name ∈ rest)).
      { apply bool_decide_ext. rewrite elem_of_cons.
        split; [intros [?|?]; [contradiction | assumption] | auto]. }
      rewrite Eb. reflexivity.
Qed.

Lemma removed_kept_size (cutoff : option Z) (files : gmap string File) :
  size (removed cutoff files) + size (kept cutoff files) = size files.
Proof.
  unfold removed, kept.
  rewrite <- map_size_disj_union
    by apply map_disjoint_filter_complement.
  rewrite map_filter_union_complement. reflexivity.
Qed.

(** [cleanupOldBackups] as a whole: it reads the clock once, returns a
    count, never throws, and leaves in the directory the files that are not
    old and accessible. *)
Lemma cleanupOldBackups_spec (keepDays : Z) (w : World) :
  exists w',
    cleanupOldBackups keepDays w = (Ok (deleted_by_cleanup keepDays w), w') /\
    backups w' = backups_after_cleanup keepDays w /\
    step_facts w w' [] [] /\ sweeps w' = S (sweeps w).
Proof.
  unfold cleanupOldBackups, deleted_by_cleanup, backups_after_cleanup.
  unfold try_catch at 1. unfold bind at 1.
  destruct (log Manager
              ("Cleaning up backups older than " ++ showZ keepDays
               ++ " days...") LInfo w) as [r0 w0] eqn:L0.
  assert (S0 : sweeps w0 = sweeps w) by (injection L0 as _ <-; reflexivity).
  apply log_facts in L0. destruct L0 as (-> & B0 & _ & F0).
  assert (E0 : env w0 = env w) by apply F0.
  assert (C0 : cutoffDate (env w) (sweepDate w0) keepDays
               = sweep_cutoff keepDays w).
  { unfold sweep_cutoff, sweepDate. rewrite E0, S0. reflexivity. }
  set (v := set_sweeps (S (sweeps w0)) w0).
  assert (Bv : backups v = backups w) by exact B0.
  assert (Fv : step_facts w v [] []).
  { destruct F0 as [F0 N0 U0]. split; [exact F0 | exact N0 | exact U0]. }
  assert (Sv : sweeps v = S (sweeps w)) by (cbn; rewrite S0; reflexivity).
  assert (Done : forall (c : nat) (w1 : World) (d : option (gmap string File)),
             backups w1 = d -> step_facts v w1 [] [] ->
             sweeps w1 = sweeps v ->
             exists w',
               (let* _ := log Manager ("Cleanup complete: " ++ show c
                                       ++ " files removed") LSuccess in
                ret c) w1 = (Ok c, w') /\
               backups w' = d /\ step_facts w w' [] [] /\
               sweeps w' = S (sweeps w)).
  { intros c w1 d B1 F1 S1. unfold bind.
    destruct (log Manager _ LSuccess w1) as [r2 w2] eqn:L2.
    assert (S2 : sweeps w2 = sweeps w1)
      by (injection L2 as _ <-; reflexivity).
    apply log_facts in L2. destruct L2 as (-> & B2 & _ & F2).
    exists w2. split; [reflexivity|]. split; [congruence|].
    split; [|congruence].
    pose proof (step_facts_trans _ _ _ _ _ _ _ Fv
                  (step_facts_trans _ _ _ _ _ _ _ F1 F2)) as F.
    exact F. }
  unfold fs_readdir_or_empty. rewrite B0, E0.
  unfold bind at 1. unfold new_Date_sweep at 1. fold v. rewrite C0.
  destruct (backups w) as [files|] eqn:B.
  - destruct (readdir_fails (env w)).
    + unfold bind at 1. cbn [cleanupOldBackups_loop ret].
      destruct (Done 0 v (Some files) Bv (step_facts_refl v) eq_refl)
        as (w' & R & B' & F & S').
      exists w'. rewrite R. auto.
    + destruct (cleanupOldBackups_loop_spec (sweep_cutoff keepDays w)
                  (map_to_list files).*1 0 v files Bv
                  (NoDup_fst_map_to_list files))
        as (c' & w1 & files' & R1 & B1 & F1 & S1 & C & L).
      unfold bind at 1. rewrite R1.
      assert (K : files' = kept (sweep_cutoff keepDays w) files).
      { apply map_eq. intros name. rewrite L. unfold kept.
        destruct (files !! name) as [f|] eqn:Lf.
        - assert (In_names : name ∈ (map_to_list files).*1).
          { apply list_elem_of_fmap. exists (name, f). split; [reflexivity|].
            apply elem_of_map_to_list. exact Lf. }
          rewrite (bool_decide_eq_true_2 _ In_names). cbn.
          destruct (bool_decide (old_and_accessible
                                   (sweep_cutoff keepDays w) f)) eqn:D.
          + apply bool_decide_eq_true_1 in D. symmetry.
            apply map_lookup_filter_None_2. right. intros f' Lf' N.
            cbn in N. rewrite Lf in Lf'. injection Lf' as <-. exact (N D).
          + apply bool_decide_eq_false_1 in D. symmetry.
            apply map_lookup_filter_Some_2; [exact Lf | exact D].
        - symmetry. apply map_lookup_filter_None_2. left. exact Lf. }
      assert (N : c' = size (removed (sweep_cutoff keepDays w) files)).
      { pose proof (removed_kept_size (sweep_cutoff keepDays w) files).
        rewrite <- K in *. lia. }
      subst c'.
      destruct (Done (size (removed (sweep_cutoff keepDays w) files)) w1
                     (Some files') B1 F1 S1) as (w' & R & B' & F & S').
      exists w'. rewrite R. rewrite <- K. auto.
  - unfold bind at 1. cbn [cleanupOldBackups_loop ret].
    destruct (Done 0 v None Bv (step_facts_refl v) eq_refl)
      as (w' & R & B' & F & S').
    exists w'. rewrite R. auto.
Qed.

(** The cutoff of a sweep where local time has one offset, at the instant
    of the sweep and at the local time [keepDays] days before, and the
    result is in the range of time values: it is the instant of the sweep
    less [keepDays] days. *)
Lemma cutoffDate_fixed_offset (e : Env) (now keepDays : Z) :
  LocalTZA_local e (now + LocalTZA_utc e now - keepDays * msPerDay)
  = LocalTZA_utc e now ->
  (Z.abs (now - keepDays * msPerDay) <= maxTimeValue)%Z ->
  cutoffDate e now keepDays = Some (now - keepDays * msPerDay)%Z.
Proof.
  intros O R. unfold cutoffDate. cbv zeta. rewrite O.
  replace (now + LocalTZA_utc e now - keepDays * msPerDay
           - LocalTZA_utc e now)%Z
    with (now - keepDays * msPerDay)%Z by lia.
  unfold TimeClip. apply Z.leb_le in R. rewrite R. reflexivity.
Qed.

Lemma kept_all (files : gmap string File) : kept None files = files.
Proof.
  unfold kept. apply map_filter_id. intros name f _ (_ & B & _). exact B.
Qed.

Lemma removed_none (files : gmap string File) : removed None files = ∅.
Proof.
  unfold removed. apply map_eq. intros name. rewrite lookup_empty.
  apply map_lookup_filter_None_2. right. intros f _ (_ & B & _). exact B.
Qed.

(** C6, as the code has it.  For every directory state,
    [cleanupOldBackups(keepDays)] returns a count and never throws; a
    missing or unreadable backup directory is left alone and counts 0;
    otherwise the files removed are exactly those that can be inspected and
    deleted and whose modification time is before the cutoff, and the
    count is their number; nothing else of the world changes but the log.
    The cutoff is what [setDate] makes of the sweep's reading of the clock:
    that instant less [keepDays] days where local time has the same offset
    at both ends and the result is in the range of time values, and the
    Invalid Date, against which no file is old, beyond it.  With files aged
    40, 31, 29 and 1 days, 30 days of retention and the clock in UTC the
    first two go and the count is 2. *)
Theorem cleanupOldBackups_removes_old_accessible (keepDays : Z) (w : World) :
  (exists w',
     cleanupOldBackups keepDays w = (Ok (deleted_by_cleanup keepDays w), w') /\
     backups w' = backups_after_cleanup keepDays w /\
     same_setting w w' /\ notified w' = notified w /\
     requested w' = requested w) /\
  (LocalTZA_local (env w) (sweepDate w + LocalTZA_utc (env w) (sweepDate w)
                           - keepDays * msPerDay)
   = LocalTZA_utc (env w) (sweepDate w) ->
   (Z.abs (sweepDate w - keepDays * msPerDay) <= maxTimeValue)%Z ->
   sweep_cutoff keepDays w = Some (sweepDate w - keepDays * msPerDay)%Z) /\
  (sweep_cutoff keepDays w = None ->
   deleted_by_cleanup keepDays w = 0 /\
   backups_after_cleanup keepDays w = backups w) /\
  (let w4 := sample_world remote_unreachable (Some sample_backups) in
   fst (cleanupOldBackups 30 w4) = Ok 2 /\
   backups (snd (cleanupOldBackups 30 w4)) = Some sample_backups_swept).
Proof.
  split; [|split; [|split]].
  - destruct (cleanupOldBackups_spec keepDays w)
      as (w' & R & B & [S N U] & _).
    exists w'. rewrite !app_nil_r in *. auto.
  - apply cutoffDate_fixed_offset.
  - intros C. unfold deleted_by_cleanup, backups_after_cleanup. rewrite C.
    destruct (backups w) as [files|]; [|auto].
    destruct (readdir_fails (env w)); [auto|].
    rewrite removed_none, kept_all, map_size_empty. auto.
  - vm_compute. split; reflexivity.
Qed.

(** Against C6 as stated: in New York at noon UTC of 2024-03-10, the day
    summer time began, a sweep of 30 days deletes a backup that is half an
    hour short of 30 days old, since 30 days back on the local calendar is
    an hour less than 30 days of time; and a sweep whose retention takes the
    cutoff out of the range of time values deletes nothing, though every
    backup is older than now less the retention. *)
Lemma cleanupOldBackups_calendar_days :
  let w := sample_world_in sample_env_new_york (Some edge_backups) in
  let v := sample_world remote_unreachable (Some sample_backups) in
  let far := (-100000000)%Z in
  (forall f, edge_backups !! "edge.txt" = Some f ->
             (sweepDate w - 30 * msPerDay <= mtime f)%Z) /\
  fst (cleanupOldBackups 30 w) = Ok 1 /\
  backups (snd (cleanupOldBackups 30 w)) = Some ∅ /\
  map_Forall (fun _ f => (mtime f < sweepDate v - far * msPerDay)%Z)
             sample_backups /\
  fst (cleanupOldBackups far v) = Ok 0 /\
  backups (snd (cleanupOldBackups far v)) = Some sample_backups.
Proof.
  cbv zeta. split.
  { intros f L. vm_compute in L. injection L as <-. vm_compute.
    discriminate. }
  split; [vm_compute; reflexivity|]. split; [vm_compute; reflexivity|].
  split.
  { apply map_Forall_lookup. intros name f L.
    unfold sample_backups in L.
    repeat (apply lookup_insert_Some in L as [[_ <-]|[_ L]];
            [vm_compute; reflexivity|]).
    rewrite lookup_empty in L. discriminate L. }
  split; vm_compute; reflexivity.
Qed.

(** The sweep after a sweep takes a file only if it has come to lie before
    the cutoff since. *)
Lemma removed_kept_between (first second : option Z)
    (files : gmap string File) (name : string) (f : File) :
  removed second (kept first files) !! name = Some f ->
  files !! name = Some f /\ old_and_accessible second f /\
  ~ before_cutoff (mtime f) first.
Proof.
  unfold removed, kept. intros L.
  apply map_lookup_filter_Some in L as [L O]. cbn in O.
  apply map_lookup_filter_Some in L as [L N]. cbn in N.
  split; [exact L|]. split; [exact O|].
  intros B. apply N. destruct O as (S & _ & U). repeat split; assumption.
Qed.

(** What is old against a cutoff is old against a later one. *)
Lemma old_not_later (second first : option Z) (f : File) :
  not_later second first ->
  old_and_accessible second f -> old_and_accessible first f.
Proof.
  intros NL (S & B & U). repeat split; try assumption.
  destruct second as [c2|], first as [c1|]; cbn in *;
    try contradiction; lia.
Qed.

Lemma not_later_kept (first second : option Z) (files : gmap string File) :
  not_later second first ->
  removed second (kept first files) = ∅ /\
  kept second (kept first files) = kept first files.
Proof.
  intros NL.
  pose proof (fun f => old_not_later second first f NL) as Old.
  split.
  - unfold removed, kept. apply map_eq. intros name. rewrite lookup_empty.
    apply map_lookup_filter_None_2. right. intros f L O.
    apply map_lookup_filter_Some in L as [_ N]. exact (N (Old _ O)).
  - unfold kept. apply map_filter_id.
    intros name f L O. apply map_lookup_filter_Some in L as [_ N].
    exact (N (Old _ O)).
Qed.

(** C7, as the code has it.  A second [cleanupOldBackups] right after a
    first, in the world the first one left, reads the clock anew.  It
    removes the files the first one has left that are old and accessible
    against its own cutoff, each of them a file that was not yet before
    the cutoff of the first, and returns their number.  When its cutoff is
    not later than the first one's, as when both sweeps read the same
    instant, it returns 0 and leaves the directory as it found it. *)
Theorem cleanupOldBackups_twice (keepDays : Z) (w : World) :
  let w1 := snd (cleanupOldBackups keepDays w) in
  let first := sweep_cutoff keepDays w in
  let second := sweep_cutoff keepDays w1 in
  sweeps w1 = S (sweeps w) /\ env w1 = env w /\
  fst (cleanupOldBackups keepDays w1) = Ok (deleted_by_cleanup keepDays w1) /\
  backups (snd (cleanupOldBackups keepDays w1))
  = backups_after_cleanup keepDays w1 /\
  (forall files,
     backups w = Some files -> readdir_fails (env w) = false ->
     deleted_by_cleanup keepDays w1
     = size (removed second (kept first files)) /\
     backups_after_cleanup keepDays w1
     = Some (kept second (kept first files)) /\
     forall name f,
       removed second (kept first files) !! name = Some f ->
       files !! name = Some f /\ old_and_accessible second f /\
       ~ before_cutoff (mtime f) first) /\
  (not_later second first ->
   fst (cleanupOldBackups keepDays w1) = Ok 0 /\
   backups (snd (cleanupOldBackups keepDays w1)) = backups w1) /\
  (elapsed (env w) (S (sweeps w)) = elapsed (env w) (sweeps w) ->
   second = first).
Proof.
  cbv zeta.
  destruct (cleanupOldBackups_spec keepDays w) as (w1 & R1 & B1 & F1 & S1).
  rewrite R1. cbn [snd].
  destruct (cleanupOldBackups_spec keepDays w1) as (w2 & R2 & B2 & F2 & S2).
  rewrite R2. cbn [fst snd].
  assert (E : env w1 = env w) by apply F1.
  split; [exact S1|]. split; [exact E|]. split; [reflexivity|].
  split; [exact B2|].
  assert (After : forall files,
             backups w = Some files -> readdir_fails (env w) = false ->
             deleted_by_cleanup keepDays w1
             = size (removed (sweep_cutoff keepDays w1)
                             (kept (sweep_cutoff keepDays w) files)) /\
             backups_after_cleanup keepDays w1
             = Some (kept (sweep_cutoff keepDays w1)
                          (kept (sweep_cutoff keepDays w) files))).
  { intros files B RF. unfold deleted_by_cleanup, backups_after_cleanup.
    rewrite B1, E. unfold backups_after_cleanup. rewrite B, RF. auto. }
  split; [|split].
  - intros files B RF. destruct (After files B RF) as [D A].
    split; [exact D|]. split; [exact A|]. apply removed_kept_between.
  - intros NL. rewrite B2.
    destruct (backups w) as [files|] eqn:B.
    2:{ unfold deleted_by_cleanup, backups_after_cleanup.
        rewrite B1. unfold backups_after_cleanup. rewrite B. auto. }
    destruct (readdir_fails (env w)) eqn:RF.
    { unfold deleted_by_cleanup, backups_after_cleanup.
      rewrite B1, E. unfold backups_after_cleanup. rewrite B, RF. auto. }
    destruct (After files eq_refl eq_refl) as [D A]. rewrite D, A.
    destruct (not_later_kept _ _ files NL) as [Z0 K].
    rewrite Z0, K, map_size_empty. split; [reflexivity|].
    rewrite B1. unfold backups_after_cleanup. rewrite B, RF. reflexivity.
  - intros T. unfold sweep_cutoff, sweepDate. rewrite E, S1, T. reflexivity.
Qed.

(** Against C7 as stated: with a clock that moves on by a millisecond from
    one sweep to the next, a backup that is 30 days old to the millisecond
    is left by a sweep of 30 days and deleted by the sweep right after it,
    which returns 1. *)
Lemma second_sweep_deletes :
  let w := sample_world_in sample_env_ticking (Some due_backups) in
  let w1 := snd (cleanupOldBackups 30 w) in
  fst (cleanupOldBackups 30 w) = Ok 0 /\ backups w1 = Some due_backups /\
  fst (cleanupOldBackups 30 w1) = Ok 1 /\
  backups (snd (cleanupOldBackups 30 w1)) = Some ∅.
Proof. cbv zeta. repeat split; vm_compute; reflexivity. Qed.
(** ** The analyzer, claim by claim *)

(** C1. Whenever [analyzeVips] returns an analysis, [permanent + temporary]
    is [total], and the three alert buckets together do not exceed
    [temporary]: with the temporary records that raise no alert they make up
    the temporary count. *)
Theorem analyzeVips_counts_partition (Date_parse : string -> option Z)
    (toISOString : Z -> string) (w w' : World) (a : Analysis) :
  analyzeVips Date_parse toISOString w = (Ok a, w') ->
  permanent a + temporary a = total a /\
  expired a + expiringToday a + expiringSoon a <= temporary a /\
  exists remainder,
    temporary a = expired a + expiringToday a + expiringSoon a + remainder.
Proof.
  intros H. apply analyzeVips_facts in H as [_ H].
  destruct (H a eq_refl) as [vipList ->]. clear H.
  unfold analyzeVips_classify.
  pose proof (analyzeVips_fold_counts Date_parse (clock (env w)) vipList
                (initial_analysis (length vipList)) []) as C.
  cbv zeta in C. destruct C as (T & P & Te & _ & _ & _ & A1 & A2 & _).
  set (r := fold_left _ _ _) in *.
  assert (count_where is_permanent vipList
          + count_where (fun v => negb (is_permanent v)) vipList
          = length vipList) as Split.
  { clear. unfold count_where. induction vipList as [|v l IH]; [reflexivity|].
    simpl. destruct (is_permanent v); simpl; lia. }
  unfold alerted in *. cbn in T, P, Te, A1, A2.
  split; [lia|]. split; [lia|].
  exists (temporary r.1 - (expired r.1 + expiringToday r.1 + expiringSoon r.1)).
  lia.
Qed.

Lemma Math_ceil_div_le (a b q : Z) :
  (0 < b)%Z -> (Math_ceil_div a b <= q)%Z <-> (a <= q * b)%Z.
Proof.
  intros Hb. unfold Math_ceil_div.
  pose proof (Z.div_mod (- a) b ltac:(lia)).
  pose proof (Z.mod_pos_bound (- a) b Hb).
  split; intros; nia.
Qed.

Lemma Math_ceil_div_lt (a b q : Z) :
  (0 < b)%Z -> (Math_ceil_div a b < q)%Z <-> (a <= (q - 1) * b)%Z.
Proof.
  intros Hb. rewrite <- Math_ceil_div_le by exact Hb. lia.
Qed.

(** C2, as the code has it.  A record whose expiration is neither absent nor
    ["None"] is counted under temporary, and when the expiration is a date
    [t] it is classified by [ceil((t - now) / 1 day)]: expired when [t] is a
    full day or more before [now]; expiring today when [t] is at most [now]
    and less than a day before it, so at [now] itself and one millisecond
    before; expiring soon when [t] is after [now] and at most 7 days after;
    in no bucket and without alert when [t] is more than 7 days after, so 8
    days after.  One alert line goes with every bucketed record.  An
    expiration that is not a date leaves the record in no bucket. *)
Theorem expiry_classification (Date_parse : string -> option Z) (now : Z)
    (v : VipRecord) (e : string) :
  expiration v = Some e -> e <> EmptyString -> e <> "None" ->
  let a := fst (analyzeVips_classify Date_parse now [v]) in
  let alerts := snd (analyzeVips_classify Date_parse now [v]) in
  temporary a = 1 /\ permanent a = 0 /\ length alerts = alerted a /\
  match Date_parse e with
  | None => alerted a = 0
  | Some t =>
    (expired a = 1 <-> (t <= now - msPerDay)%Z) /\
    (expiringToday a = 1 <-> (now - msPerDay < t <= now)%Z) /\
    (expiringSoon a = 1 <-> (now < t <= now + 7 * msPerDay)%Z) /\
    (alerted a = 0 /\ alerts = [] <-> (now + 7 * msPerDay < t)%Z) /\
    (t = now -> expiringToday a = 1 /\ expired a = 0) /\
    (t = (now - 1)%Z -> expiringToday a = 1 /\ expired a = 0) /\
    (t = (now + 7 * msPerDay)%Z -> expiringSoon a = 1) /\
    (t = (now + 8 * msPerDay)%Z -> alerted a = 0 /\ alerts = [])
  end.
Proof.
  intros He Hne Hnn.
  apply String.eqb_neq in Hne, Hnn.
  unfold analyzeVips_classify, fold_left, analyzeVips_forEach.
  rewrite He, Hne, Hnn. cbn [orb].
  destruct (Date_parse e) as [t|].
  2:{ destruct (startsWith (player_id v) "76561198");
        destruct (startsWith (player_id v) "11000"
                  || startsWith (player_id v) "76561199");
        cbn; auto. }
  assert (D : (0 < msPerDay)%Z) by reflexivity.
  pose proof (Math_ceil_div_lt (t - now) msPerDay 0 D) as L0.
  pose proof (Math_ceil_div_le (t - now) msPerDay 0 D) as L1.
  pose proof (Math_ceil_div_le (t - now) msPerDay (-1) D) as Lm.
  pose proof (Math_ceil_div_le (t - now) msPerDay 7 D) as L7.
  set (d := Math_ceil_div (t - now) msPerDay) in *.
  assert (M : msPerDay = 86400000%Z) by reflexivity.
  destruct (startsWith (player_id v) "76561198");
    destruct (startsWith (player_id v) "11000"
              || startsWith (player_id v) "76561199");
    destruct (d <? 0)%Z eqn:E0;
    [apply Z.ltb_lt in E0 | apply Z.ltb_ge in E0
    |apply Z.ltb_lt in E0 | apply Z.ltb_ge in E0
    |apply Z.ltb_lt in E0 | apply Z.ltb_ge in E0
    |apply Z.ltb_lt in E0 | apply Z.ltb_ge in E0];
    try (destruct (d =? 0)%Z eqn:E1;
         [apply Z.eqb_eq in E1 | apply Z.eqb_neq in E1]);
    try (destruct (d <=? 7)%Z eqn:E7;
         [apply Z.leb_le in E7 | apply Z.leb_gt in E7]);
    unfold alerted, push; cbn;
    repeat split; intros; try discriminate; try lia.
Qed.

Lemma prefix_cons_inv (c : ascii) (p s : string) :
  String.prefix (String c p) s = true ->
  exists s', s = String c s' /\ String.prefix p s' = true.
Proof.
  destruct s as [|c' s']; simpl; [discriminate|].
  destruct (ascii_dec c c') as [<-|]; [eauto | discriminate].
Qed.

(** The PC prefix and the console prefixes exclude one another. *)
Lemma pc_prefix_not_console (s : string) :
  startsWith s "76561198" = true ->
  startsWith s "11000" || startsWith s "76561199" = false.
Proof.
  unfold startsWith. intros H.
  repeat (apply prefix_cons_inv in H; destruct H as (? & -> & H)).
  reflexivity.
Qed.

Lemma count_where_ext {A : Type} (p q : A -> bool) (l : list A) :
  (forall x, p x = q x) -> count_where p l = count_where q l.
Proof.
  intros E. induction l as [|x l IH]; [reflexivity|].
  rewrite !count_where_cons, IH, E. reflexivity.
Qed.

Lemma count_where_three {A : Type} (p q : A -> bool) (l : list A) :
  count_where p l + count_where (fun x => negb (p x) && q x) l
  + count_where (fun x => negb (p x) && negb (q x)) l
  = length l.
Proof.
  induction l as [|x l IH]; [reflexivity|].
  rewrite !count_where_cons. cbn [length].
  destruct (p x), (q x); simpl; lia.
Qed.

(** C3. The platform counters of [analyzeVips] are the numbers of
    identifiers starting with ["76561198"] (pc), starting with ["11000"] or
    ["76561199"] (console), and starting with none of the three (unknown);
    every record is counted under exactly one of them; and
    ["76561198000000001"] counts as pc, ["1100000100000001"] as console and
    ["990000000"] as unknown. *)
Theorem platform_classification (Date_parse : string -> option Z) (now : Z)
    (vipList : list VipRecord) :
  let counted l := platforms (fst (analyzeVips_classify Date_parse now l)) in
  pc (counted vipList)
  = count_where (fun v => startsWith (player_id v) "76561198") vipList /\
  console (counted vipList)
  = count_where (fun v => startsWith (player_id v) "11000"
                          || startsWith (player_id v) "76561199") vipList /\
  unknown (counted vipList)
  = count_where (fun v => negb (startsWith (player_id v) "76561198")
                          && negb (startsWith (player_id v) "11000"
                                   || startsWith (player_id v) "76561199"))
                vipList /\
  pc (counted vipList) + console (counted vipList)
  + unknown (counted vipList) = length vipList /\
  counted [vip "76561198000000001" "Alice" None]
  = {| pc := 1; console := 0; unknown := 0 |} /\
  counted [vip "1100000100000001" "Bob" None]
  = {| pc := 0; console := 1; unknown := 0 |} /\
  counted [vip "990000000" "Carol" None]
  = {| pc := 0; console := 0; unknown := 1 |}.
Proof.
  cbv zeta. unfold analyzeVips_classify.
  pose proof (analyzeVips_fold_counts Date_parse now vipList
                (initial_analysis (length vipList)) []) as C.
  cbv zeta in C. destruct C as (_ & _ & _ & P & Co & U & _).
  cbn in P, Co, U.
  assert (E : count_where
                (fun v => negb (startsWith (player_id v) "76561198")
                          && (startsWith (player_id v) "11000"
                              || startsWith (player_id v) "76561199"))
                vipList
              = count_where
                  (fun v => startsWith (player_id v) "11000"
                            || startsWith (player_id v) "76561199")
                  vipList).
  { apply count_where_ext. intros v.
    destruct (startsWith (player_id v) "76561198") eqn:Pc; [|reflexivity].
    rewrite (pc_prefix_not_console _ Pc). reflexivity. }
  pose proof (count_where_three
                (fun v => startsWith (player_id v) "76561198")
                (fun v => startsWith (player_id v) "11000"
                          || startsWith (player_id v) "76561199")
                vipList) as Three.
  cbv beta in Three.
  rewrite P, Co, U.
  repeat split; try reflexivity; try exact E; exact Three.
Qed.

(** ** The two scheduled operations *)

Lemma bind_ok {A B : Type} (m : M A) (k : A -> M B) (w w1 : World) (a : A) :
  m w = (Ok a, w1) -> bind m k w = k a w1.
Proof. unfold bind. intros ->. reflexivity. Qed.

Lemma bind_throw {A B : Type} (m : M A) (k : A -> M B) (w w1 : World)
    (message : string) :
  m w = (Throw message, w1) -> bind m k w = (Throw message, w1).
Proof. unfold bind. intros ->. reflexivity. Qed.

Lemma try_catch_ok {A : Type} (m : M A) (h : string -> M A) (w w1 : World)
    (a : A) :
  m w = (Ok a, w1) -> try_catch m h w = (Ok a, w1).
Proof. unfold try_catch. intros ->. reflexivity. Qed.

Lemma try_catch_throw {A : Type} (m : M A) (h : string -> M A)
    (w w1 : World) (message : string) :
  m w = (Throw message, w1) -> try_catch m h w = h message w1.
Proof. unfold try_catch. intros ->. reflexivity. Qed.

(** A log line followed by a notification, the way both operations end. *)
Lemma log_then_notify (c : Component) (line : string) (l : Level)
    (title description : string) (color : Z) (w : World) :
  exists w',
    (let* _ := log c line l in
     sendDiscordNotification title description color) w = (Ok tt, w') /\
    backups w' = backups w /\
    step_facts w w' [note title description color] [].
Proof.
  destruct (log c line l w) as [r0 w0] eqn:L.
  destruct (sendDiscordNotification title description color w0)
    as [r1 w'] eqn:S.
  exists w'. rewrite (bind_ok _ _ _ w0 tt).
  - pose proof S as S'. apply sendDiscordNotification_facts in S'.
    destruct S' as (-> & B1 & F1).
    apply log_facts in L. destruct L as (_ & B0 & _ & F0).
    split; [exact S|]. split; [congruence|].
    exact (step_facts_trans _ _ _ _ _ _ _ F0 F1).
  - pose proof L as L'. apply log_facts in L' as (-> & _). exact L.
Qed.

Section ServiceFacts.

Variable Date_parse : string -> option Z.
Variable toISOString : Z -> string.

(** C4, as the code has it.  [performScheduledBackup] never throws and
    runs download, analysis and cleanup in this order, each in the world
    the one before left.  When the download throws, nothing more is
    requested and the directory stays as the download left it, and two
    failure notifications have been sent: the downloader's own and the
    operation's.  When the analysis throws, the cleanup is skipped, and
    the notifications are the downloader's confirmation and one failure
    notification.  When both succeed, the cleanup runs and the
    notifications are the downloader's confirmation, the analyzer's alert
    if a bucket is not empty, and then one summary with the VIP count and
    the number of deleted files. *)
Theorem performScheduledBackup_steps (w : World) :
  let w0 := snd (log Service "Starting scheduled backup..." LInfo w) in
  exists w',
    performScheduledBackup Date_parse toISOString w = (Ok tt, w') /\
    match downloadVipFile toISOString w0 with
    | (Throw message, w1) =>
      backups w' = backups w1 /\ requested w' = requested w1 /\
      notified w'
      = (notified w ++ [download_note (Throw message);
                        backup_failed_note message])%list
    | (Ok res, w1) =>
      match analyzeVips Date_parse toISOString w1 with
      | (Throw message, w2) =>
        backups w' = backups w2 /\ requested w' = requested w2 /\
        notified w'
        = (notified w ++ [download_note (Ok res);
                          backup_failed_note message])%list
      | (Ok a, w2) =>
        backups w' = backups_after_cleanup (retentionDays (config w)) w2 /\
        requested w' = requested w2 /\
        notified w'
        = (notified w ++ [download_note (Ok res)] ++ analysis_notes (Ok a)
           ++ [backup_summary_note
                 a (deleted_by_cleanup (retentionDays (config w)) w2)])%list
      end
    end.
Proof.
  cbv zeta. unfold performScheduledBackup.
  destruct (log Service "Starting scheduled backup..." LInfo w)
    as [r0 w0] eqn:L0.
  pose proof L0 as F0. apply log_facts in F0 as (-> & _ & _ & F0).
  cbn [snd].
  destruct (downloadVipFile toISOString w0) as [[res|message] w1] eqn:D.
  2:{ (* the download throws *)
    pose proof D as FD. apply downloadVipFile_facts in FD as [urls FD].
    edestruct (log_then_notify Service
                 ("Scheduled backup failed: " ++ message) LError
                 "Backup Failed"
                 ("❌ Scheduled backup failed: " ++ message) 0xFF0000 w1)
      as (w' & R & B & F).
    exists w'. split.
    { erewrite try_catch_throw; [exact R|].
      erewrite bind_ok by exact L0. erewrite bind_throw by exact D.
      reflexivity. }
    split; [exact B|]. split.
    - destruct F as [_ _ ->]. apply app_nil_r.
    - pose proof (step_facts_trans _ _ _ _ _ _ _ F0
                    (step_facts_trans _ _ _ _ _ _ _ FD F)) as [_ N _].
      exact N. }
  pose proof D as FD. apply downloadVipFile_facts in FD as [urls FD].
  destruct (analyzeVips Date_parse toISOString w1)
    as [[a|message] w2] eqn:A.
  2:{ (* the analysis throws *)
    pose proof A as FA. apply analyzeVips_facts in FA as [[urls2 FA] _].
    edestruct (log_then_notify Service
                 ("Scheduled backup failed: " ++ message) LError
                 "Backup Failed"
                 ("❌ Scheduled backup failed: " ++ message) 0xFF0000 w2)
      as (w' & R & B & F).
    exists w'. split.
    { erewrite try_catch_throw; [exact R|].
      erewrite bind_ok by exact L0. erewrite bind_ok by exact D.
      erewrite bind_throw by exact A. reflexivity. }
    split; [exact B|]. split.
    - destruct F as [_ _ ->]. apply app_nil_r.
    - pose proof (step_facts_trans _ _ _ _ _ _ _ F0
                    (step_facts_trans _ _ _ _ _ _ _ FD
                       (step_facts_trans _ _ _ _ _ _ _ FA F))) as [_ N _].
      exact N. }
  (* both succeed *)
  pose proof A as FA. apply analyzeVips_facts in FA as [[urls2 FA] _].
  assert (C2 : config w2 = config w).
  { pose proof (step_facts_trans _ _ _ _ _ _ _ F0
                  (step_facts_trans _ _ _ _ _ _ _ FD FA))
      as [(E & _) _ _].
    exact E. }
  destruct (cleanupOldBackups_spec (retentionDays (config w)) w2)
    as (w3 & RC & BC & FC & _).
  edestruct (log_then_notify Service
               "Scheduled backup completed successfully" LSuccess
               "Scheduled Backup Complete"
               ("✅ **Backup Summary**" ++ LF ++ "📁 VIP file backed up" ++ LF
                ++ "📊 " ++ show (total a) ++ " VIPs analyzed" ++ LF
                ++ "🧹 "
                ++ show (deleted_by_cleanup (retentionDays (config w)) w2)
                ++ " old files cleaned")
               0x00FF00 w3)
    as (w' & R & B & F).
  exists w'. split.
  { erewrite try_catch_ok; [reflexivity|].
    erewrite bind_ok by exact L0. erewrite bind_ok by exact D.
    erewrite bind_ok by exact A.
    erewrite bind_ok by (rewrite C2; exact RC).
    exact R. }
  split; [congruence|]. split.
  - destruct F as [_ _ ->], FC as [_ _ ->]. rewrite !app_nil_r. reflexivity.
  - pose proof (step_facts_trans _ _ _ _ _ _ _ F0
                  (step_facts_trans _ _ _ _ _ _ _ FD
                     (step_facts_trans _ _ _ _ _ _ _ FA
                        (step_facts_trans _ _ _ _ _ _ _ FC F))))
      as [_ N _].
    exact N.
Qed.

Lemma criticalIssues_nonempty (a : Analysis) :
  (0 <? length (criticalIssues a))%nat = needs_attention a.
Proof.
  unfold criticalIssues, needs_attention, push.
  destruct (0 <? expiringToday a)%nat, (0 <? expired a)%nat,
    (0 <? expiringSoon a)%nat; reflexivity.
Qed.

(** C5, as the code has it.  [performHealthCheck] never throws.  When the
    connection test fails, nothing more is requested and the one
    notification is the failure notification.  Otherwise the analysis runs;
    when a bucket is not empty two alert notifications are sent, the
    analyzer's own and then the operation's consolidated one, whose text
    lists every bucket that is not empty and no other; when all three
    buckets are empty no notification is sent at all. *)
Theorem performHealthCheck_steps (w : World) :
  let w0 := snd (log Service "Performing health check..." LInfo w) in
  (exists w',
     performHealthCheck Date_parse toISOString w = (Ok tt, w') /\
     match testConnection w0 with
     | (Throw _, _) => False
     | (Ok (Disconnected error), w1) =>
       backups w' = backups w1 /\ requested w' = requested w1 /\
       notified w' = (notified w ++ [health_failed_note error])%list
     | (Ok (Connected _ _ _), w1) =>
       match analyzeVips Date_parse toISOString w1 with
       | (Throw message, w2) =>
         notified w' = (notified w ++ [health_failed_note message])%list
       | (Ok a, w2) =>
         if needs_attention a
         then notified w'
              = (notified w
                 ++ [note "VIP Status Alert" (analysis_notification a)
                          0xFF8C00;
                     health_alert_note a])%list
         else notified w' = notified w
       end
     end) /\
  forall a,
    criticalIssues a
    = app (if (0 <? expiringToday a)%nat
           then ["🚨 " ++ show (expiringToday a) ++ " VIPs expire TODAY"]
           else [])
          (app (if (0 <? expired a)%nat
                then ["❌ " ++ show (expired a) ++ " VIPs have expired"]
                else [])
               (if (0 <? expiringSoon a)%nat
                then ["⚠️ " ++ show (expiringSoon a)
                      ++ " VIPs expire within 7 days"]
                else [])).
Proof.
  cbv zeta. split.
  2:{ intros a. unfold criticalIssues, push.
      destruct (0 <? expiringToday a)%nat, (0 <? expired a)%nat,
        (0 <? expiringSoon a)%nat; reflexivity. }
  unfold performHealthCheck.
  destruct (log Service "Performing health check..." LInfo w)
    as [r0 w0] eqn:L0.
  pose proof L0 as F0. apply log_facts in F0 as (-> & _ & _ & F0).
  cbn [snd].
  destruct (testConnection w0) as [rt w1] eqn:T.
  pose proof T as FT. apply testConnection_facts in FT as [[t ->] [urls FT]].
  destruct t as [serverName playerCount maxPlayers|error].
  2:{ (* unreachable *)
    edestruct (log_then_notify Service
                 ("Health check failed: " ++ error) LError
                 "Health Check Failed"
                 ("❌ VIP health check failed: " ++ error) 0xFF0000 w1)
      as (w' & R & B & F).
    exists w'. split.
    { erewrite try_catch_throw; [exact R|].
      rewrite (bind_ok _ _ _ _ _ L0). rewrite (bind_ok _ _ _ _ _ T).
      reflexivity. }
    split; [exact B|]. split.
    - destruct F as [_ _ ->]. apply app_nil_r.
    - pose proof (step_facts_trans _ _ _ _ _ _ _ F0
                    (step_facts_trans _ _ _ _ _ _ _ FT F)) as [_ N _].
      exact N. }
  destruct (analyzeVips Date_parse toISOString w1)
    as [[a|message] w2] eqn:A.
  2:{ (* the analysis throws *)
    pose proof A as FA. apply analyzeVips_facts in FA as [[urls2 FA] _].
    edestruct (log_then_notify Service
                 ("Health check failed: " ++ message) LError
                 "Health Check Failed"
                 ("❌ VIP health check failed: " ++ message) 0xFF0000 w2)
      as (w' & R & B & F).
    exists w'. split.
    { erewrite try_catch_throw; [exact R|].
      rewrite (bind_ok _ _ _ _ _ L0). rewrite (bind_ok _ _ _ _ _ T).
      rewrite (bind_throw _ _ _ _ _ A). reflexivity. }
    pose proof (step_facts_trans _ _ _ _ _ _ _ F0
                  (step_facts_trans _ _ _ _ _ _ _ FT
                     (step_facts_trans _ _ _ _ _ _ _ FA F))) as [_ N _].
    exact N. }
  pose proof A as FA. apply analyzeVips_facts in FA as [[urls2 FA] _].
  cbn [analysis_notes] in FA.
  pose proof (step_facts_trans _ _ _ _ _ _ _ F0
                (step_facts_trans _ _ _ _ _ _ _ FT FA)) as F012.
  cbn [app] in F012.
  destruct (needs_attention a) eqn:NA.
  - destruct (sendDiscordNotification
                "VIP Alert"
                ("🔔 **VIP Status Alert**" ++ LF
                 ++ String.concat LF (criticalIssues a)) 0xFF8C00 w2)
      as [rs w3] eqn:S.
    pose proof S as FS.
    apply sendDiscordNotification_facts in FS as (-> & _ & FS).
    destruct (log Service ("Health check completed - " ++ show (total a)
                           ++ " VIPs checked") LSuccess w3)
      as [rl w'] eqn:L.
    pose proof L as FL. apply log_facts in FL as (-> & _ & _ & FL).
    exists w'. split.
    { erewrite try_catch_ok; [reflexivity|].
      rewrite (bind_ok _ _ _ _ _ L0). rewrite (bind_ok _ _ _ _ _ T).
      rewrite (bind_ok _ _ _ _ _ A).
      rewrite criticalIssues_nonempty, NA.
      rewrite (bind_ok _ _ _ _ _ S). exact L. }
    pose proof (step_facts_trans _ _ _ _ _ _ _ F012
                  (step_facts_trans _ _ _ _ _ _ _ FS FL)) as [_ N _].
    exact N.
  - destruct (log Service ("Health check completed - " ++ show (total a)
                           ++ " VIPs checked") LSuccess w2)
      as [rl w'] eqn:L.
    pose proof L as FL. apply log_facts in FL as (-> & _ & _ & FL).
    exists w'. split.
    { erewrite try_catch_ok; [reflexivity|].
      rewrite (bind_ok _ _ _ _ _ L0). rewrite (bind_ok _ _ _ _ _ T).
      rewrite (bind_ok _ _ _ _ _ A).
      rewrite criticalIssues_nonempty, NA.
      erewrite bind_ok by reflexivity. exact L. }
    pose proof (step_facts_trans _ _ _ _ _ _ _ F012 FL) as [_ N _].
    rewrite N. apply app_nil_r.
Qed.

End ServiceFacts.

(** ** What an analysis does besides computing *)

Lemma makeRequest_outcome (endpoint : Endpoint) (w w0 : World) :
  config w0 = config w -> env w0 = env w -> httpCalls w0 = httpCalls w ->
  fst (makeRequest endpoint w0) = fst (makeRequest endpoint w).
Proof.
  intros C E H. unfold makeRequest. cbn [snd log emit httpCalls set_trace env].
  rewrite C, E, H.
  destruct (negb (truthy (apiToken (config w)))); [reflexivity|].
  repeat match goal with
         | |- context [match ?x with _ => _ end] => destruct x
         end; reflexivity.
Qed.


Lemma fs_mkdir_ok (w : World) :
  (backups w = None -> mkdir_error (env w) = None) ->
  exists w',
    fs_mkdir w = (Ok tt, w') /\
    backups w' = Some (default ∅ (backups w)) /\ step_facts w w' [] [].
Proof.
  intros H. unfold fs_mkdir.
  destruct (backups w) as [files|] eqn:B.
  - exists w. rewrite B. auto using step_facts_refl.
  - rewrite (H eq_refl). eexists. split; [reflexivity|].
    split; [reflexivity|].
    split; [repeat split | |]; unfold notified, requested; cbn;
      rewrite app_nil_r; reflexivity.
Qed.

Lemma fs_writeFile_ok (file data : string) (w : World)
    (files : gmap string File) :
  backups w = Some files -> writeFile_error (env w) file = None ->
  exists w',
    fs_writeFile file data w = (Ok tt, w') /\
    backups w'
    = Some (<[file := {| mtime := clock (env w); content := data;
                         stat_fails := false; unlink_fails := false |}]>
              files) /\
    step_facts w w' [] [].
Proof.
  intros B E. unfold fs_writeFile. rewrite B, E. eexists.
  split; [reflexivity|]. split; [reflexivity|].
  split; [repeat split | |]; unfold notified, requested; cbn;
    rewrite app_nil_r; reflexivity.
Qed.



(** ** The scheduler *)

Lemma alter_new_pair (f : CronTask -> CronTask) (t1 t2 : CronTask)
    (l : list CronTask) :
  alter f (length (push l t1)) (alter f (length l) (push (push l t1) t2))
  = (l ++ [f t1; f t2])%list.
Proof.
  unfold push. induction l as [|t l IH]; [reflexivity|].
  cbn. f_equal. exact IH.
Qed.

Lemma filter_running_stopped (l : list CronTask) :
  List.filter running (map (set_running false) l) = [].
Proof. induction l as [|t l IH]; [reflexivity | exact IH]. Qed.

Section SchedulerFacts.

Variable cron_validate : string -> bool.

(** [start] in a stopped service with valid schedules: the service runs,
    and the registry has gained the two triggers, started. *)
Lemma start_from_stopped (w : World) :
  isRunning w = false ->
  cron_validate (backupSchedule (config w)) = true ->
  cron_validate (alertSchedule (config w)) = true ->
  exists w',
    start cron_validate w = (Ok tt, w') /\
    isRunning w' = true /\ config w' = config w /\
    cronTasks w'
    = (cronTasks w ++ [backup_trigger (config w);
                       health_trigger (config w)])%list.
Proof.
  intros R Vb Va. unfold start. rewrite R.
  unfold bind at 1. cbn [log emit].
  unfold bind at 1. cbn [log emit].
  unfold bind at 1. cbn [log emit].
  unfold bind at 1. cbn [log emit].
  rewrite Vb, Va. cbn [negb].
  unfold bind at 1. cbn [cron_schedule].
  unfold bind at 1. cbn [cron_schedule].
  unfold bind at 1. cbn [task_start].
  unfold bind at 1. cbn [task_start].
  unfold bind at 1.
  unfold bind at 1. cbn [log emit].
  cbn [cronTasks set_cronTasks set_trace set_isRunning].
  rewrite alter_new_pair.
  match goal with
  | |- context [bind (sendDiscordNotification ?t ?d ?c) _ ?w0] =>
    destruct (sendDiscordNotification t d c w0) as [rs ws] eqn:S
  end.
  pose proof S as FS.
  apply sendDiscordNotification_facts in FS as (-> & _ & [FS _ _]).
  destruct FS as (C & _ & RS & T & _).
  unfold bind at 1. rewrite S.
  unfold bind, setTimeout, process_on. cbn.
  eexists. split; [reflexivity|]. cbn.
  rewrite RS, C, T. cbn. auto.
Qed.

(** C8. With valid schedules the scheduler is a machine of two states.
    [start] in a running service only logs a warning, and so does [stop]
    in a stopped one.  [start] in a stopped service makes it run and adds
    one pair of active triggers, the backup one and the health-check one;
    a second [start] adds none.  [stop] in a running service leaves no
    active trigger, and a [start] after it leaves exactly the one pair. *)
Theorem scheduler_two_states (w : World) :
  cron_validate (backupSchedule (config w)) = true ->
  cron_validate (alertSchedule (config w)) = true ->
  let Running := set_isRunning true w in
  let Stopped := set_isRunning false w in
  let pair := [backup_trigger (config w); health_trigger (config w)] in
  start cron_validate Running
  = (Ok tt, warned "Service is already running" Running) /\
  stop Stopped = (Ok tt, warned "Service is not running" Stopped) /\
  (let once := snd (start cron_validate Stopped) in
   let twice := snd (start cron_validate once) in
   fst (start cron_validate Stopped) = Ok tt /\
   isRunning once = true /\
   activeTriggers once = (activeTriggers w ++ pair)%list /\
   twice = warned "Service is already running" once /\
   isRunning twice = true /\
   activeTriggers twice = (activeTriggers w ++ pair)%list) /\
  (let halted := snd (stop Running) in
   let resumed := snd (start cron_validate halted) in
   fst (stop Running) = Ok tt /\
   isRunning halted = false /\ activeTriggers halted = [] /\
   fst (start cron_validate halted) = Ok tt /\
   isRunning resumed = true /\ activeTriggers resumed = pair).
Proof.
  intros Vb Va. cbv zeta.
  split; [reflexivity|]. split; [reflexivity|]. split.
  - destruct (start_from_stopped (set_isRunning false w) eq_refl Vb Va)
      as (w1 & S1 & R1 & C1 & T1).
    rewrite S1. cbn [fst snd].
    assert (S2 : start cron_validate w1
                 = (Ok tt, warned "Service is already running" w1)).
    { unfold start. rewrite R1. reflexivity. }
    rewrite S2. cbn [snd].
    unfold activeTriggers. cbn [cronTasks warned set_trace isRunning].
    rewrite T1, List.filter_app. cbn [config set_isRunning cronTasks].
    auto 10.
  - set (halted := snd (stop (set_isRunning true w))).
    assert (H : fst (stop (set_isRunning true w)) = Ok tt /\
                isRunning halted = false /\ config halted = config w /\
                cronTasks halted = map (set_running false) (cronTasks w)).
    { unfold halted. cbn. auto. }
    destruct H as (F & R & C & T).
    destruct (start_from_stopped halted R) as (w2 & S2 & R2 & C2 & T2).
    { rewrite C. exact Vb. }
    { rewrite C. exact Va. }
    rewrite S2. cbn [fst snd]. unfold activeTriggers.
    rewrite T2, T, C, List.filter_app, filter_running_stopped.
    auto 10.
Qed.

End SchedulerFacts.

(** ** The export format *)

Lemma append_cons (x : ascii) (a b : string) :
  String x a ++ b = String x (a ++ b).
Proof. reflexivity. Qed.

Lemma append_nil (b : string) : EmptyString ++ b = b.
Proof. reflexivity. Qed.

Lemma append_nil_r (a : string) : a ++ EmptyString = a.
Proof.
  induction a as [|x a IH]; [reflexivity|].
  rewrite append_cons, IH. reflexivity.
Qed.

Lemma append_assoc (a b c : string) : (a ++ b) ++ c = a ++ (b ++ c).
Proof.
  induction a as [|x a IH]; [reflexivity|].
  rewrite !append_cons, IH. reflexivity.
Qed.

Lemma lacks_app (c : ascii) (a b : string) :
  lacks c (a ++ b) = lacks c a && lacks c b.
Proof.
  induction a as [|x a IH]; [reflexivity|].
  rewrite append_cons. cbn [lacks]. rewrite IH, andb_assoc. reflexivity.
Qed.

Lemma lines_line (s rest : string) :
  lacks "010"%char s = true -> lines (s ++ LF ++ rest) = s :: lines rest.
Proof.
  induction s as [|x s IH]; intros L; [reflexivity|].
  cbn [lacks] in L. apply andb_true_iff in L as [Lx Ls].
  rewrite append_cons. cbn [lines].
  apply negb_true_iff in Lx. rewrite Lx, (IH Ls). reflexivity.
Qed.

Lemma before_app (c : ascii) (s rest : string) :
  lacks c s = true -> before c (s ++ String c rest) = s.
Proof.
  induction s as [|x s IH]; intros L.
  - rewrite append_nil. cbn [before]. rewrite Ascii.eqb_refl. reflexivity.
  - cbn [lacks] in L. apply andb_true_iff in L as [Lx Ls].
    rewrite append_cons. cbn [before].
    apply negb_true_iff in Lx. rewrite Lx, (IH Ls). reflexivity.
Qed.

Lemma after_app (c : ascii) (s rest : string) :
  lacks c s = true -> after c (s ++ rest) = after c rest.
Proof.
  induction s as [|x s IH]; intros L; [reflexivity|].
  cbn [lacks] in L. apply andb_true_iff in L as [Lx Ls].
  rewrite append_cons. cbn [after].
  apply negb_true_iff in Lx. rewrite Lx. exact (IH Ls).
Qed.

Lemma after_skip (c x : ascii) (s : string) :
  Ascii.eqb x c = false -> after c (String x s) = after c s.
Proof. intros E. cbn [after]. rewrite E. reflexivity. Qed.

Lemma after_hit (c : ascii) (s : string) : after c (String c s) = Some s.
Proof. cbn [after]. rewrite Ascii.eqb_refl. reflexivity. Qed.

Lemma prefix_nil (s : string) : String.prefix EmptyString s = true.
Proof. destruct s; reflexivity. Qed.

Lemma prefix_cons_same (c : ascii) (p s : string) :
  String.prefix (String c p) (String c s) = String.prefix p s.
Proof.
  cbn [String.prefix]. destruct (ascii_dec c c); [reflexivity | congruence].
Qed.

Lemma prefix_cons_diff (c x : ascii) (p s : string) :
  c <> x -> String.prefix (String c p) (String x s) = false.
Proof.
  intros N. cbn [String.prefix].
  destruct (ascii_dec c x); [contradiction | reflexivity].
Qed.

Lemma prefix_head (c x : ascii) (s : string) :
  String.prefix (String c EmptyString) (String x s) = Ascii.eqb c x.
Proof.
  destruct (ascii_dec c x) as [->|N].
  - rewrite prefix_cons_same, prefix_nil, Ascii.eqb_refl. reflexivity.
  - rewrite (prefix_cons_diff _ _ _ _ N). symmetry.
    apply Ascii.eqb_neq. exact N.
Qed.

Lemma pretty_N_char_not_LF (x : N) :
  Ascii.eqb (pretty_N_char x) "010"%char = false.
Proof. unfold pretty_N_char. repeat case_match; reflexivity. Qed.

Lemma pretty_N_go_lacks_LF (x : N) :
  forall s, lacks "010"%char s = true ->
            lacks "010"%char (pretty_N_go x s) = true.
Proof.
  induction (N.lt_wf_0 x) as [x _ IH]. intros s L.
  destruct (decide (x = 0%N)) as [->|Nz].
  - rewrite pretty_N_go_0. exact L.
  - rewrite pretty_N_go_step by lia. apply IH.
    + apply N.div_lt; lia.
    + cbn. rewrite pretty_N_char_not_LF. exact L.
Qed.

Lemma show_lacks_LF (n : nat) : lacks "010"%char (show n) = true.
Proof.
  unfold show, pretty, pretty_nat, pretty, pretty_N.
  destruct (decide _); [reflexivity|].
  apply pretty_N_go_lacks_LF. reflexivity.
Qed.

Section FormatterFacts.

Variable toISOString : Z -> string.

Lemma formatVipList_forEach_line (formatted : string) (v : VipRecord) :
  formatVipList_forEach formatted v = formatted ++ (record_line v ++ LF).
Proof.
  unfold formatVipList_forEach, record_line, is_permanent, truthy, or_else.
  rewrite !append_assoc.
  destruct (expiration v) as [e|]; [|reflexivity].
  destruct (String.eqb e EmptyString), (String.eqb e "None"); cbn;
    rewrite ?append_assoc; reflexivity.
Qed.

Lemma lines_records (l : list VipRecord) :
  forall formatted,
    Forall (fun v => lacks "010"%char (record_line v) = true) l ->
    exists body,
      fold_left formatVipList_forEach l formatted = formatted ++ body /\
      lines body = (map record_line l ++ [EmptyString])%list.
Proof.
  induction l as [|v l IH]; intros formatted F.
  - exists EmptyString. split; [|reflexivity].
    cbn [fold_left]. rewrite append_nil_r. reflexivity.
  - apply Forall_cons in F as [Fv Fl].
    destruct (IH (formatVipList_forEach formatted v) Fl) as (body & E & L).
    exists (record_line v ++ LF ++ body). split.
    + cbn [fold_left]. rewrite E, formatVipList_forEach_line.
      rewrite !append_assoc. reflexivity.
    + rewrite (lines_line _ _ Fv), L. reflexivity.
Qed.

Lemma delimiter_free_line (v : VipRecord) :
  delimiter_free v = true ->
  lacks "010"%char (record_line v) = true /\
  parseVipLine (record_line v) = Some (vip_summary v).
Proof.
  unfold delimiter_free. rewrite !andb_true_iff.
  intros [[[[[[[I1 I2] I3] I4] N1] N2] E] D].
  apply negb_true_iff in I4.
  split.
  - unfold record_line, is_permanent, truthy, or_else, lacks_opt in *.
    rewrite !lacks_app, I1, N1.
    destruct (expiration v) as [e|], (description v) as [d|];
      try destruct (String.eqb e EmptyString);
      try destruct (String.eqb e "None");
      try destruct (String.eqb d EmptyString);
      cbn [negb orb]; rewrite ?lacks_app, ?E, ?D; reflexivity.
  - unfold parseVipLine, vip_summary.
    assert (Head : String.eqb (record_line v) EmptyString = false /\
                   String.prefix "#" (record_line v) = false).
    { unfold record_line. destruct (player_id v) as [|x s].
      - rewrite append_nil, !append_cons.
        split; [reflexivity | rewrite prefix_head; reflexivity].
      - rewrite append_cons. split; [reflexivity|].
        rewrite prefix_head in *. exact I4. }
    destruct Head as [-> ->]. cbn [orb]. f_equal. f_equal.
    + unfold record_line. rewrite !append_cons, append_nil.
      apply before_app. exact I2.
    + unfold record_line.
      rewrite (after_app _ _ _ I3), !append_cons, append_nil.
      rewrite !after_skip by reflexivity.
      rewrite (after_app _ _ _ N2).
      destruct (is_permanent v).
      * rewrite !append_cons, append_nil.
        rewrite after_skip by reflexivity. rewrite after_hit.
        rewrite !prefix_cons_same, prefix_nil. reflexivity.
      * rewrite !append_cons, append_nil.
        rewrite after_skip by reflexivity. rewrite after_hit.
        rewrite prefix_cons_diff by discriminate. reflexivity.
Qed.

Lemma parse_comment (rest : string) :
  parseVipLine (String "#" rest) = None.
Proof.
  unfold parseVipLine. rewrite prefix_cons_same, prefix_nil, orb_true_r.
  reflexivity.
Qed.

Lemma parse_record_lines (l : list VipRecord) :
  forallb delimiter_free l = true ->
  Forall (fun v => lacks "010"%char (record_line v) = true) l /\
  omap parseVipLine (map record_line l) = map vip_summary l.
Proof.
  induction l as [|v l IH]; intros F.
  - split; [constructor | reflexivity].
  - cbn [forallb] in F. apply andb_true_iff in F as [Fv Fl].
    destruct (IH Fl) as [IH1 IH2].
    destruct (delimiter_free_line v Fv) as [L P].
    split; [constructor; assumption|].
    cbn [map omap list_omap]. rewrite P. cbn. f_equal. exact IH2.
Qed.

(** C9, as the code has it.  When the time stamp holds no line feed and
    the records keep clear of the delimiters of the format (no line feed in
    any field; no space, no parenthesis and no leading [#] in the player
    ID; no parenthesis in the name), reading the fallback rendering back
    line by line recovers the player ID and the permanent-or-dated status
    of every record, in order. *)
Theorem export_round_trip (now : Z) (vipList : list VipRecord) :
  lacks "010"%char (toISOString now) = true ->
  forallb delimiter_free vipList = true ->
  parseVipFile (formatVipList toISOString now vipList)
  = map vip_summary vipList.
Proof.
  intros Iso F. destruct (parse_record_lines vipList F) as [L P].
  unfold formatVipList. cbv zeta.
  match goal with
  | |- context [fold_left formatVipList_forEach vipList ?header] =>
    destruct (lines_records vipList header L) as (body & -> & B)
  end.
  unfold parseVipFile.
  rewrite !append_assoc.
  rewrite <- (append_assoc "# VIP File Generated " (toISOString now)).
  rewrite (lines_line ("# VIP File Generated " ++ toISOString now))
    by (rewrite lacks_app, Iso; reflexivity).
  rewrite <- (append_assoc "# Total VIPs: " (show (length vipList))).
  rewrite (lines_line ("# Total VIPs: " ++ show (length vipList)))
    by (rewrite lacks_app, show_lacks_LF; reflexivity).
  rewrite (lines_line "# Format: STEAM_ID_64 # Player_Name (expiration)")
    by reflexivity.
  change (LF ++ body) with (EmptyString ++ LF ++ body).
  rewrite (lines_line EmptyString) by reflexivity.
  rewrite B, !append_cons.
  cbn [omap list_omap]. rewrite !parse_comment.
  change (parseVipLine EmptyString) with (@None (string * bool)).
  rewrite omap_app, P. cbn. apply app_nil_r.
Qed.

End FormatterFacts.

(** Against C9 as stated: the fallback formatter renders a permanent record
    and a dated one alike, and two records with different player IDs alike;
    whatever reads its output back cannot tell them apart. *)
Lemma formatVipList_collisions :
  formatVipList sample_toISOString sample_now [permanent_lookalike]
  = formatVipList sample_toISOString sample_now [dated_lookalike] /\
  is_permanent permanent_lookalike = true /\
  is_permanent dated_lookalike = false /\
  formatVipList sample_toISOString sample_now [short_id_record]
  = formatVipList sample_toISOString sample_now [long_id_record] /\
  player_id short_id_record <> player_id long_id_record /\
  ~ exists parse : string -> list (string * bool),
      forall l : list VipRecord,
        parse (formatVipList sample_toISOString sample_now l)
        = map vip_summary l.
Proof.
  assert (E : formatVipList sample_toISOString sample_now
                            [permanent_lookalike]
              = formatVipList sample_toISOString sample_now
                              [dated_lookalike])
    by (vm_compute; reflexivity).
  repeat split; try exact E; try (vm_compute; reflexivity).
  - discriminate.
  - intros [parse R].
    pose proof (R [permanent_lookalike]) as R1.
    pose proof (R [dated_lookalike]) as R2.
    rewrite E, R2 in R1. discriminate R1.
Qed.

(** ** Sample runs *)

Lemma analyzeVips_counts_partition_witness :
  exists a w',
    analyzeVips sample_Date_parse sample_toISOString
                (sample_world (remote_serving sample_vips) None)
    = (Ok a, w') /\
    permanent a + temporary a = total a /\
    expired a + expiringToday a + expiringSoon a <= temporary a /\
    exists remainder,
      temporary a = expired a + expiringToday a + expiringSoon a + remainder.
Proof.
  eexists. eexists. split; [vm_compute; reflexivity|].
  eapply (analyzeVips_counts_partition sample_Date_parse sample_toISOString
            (sample_world (remote_serving sample_vips) None)).
  vm_compute. reflexivity.
Defined.

(** Against C2 as stated: an expiration one millisecond before now is
    counted under expiringToday and not under expired. *)
Lemma one_millisecond_ago_expires_today :
  let r := analyzeVips_classify
             sample_Date_parse sample_now
             [vip "76561198000000001" "Alice"
                  (Some "2024-03-10T11:59:59.999Z")] in
  sample_Date_parse "2024-03-10T11:59:59.999Z" = Some (sample_now - 1)%Z /\
  expired (fst r) = 0 /\ expiringToday (fst r) = 1 /\
  snd r = ["🚨 **Alice** expires TODAY"].
Proof. vm_compute. repeat split; reflexivity. Qed.

Lemma expiry_classification_witness :
  let v := vip "1100000100000001" "Bob" (Some "2024-03-17T12:00:00.000Z") in
  let e := "2024-03-17T12:00:00.000Z" in
  let a := fst (analyzeVips_classify sample_Date_parse sample_now [v]) in
  expiration v = Some e /\ e <> EmptyString /\ e <> "None" /\
  sample_Date_parse e = Some (sample_now + 7 * msPerDay)%Z /\
  temporary a = 1 /\ expiringSoon a = 1.
Proof.
  cbv zeta.
  split; [reflexivity|]. split; [discriminate|]. split; [discriminate|].
  split; [reflexivity|].
  pose proof (expiry_classification
                sample_Date_parse sample_now
                (vip "1100000100000001" "Bob"
                     (Some "2024-03-17T12:00:00.000Z"))
                "2024-03-17T12:00:00.000Z"
                eq_refl ltac:(discriminate) ltac:(discriminate))
    as (T & _ & _ & C).
  change (sample_Date_parse "2024-03-17T12:00:00.000Z")
    with (Some (sample_now + 7 * msPerDay)%Z) in C.
  destruct C as (_ & _ & _ & _ & _ & _ & S & _).
  split; [exact T | exact (S eq_refl)].
Defined.

(** Against C4 as stated: a run whose download fails sends two failure
    notifications, the downloader's and the operation's. *)
Lemma failed_download_notifies_twice :
  let w := sample_world remote_unreachable None in
  let w' := snd (performScheduledBackup sample_Date_parse sample_toISOString
                                        w) in
  fst (downloadVipFile sample_toISOString
         (snd (log Service "Starting scheduled backup..." LInfo w)))
  = Throw "Request failed: connect ECONNREFUSED 127.0.0.1:8010" /\
  List.filter is_failure (notified w')
  = [note "VIP Download Failed"
          "❌ Request failed: connect ECONNREFUSED 127.0.0.1:8010" 0xFF0000;
     note "Backup Failed"
          ("❌ Scheduled backup failed: "
           ++ "Request failed: connect ECONNREFUSED 127.0.0.1:8010")
          0xFF0000] /\
  count_where is_failure (notified w') <> 1.
Proof. vm_compute. repeat split; try reflexivity. discriminate. Qed.

(** Against C5 as stated: a health check that finds an expired record and
    one expiring within a week sends two alert notifications, the analyzer's
    and the operation's. *)
Lemma health_check_alerts_twice :
  let w := sample_world (remote_serving sample_vips) None in
  let w' := snd (performHealthCheck sample_Date_parse sample_toISOString w) in
  map n_title (notified w') = ["VIP Status Alert"; "VIP Alert"] /\
  count_where is_alert (notified w') <> 1.
Proof. vm_compute. split; [reflexivity | discriminate]. Qed.

Lemma scheduler_two_states_witness :
  let w := sample_world remote_unreachable None in
  let pair := [backup_trigger sample_config; health_trigger sample_config] in
  sample_cron_validate (backupSchedule (config w)) = true /\
  sample_cron_validate (alertSchedule (config w)) = true /\
  activeTriggers
    (snd (start sample_cron_validate
                (snd (start sample_cron_validate (set_isRunning false w)))))
  = pair /\
  activeTriggers
    (snd (start sample_cron_validate (snd (stop (set_isRunning true w)))))
  = pair.
Proof.
  cbv zeta. split; [reflexivity|]. split; [reflexivity|].
  pose proof (scheduler_two_states
                sample_cron_validate
                (sample_world remote_unreachable None) eq_refl eq_refl)
    as (_ & _ & (_ & _ & _ & _ & _ & Twice) & (_ & _ & _ & _ & _ & Resumed)).
  split; [exact Twice | exact Resumed].
Defined.

Lemma export_round_trip_witness :
  lacks "010"%char (sample_toISOString sample_now) = true /\
  forallb delimiter_free sample_vips = true /\
  parseVipFile (formatVipList sample_toISOString sample_now sample_vips)
  = [("76561198000000001", true); ("1100000100000001", false);
     ("990000000", false)].
Proof.
  split; [reflexivity|]. split; [reflexivity|].
  exact (export_round_trip sample_toISOString sample_now sample_vips
                           eq_refl eq_refl).
Defined.


(** * Further properties *)

(** ** Requests and notifications *)

Lemma posts_app (t1 t2 : list Event) :
  posts (t1 ++ t2) = (posts t1 ++ posts t2)%list.
Proof.
  induction t1 as [|e t1 IH]; [reflexivity|].
  destruct e; simpl; rewrite IH; reflexivity.
Qed.

(** The world a request leaves, whatever the answer. *)
Lemma makeRequest_world (endpoint : Endpoint) (w : World) :
  truthy (apiToken (config w)) = true ->
  snd (makeRequest endpoint w)
  = set_trace
      (push (push (trace w)
                  (Logged Manager LInfo
                          ("Making GET request to " ++ endpoint_path endpoint)))
            (Requested (baseUrl (config w) ++ endpoint_path endpoint)))
      (set_httpCalls (S (httpCalls w)) w).
Proof.
  intros T. unfold makeRequest. rewrite T. cbn [negb snd log emit].
  repeat match goal with
         | |- context [match ?x with _ => _ end] => destruct x
         end; reflexivity.
Qed.

(** X1. [makeRequest] without an API token throws before doing anything: no
    log line, no request.  With a token it makes exactly one request, to the
    base URL followed by the endpoint, whatever the answer; in both cases it
    sends no notification and leaves the backup directory, the configuration
    and the scheduler alone. *)
Theorem makeRequest_requests_once (endpoint : Endpoint) (w : World) :
  let w' := snd (makeRequest endpoint w) in
  backups w' = backups w /\ notified w' = notified w /\ same_setting w w' /\
  if truthy (apiToken (config w))
  then httpCalls w' = S (httpCalls w) /\
       requested w'
       = push (requested w) (baseUrl (config w) ++ endpoint_path endpoint)
  else w' = w /\
       fst (makeRequest endpoint w)
       = Throw "CRCON_API_TOKEN is required for bot authentication".
Proof.
  cbv zeta. destruct (truthy (apiToken (config w))) eqn:T.
  - rewrite (makeRequest_world endpoint w T).
    unfold notified, requested, push.
    cbn [backups trace httpCalls set_trace set_httpCalls].
    rewrite !notifications_app, !requests_app. cbn.
    rewrite !app_nil_r. repeat split.
  - unfold makeRequest. rewrite T. cbn. repeat split.
Qed.

(** X2. [makeRequest] resolves to a value exactly when there is a token and
    the remote answers with a body that is that value itself or an envelope
    holding it as [result] and not flagged [failed]. *)
Theorem makeRequest_resolves_iff (endpoint : Endpoint) (w : World)
    (v : JsValue) :
  fst (makeRequest endpoint w) = Ok v <->
  truthy (apiToken (config w)) = true /\
  (remote (env w) (httpCalls w) endpoint = Responded (Bare v) \/
   exists error,
     remote (env w) (httpCalls w) endpoint
     = Responded (Enveloped v false error)).
Proof.
  unfold makeRequest. cbn [snd log emit env httpCalls set_trace].
  destruct (truthy (apiToken (config w))); cbn [negb].
  2:{ cbn. split; [discriminate | intros [? _]; discriminate]. }
  destruct (remote (env w) (httpCalls w) endpoint)
    as [[result failed error|value]|status data_error message].
  - destruct failed; cbn [fst]; split.
    + discriminate.
    + intros [_ [?|[? ?]]]; discriminate.
    + intros [= ->]. eauto.
    + intros [_ [?|[? [= -> _]]]]; [discriminate | reflexivity].
  - cbn [fst]. split.
    + intros [= ->]. auto.
    + intros [_ [[= ->]|[? ?]]]; [reflexivity | discriminate].
  - split.
    + repeat match goal with
             | |- context [if ?c then _ else _] => destruct c
             end; discriminate.
    + intros [_ [?|[? ?]]]; discriminate.
Qed.

(** X3. Every failure of [makeRequest] with a token falls under one of five
    messages: a body flagged [failed] gives its error, or a stock text,
    behind ["Request failed: "], since it is thrown inside the method's own
    [try]; a rejection gives the authentication text on status 401, the
    permission text on status 403, both before any error of the body, then
    the body's error behind ["CRCON error: "], then the transport message
    behind ["Request failed: "]. *)
Theorem makeRequest_error_mapping (endpoint : Endpoint) (w : World)
    (thrown : string) :
  truthy (apiToken (config w)) = true ->
  fst (makeRequest endpoint w) = Throw thrown ->
  match remote (env w) (httpCalls w) endpoint with
  | Responded (Enveloped _ failed error) =>
    failed = true /\
    thrown = "Request failed: " ++ or_else error "CRCON request failed"
  | Responded (Bare _) => False
  | Rejected status data_error message =>
    if status_is status 401
    then thrown
         = "API token authentication failed - check your CRCON_API_TOKEN"
    else if status_is status 403
    then thrown = "API token does not have required permissions"
    else match data_error with
         | Some e =>
           if String.eqb e EmptyString
           then thrown = "Request failed: " ++ message
           else thrown = "CRCON error: " ++ e
         | None => thrown = "Request failed: " ++ message
         end
  end.
Proof.
  intros T. unfold makeRequest. rewrite T.
  cbn [negb snd log emit env httpCalls set_trace].
  destruct (remote (env w) (httpCalls w) endpoint)
    as [[result failed error|value]|status data_error message].
  - destruct failed; cbn [fst]; [intros [= <-]; auto | discriminate].
  - discriminate.
  - destruct (status_is status 401); [intros [= <-]; reflexivity|].
    destruct (status_is status 403); [intros [= <-]; reflexivity|].
    destruct data_error as [e|]; cbn [truthy or_else].
    + destruct (String.eqb e EmptyString); cbn [negb fst];
        intros [= <-]; reflexivity.
    + cbn [fst]. intros [= <-]. reflexivity.
Qed.

(** X4. [sendDiscordNotification] never throws, whatever the webhook
    answers.  Without a webhook URL it makes no HTTP call; with one it posts
    the notification once.  It leaves the backup directory, the requests to
    the remote API, the configuration and the scheduler alone. *)
Theorem sendDiscordNotification_never_throws (title description : string)
    (color : Z) (w : World) :
  let n := note title description color in
  let w' := snd (sendDiscordNotification title description color w) in
  fst (sendDiscordNotification title description color w) = Ok tt /\
  notified w' = push (notified w) n /\
  backups w' = backups w /\ requested w' = requested w /\
  same_setting w w' /\
  if truthy (webhookUrl (config w))
  then httpCalls w' = S (httpCalls w) /\
       posted w'
       = push (posted w) (or_else (webhookUrl (config w)) EmptyString, n)
  else httpCalls w' = httpCalls w /\ posted w' = posted w.
Proof.
  cbv zeta. unfold sendDiscordNotification, bind, log, emit, note.
  cbn [snd].
  destruct (truthy (webhookUrl (config w))) eqn:T;
    cbn [config set_trace negb]; rewrite T; cbn [negb];
    [destruct (webhook _ _)|];
    cbn [fst snd]; unfold notified, requested, posted, push;
    cbn [trace backups httpCalls set_trace set_httpCalls config];
    rewrite ?notifications_app, ?requests_app, ?posts_app; cbn;
    rewrite ?app_nil_r, <- ?app_assoc; repeat split.
Qed.

(** X5. [testConnection] never throws and sends no notification.  It reports
    a connection exactly when the status request resolves to a truthy value,
    with the server name and player counts of the status (or their
    defaults); a falsy status is reported as ["No status data received"], a
    failed request by its message. *)
Theorem testConnection_never_throws (w : World) :
  let w' := snd (testConnection w) in
  fst (testConnection w)
  = Ok match fst (makeRequest get_status w) with
       | Ok status =>
         if js_truthy status
         then Connected (status_fields status).1.1 (status_fields status).1.2
                        (status_fields status).2
         else Disconnected "No status data received"
       | Throw message => Disconnected message
       end /\
  notified w' = notified w /\ backups w' = backups w /\ same_setting w w'.
Proof.
  cbv zeta.
  destruct (log Manager "Testing CRCON connection..." LInfo w)
    as [r0 w0] eqn:L0.
  pose proof L0 as F0. apply log_facts in F0 as (-> & B0 & H0 & F0).
  destruct (makeRequest get_status w0) as [r1 w1] eqn:R1.
  assert (E1 : fst (makeRequest get_status w) = r1).
  { change r1 with (fst (r1, w1)). rewrite <- R1. symmetry.
    apply makeRequest_outcome; [apply F0 | apply F0 | exact H0]. }
  rewrite E1.
  pose proof R1 as F1. apply makeRequest_facts in F1 as (B1 & urls & F1).
  pose proof (step_facts_trans _ _ _ _ _ _ _ F0 F1) as F01. cbn in F01.
  assert (Done : forall (t : ConnectionTest) (w2 : World),
             testConnection w = (Ok t, w2) ->
             backups w2 = backups w1 -> step_facts w1 w2 [] [] ->
             fst (testConnection w) = Ok t /\
             notified (snd (testConnection w)) = notified w /\
             backups (snd (testConnection w)) = backups w /\
             same_setting w (snd (testConnection w))).
  { intros t w2 R B F. rewrite R. cbn [fst snd].
    pose proof (step_facts_trans _ _ _ _ _ _ _ F01 F) as [S N _].
    rewrite app_nil_r in N. split; [reflexivity|].
    split; [exact N|]. split; [congruence | exact S]. }
  unfold testConnection at 1 in Done.
  unfold try_catch in Done. rewrite (bind_ok _ _ _ _ _ L0) in Done.
  unfold bind at 1 in Done. rewrite R1 in Done.
  destruct r1 as [status|message].
  - destruct (js_truthy status) eqn:T.
    + destruct (status_fields status) as [[serverName playerCount] maxPlayers].
      unfold bind, log, emit, ret in Done. cbn in Done.
      eapply Done; [reflexivity | reflexivity |].
      split; [repeat split | |]; unfold notified, requested, push; cbn;
        rewrite ?notifications_app, ?requests_app; cbn;
        rewrite ?app_nil_r; reflexivity.
    + unfold throw, bind, log, emit, ret in Done. cbn in Done.
      eapply Done; [reflexivity | reflexivity |].
      split; [repeat split | |]; unfold notified, requested, push; cbn;
        rewrite ?notifications_app, ?requests_app; cbn;
        rewrite ?app_nil_r; reflexivity.
  - unfold throw, bind, log, emit, ret in Done. cbn in Done.
    eapply Done; [reflexivity | reflexivity |].
    split; [repeat split | |]; unfold notified, requested, push; cbn;
      rewrite ?notifications_app, ?requests_app; cbn;
      rewrite ?app_nil_r; reflexivity.
Qed.

(** ** What the manager's methods do to the backup directory *)

Lemma fs_mkdir_files (w w' : World) (r : Outcome unit) :
  fs_mkdir w = (r, w') ->
  files_of w' = files_of w /\
  (r = Ok tt -> backups w' = Some (files_of w)).
Proof.
  unfold fs_mkdir, files_of.
  destruct (backups w) as [files|] eqn:B; [|destruct (mkdir_error (env w))];
    intros [= <- <-]; cbn; rewrite ?B; cbn; split; try reflexivity;
    discriminate.
Qed.

Lemma fs_writeFile_files (file data : string) (w w' : World)
    (r : Outcome unit) :
  fs_writeFile file data w = (r, w') ->
  (exists message, r = Throw message /\ backups w' = backups w) \/
  (r = Ok tt /\
   backups w' = Some (<[file := written (clock (env w)) data]> (files_of w))).
Proof.
  unfold fs_writeFile, files_of, written.
  destruct (backups w) as [files|] eqn:B;
    [destruct (writeFile_error (env w) file)|];
    intros [= <- <-]; cbn; eauto.
Qed.

Lemma fs_writeFile_chunks_files (file : string) (chunks : list VipRecord)
    (w w' : World) (r : Outcome unit) :
  fs_writeFile_chunks file chunks w = (r, w') ->
  (exists message, r = Throw message /\ backups w' = backups w) \/
  (exists message,
     r = Throw message /\
     backups w'
     = Some (<[file := written (clock (env w)) EmptyString]> (files_of w))) \/
  (r = Ok tt /\ chunks = [] /\
   backups w'
   = Some (<[file := written (clock (env w)) EmptyString]> (files_of w))).
Proof.
  unfold fs_writeFile_chunks, files_of, written.
  destruct (backups w) as [files|] eqn:B;
    [destruct (writeFile_error (env w) file); [|destruct chunks]|];
    intros [= <- <-]; cbn; eauto 10.
Qed.

(** Inversion of a run that keeps what every step did to the directory. *)
Ltac inv_files :=
  repeat
    (cbv beta in *;
     match goal with
     | H : bind _ _ _ = (_, _) |- _ =>
       apply bind_inv in H;
       destruct H as [(? & ? & ? & H) | (? & H & ?)]
     | H : try_catch _ _ _ = (_, _) |- _ =>
       apply try_catch_inv in H;
       destruct H as [(? & H & ?) | (? & ? & ? & H)]
     | H : ret _ _ = (_, _) |- _ => unfold ret in H; simplify_eq
     | H : throw _ _ = (_, _) |- _ => unfold throw in H; simplify_eq
     | H : log _ _ _ _ = (_, _) |- _ =>
       apply log_facts in H; destruct H as (? & ? & _ & H)
     | H : makeRequest _ _ = (_, _) |- _ =>
       apply makeRequest_facts in H; destruct H as (? & ? & H)
     | H : sendDiscordNotification _ _ _ _ = (_, _) |- _ =>
       apply sendDiscordNotification_facts in H; destruct H as (? & ? & H)
     | H : fs_mkdir _ = (_, _) |- _ =>
       let H' := fresh in
       pose proof H as H'; apply fs_mkdir_files in H';
       destruct H' as (? & ?);
       apply fs_mkdir_facts in H; destruct H as (_ & H)
     | H : fs_writeFile _ _ _ = (_, _) |- _ =>
       let H' := fresh in
       pose proof H as H'; apply fs_writeFile_files in H';
       destruct H' as [(? & ? & ?) | (? & ?)];
       apply fs_writeFile_facts in H; destruct H as (_ & H)
     | H : fs_writeFile_chunks _ _ _ = (_, _) |- _ =>
       let H' := fresh in
       pose proof H as H'; apply fs_writeFile_chunks_files in H';
       destruct H' as [(? & ? & ?) | [(? & ? & ?) | (? & ? & ?)]];
       apply fs_writeFile_chunks_facts in H; destruct H as (_ & H)
     | H : forEach_M console_log _ _ = (_, _) |- _ =>
       apply forEach_console_log_facts in H; destruct H as (? & ? & H)
     | H : (if ?c then _ else _) _ = (_, _) |- _ => destruct c eqn:?
     | H : match ?v with _ => _ end _ = (_, _) |- _ => destruct v eqn:?
     | H : (let '(_, _) := ?p in _) = (_, _) |- _ => destruct p eqn:?
     | _ => progress simplify_eq
     end).

(** Equalities of directories as equalities of their files. *)
Ltac files_facts :=
  repeat match goal with
         | H : backups ?b = backups ?a |- _ =>
           lazymatch goal with
           | E : files_of b = files_of a |- _ => fail
           | _ => assert (files_of b = files_of a)
                    by (unfold files_of; rewrite H; reflexivity)
           end
         end.

Lemma text_truthy (text : string) :
  negb (js_truthy (JText text)) = false -> text <> EmptyString.
Proof.
  cbn. intros H E. subst text. discriminate H.
Qed.

Section DirectoryFacts.

Variable Date_parse : string -> option Z.
Variable toISOString : Z -> string.

(** What a call of [downloadVipFile] leaves, by its outcome. *)
Lemma downloadVipFile_inv (w : World) :
  let w' := snd (downloadVipFile toISOString w) in
  let now := clock (env w) in
  notified w'
  = push (notified w) (download_note (fst (downloadVipFile toISOString w))) /\
  same_setting w w' /\
  match fst (downloadVipFile toISOString w) with
  | Ok res =>
    filename res = snapshot_name toISOString now /\
    filepath res = "backups/" ++ filename res /\
    exists text,
      dl_size res = js_length text /\
      backups w'
      = Some (<[filename res := written now text]> (files_of w))
  | Throw _ =>
    files_of w' = files_of w \/
    files_of w'
    = <[snapshot_name toISOString now := written now EmptyString]>
        (files_of w)
  end.
Proof.
  cbv zeta.
  destruct (downloadVipFile toISOString w) as [r w'] eqn:R. cbn [fst snd].
  pose proof R as F. apply downloadVipFile_facts in F as [urls [S N _]].
  split; [exact N|]. split; [exact S|]. clear S N.
  unfold downloadVipFile in R. inv_files; env_facts; files_facts.
  all: try (left; congruence).
  all: match goal with
       | B : backups ?v = Some (<[_ := written (clock (env ?u)) ?t]> _)
         |- _ /\ _ =>
         replace (env u) with (env w) in * by congruence;
         cbn [filename filepath dl_size];
         split; [reflexivity|]; split; [reflexivity|];
         exists t; split; [reflexivity|];
         transitivity (backups v); [congruence|];
         rewrite B; do 2 f_equal; congruence
       | B : backups ?v = Some (<[_ := written (clock (env ?u)) ?t]> _)
         |- _ \/ _ =>
         replace (env u) with (env w) in * by congruence;
         right; unfold files_of at 1;
         replace (backups w') with (backups v) by congruence;
         rewrite B; cbn; f_equal; congruence
       end.
Qed.

(** What a call of [analyzeVips] leaves, by its outcome. *)
Lemma analyzeVips_inv (w : World) :
  let w' := snd (analyzeVips Date_parse toISOString w) in
  let now := clock (env w) in
  notified w'
  = (notified w
     ++ analysis_notes (fst (analyzeVips Date_parse toISOString w)))%list /\
  same_setting w w' /\
  match fst (analyzeVips Date_parse toISOString w) with
  | Ok a =>
    exists vipList,
      a = fst (analyzeVips_classify Date_parse now vipList) /\
      backups w'
      = Some (<[report_name toISOString now
                := written now
                     (analysis_report
                        (toISOString now) a
                        (snd (analyzeVips_classify Date_parse now vipList)))]>
                (files_of w))
  | Throw _ => files_of w' = files_of w /\ notified w' = notified w
  end.
Proof.
  cbv zeta.
  destruct (analyzeVips Date_parse toISOString w) as [r w'] eqn:R.
  cbn [fst snd].
  pose proof R as F. apply analyzeVips_facts in F as [[urls [S N _]] _].
  split; [exact N|]. split; [exact S|]. clear S.
  unfold analyzeVips in R. inv_files; env_facts; files_facts.
  all: try (split; [congruence | rewrite N; apply app_nil_r]).
  all: match goal with
       | C : analyzeVips_classify _ (clock (env ?u)) ?l = (_, _),
         B : backups ?v = Some (<[_ := written (clock (env ?u')) _]> _)
         |- _ =>
         replace (env u) with (env w) in * by congruence;
         replace (env u') with (env w) in * by congruence;
         exists l; rewrite C; cbn [fst snd]; split; [reflexivity|];
         transitivity (backups v); [congruence|];
         rewrite B; unfold report_name; do 2 f_equal; congruence
       end.
Qed.



Lemma makeRequest_Ok_token (endpoint : Endpoint) (w : World) (v : JsValue) :
  fst (makeRequest endpoint w) = Ok v -> truthy (apiToken (config w)) = true.
Proof.
  unfold makeRequest. destruct (truthy (apiToken (config w)));
    [reflexivity | discriminate].
Qed.

Lemma formatVipList_forEach_fold (l : list VipRecord) :
  forall formatted,
    exists body, fold_left formatVipList_forEach l formatted = formatted ++ body.
Proof.
  induction l as [|v l IH]; intros formatted.
  - exists EmptyString. cbn [fold_left]. rewrite append_nil_r. reflexivity.
  - cbn [fold_left]. destruct (IH (formatVipList_forEach formatted v)) as [b E].
    rewrite E, formatVipList_forEach_line, append_assoc. eauto.
Qed.

Lemma formatVipList_truthy (now : Z) (l : list VipRecord) :
  js_truthy (JText (formatVipList toISOString now l)) = true.
Proof.
  unfold formatVipList. cbv zeta.
  match goal with
  | |- context [fold_left formatVipList_forEach l ?header] =>
    destruct (formatVipList_forEach_fold l header) as [body ->]
  end.
  rewrite !append_assoc, !append_cons. reflexivity.
Qed.

(** The tail of [downloadVipFile] once [vipData] is a truthy text: the
    directory is made, the file written, the confirmation sent. *)
Lemma downloadVipFile_save (text : string) (w : World) :
  (backups w = None -> mkdir_error (env w) = None) ->
  writeFile_error (env w) (snapshot_name toISOString (clock (env w))) = None ->
  exists w',
    (let* _ := fs_mkdir in
     fun w =>
       let timestamp := replace_colon_dot (toISOString (clock (env w))) in
       let filename := "vip_file_" ++ timestamp ++ ".txt" in
       let filepath := path_join_backupDir filename in
       (let* length :=
          match JText text with
          | JText text =>
            let* _ := fs_writeFile filename text in ret (js_length text)
          | JVips chunks =>
            let* _ := fs_writeFile_chunks filename chunks in
            ret (List.length chunks)
          | _ => throw (invalid_data_error (env w))
          end in
        let* _ := log Manager ("VIP file saved: " ++ filename) LSuccess in
        let* _ := log Manager ("File path: " ++ filepath) LInfo in
        let* _ := log Manager ("File size: " ++ show length
                               ++ " bytes") LInfo in
        let* _ := sendDiscordNotification
                    "VIP File Downloaded"
                    ("✅ VIP file backed up successfully" ++ LF
                     ++ "📁 **File:** " ++ filename ++ LF
                     ++ "📊 **Size:** " ++ show length
                     ++ " bytes")
                    0x00FF00 in
        ret {| filepath := filepath; filename := filename;
               dl_size := length |}) w) w
    = (Ok {| filepath := path_join_backupDir
                           (snapshot_name toISOString (clock (env w)));
             filename := snapshot_name toISOString (clock (env w));
             dl_size := js_length text |}, w') /\
    backups w'
    = Some (<[snapshot_name toISOString (clock (env w))
              := written (clock (env w)) text]> (files_of w)) /\
    requested w' = requested w.
Proof.
  intros Mk Wr.
  destruct (fs_mkdir_ok w Mk) as (w1 & M1 & B1 & F1).
  assert (E1 : env w1 = env w) by apply F1.
  destruct (fs_writeFile_ok (snapshot_name toISOString (clock (env w))) text
                            w1 _ B1) as (w2 & W2 & B2 & F2).
  { rewrite E1. exact Wr. }
  rewrite E1 in B2.
  match goal with
  | |- exists w', bind _ ?k _ = _ /\ _ =>
    destruct (k tt w1) as [r w'] eqn:R
  end.
  exists w'. rewrite (bind_ok _ _ _ _ _ M1), R.
  cbv beta zeta in R. rewrite E1 in R.
  fold (snapshot_name toISOString (clock (env w))) in R.
  rewrite (bind_ok _ _ _ w2 (js_length text)) in R
    by (rewrite (bind_ok _ _ _ _ _ W2); reflexivity).
  inv_files; files_facts; chain_facts.
  split; [reflexivity|]. split.
  - transitivity (backups w2); [congruence | exact B2].
  - match goal with
    | H : step_facts w w' _ _ |- _ => destruct H as [_ _ U]
    end.
    cbn in U. rewrite U. apply app_nil_r.
Qed.

(** What a request leaves, in the terms the proofs below need. *)
Lemma makeRequest_run (endpoint : Endpoint) (w : World) :
  truthy (apiToken (config w)) = true ->
  exists w',
    makeRequest endpoint w = (fst (makeRequest endpoint w), w') /\
    httpCalls w' = S (httpCalls w) /\ backups w' = backups w /\
    step_facts w w' [] [baseUrl (config w) ++ endpoint_path endpoint].
Proof.
  intros T. exists (snd (makeRequest endpoint w)).
  split; [apply surjective_pairing|].
  rewrite (makeRequest_world endpoint w T).
  split; [reflexivity|]. split; [reflexivity|].
  split; [repeat split | |]; unfold notified, requested, push;
    cbn [trace set_trace set_httpCalls];
    rewrite ?notifications_app, ?requests_app; cbn;
    rewrite ?app_nil_r; reflexivity.
Qed.

(** X8. When the export endpoint fails and the list endpoint answers with an
    array, [downloadVipFile] saves the rendering of that array by
    [formatVipList], under the name of the snapshot, after exactly these two
    requests, and reports its length as the size. *)
Theorem downloadVipFile_falls_back (w : World) (vipList : list VipRecord)
    (message : string) :
  let now := clock (env w) in
  let text := formatVipList toISOString now vipList in
  fst (makeRequest download_vips w) = Throw message ->
  fst (makeRequest get_vip_ids (set_httpCalls (S (httpCalls w)) w))
  = Ok (JVips vipList) ->
  (backups w = None -> mkdir_error (env w) = None) ->
  writeFile_error (env w) (snapshot_name toISOString now) = None ->
  exists w',
    downloadVipFile toISOString w
    = (Ok {| filepath := path_join_backupDir (snapshot_name toISOString now);
             filename := snapshot_name toISOString now;
             dl_size := js_length text |}, w') /\
    backups w'
    = Some (<[snapshot_name toISOString now := written now text]>
              (files_of w)) /\
    requested w'
    = push (push (requested w) (baseUrl (config w) ++ "/api/download_vips"))
           (baseUrl (config w) ++ "/api/get_vip_ids").
Proof.
  cbv zeta. intros Dl Ids Mk Wr.
  assert (T : truthy (apiToken (config w)) = true)
    by exact (makeRequest_Ok_token _ _ _ Ids).
  destruct (log Manager "Downloading VIP file from CRCON..." LInfo w)
    as [r0 w0] eqn:L0.
  pose proof L0 as F0. apply log_facts in F0 as (-> & B0 & H0 & F0).
  assert (C0 : config w0 = config w) by apply F0.
  assert (E0 : env w0 = env w) by apply F0.
  destruct (makeRequest_run download_vips w0) as (w1 & R1 & H1 & B1 & F1).
  { rewrite C0. exact T. }
  rewrite (makeRequest_outcome download_vips w w0 C0 E0 H0), Dl in R1.
  destruct (log Manager "Download endpoint failed, trying VIP list endpoint..."
                LWarning w1) as [r2 w2] eqn:L2.
  pose proof L2 as F2. apply log_facts in F2 as (-> & B2 & H2 & F2).
  pose proof (step_facts_trans _ _ _ _ _ _ _ F0
                (step_facts_trans _ _ _ _ _ _ _ F1 F2)) as F02.
  assert (C2 : config w2 = config w) by apply F02.
  assert (E2 : env w2 = env w) by apply F02.
  destruct (makeRequest_run get_vip_ids w2) as (w3 & R3 & H3 & B3 & F3).
  { rewrite C2. exact T. }
  rewrite (makeRequest_outcome get_vip_ids
             (set_httpCalls (S (httpCalls w)) w) w2 C2 E2
             ltac:(cbn; congruence)), Ids in R3.
  destruct (log Manager "VIP list retrieved and formatted" LSuccess w3)
    as [r4 w4] eqn:L4.
  pose proof L4 as F4. apply log_facts in F4 as (-> & B4 & H4 & F4).
  pose proof (step_facts_trans _ _ _ _ _ _ _ F02
                (step_facts_trans _ _ _ _ _ _ _ F3 F4)) as F04.
  assert (E4 : env w4 = env w) by apply F04.
  assert (E3 : env w3 = env w).
  { destruct F02 as [(_ & A & _) _ _], F3 as [(_ & A' & _) _ _]. congruence. }
  assert (B04 : backups w4 = backups w) by congruence.
  destruct (downloadVipFile_save
              (formatVipList toISOString (clock (env w)) vipList) w4)
    as (w' & S & B & U).
  { rewrite B04, E4. exact Mk. }
  { rewrite E4. exact Wr. }
  rewrite E4 in S, B.
  exists w'. split.
  { unfold downloadVipFile. erewrite try_catch_ok; [reflexivity|].
    rewrite (bind_ok _ _ _ _ _ L0).
    rewrite (bind_ok _ _ w0 w4
               (JText (formatVipList toISOString (clock (env w)) vipList))).
    - rewrite formatVipList_truthy. cbn [negb]. exact S.
    - erewrite try_catch_throw
        by (rewrite (bind_throw _ _ _ _ _ R1); reflexivity).
      rewrite (bind_ok _ _ _ _ _ L2), (bind_ok _ _ _ _ _ R3).
      cbv beta. rewrite (bind_ok _ _ _ _ _ L4), E3. reflexivity. }
  split.
  { rewrite B. unfold files_of. rewrite B04. reflexivity. }
  rewrite U. destruct F04 as [_ _ ->].
  rewrite C0, C2. unfold push. cbn. rewrite <- !app_assoc. reflexivity.
Qed.

(** X9. The fallback is for a failing export endpoint only: when it
    resolves to a falsy value, such as the empty text, [downloadVipFile]
    throws ["No VIP file data received"] after this one request, without
    asking for the list and without touching the directory. *)
Theorem downloadVipFile_empty_export (w : World) (v : JsValue) :
  fst (makeRequest download_vips w) = Ok v -> js_truthy v = false ->
  let w' := snd (downloadVipFile toISOString w) in
  fst (downloadVipFile toISOString w) = Throw "No VIP file data received" /\
  requested w'
  = push (requested w) (baseUrl (config w) ++ "/api/download_vips") /\
  backups w' = backups w /\
  notified w'
  = push (notified w)
         (note "VIP Download Failed" "❌ No VIP file data received" 0xFF0000).
Proof.
  intros Dl Fa. cbv zeta.
  assert (T : truthy (apiToken (config w)) = true)
    by exact (makeRequest_Ok_token _ _ _ Dl).
  destruct (log Manager "Downloading VIP file from CRCON..." LInfo w)
    as [r0 w0] eqn:L0.
  pose proof L0 as F0. apply log_facts in F0 as (-> & B0 & H0 & F0).
  assert (C0 : config w0 = config w) by apply F0.
  assert (E0 : env w0 = env w) by apply F0.
  destruct (makeRequest_run download_vips w0) as (w1 & R1 & H1 & B1 & F1).
  { rewrite C0. exact T. }
  rewrite (makeRequest_outcome download_vips w w0 C0 E0 H0), Dl in R1.
  destruct (log Manager "VIP file downloaded via download_vips endpoint"
                LSuccess w1) as [r2 w2] eqn:L2.
  pose proof L2 as F2. apply log_facts in F2 as (-> & B2 & _ & F2).
  destruct (log Manager ("Download failed: " ++ "No VIP file data received")
                LError w2) as [r3 w3] eqn:L3.
  pose proof L3 as F3. apply log_facts in F3 as (-> & B3 & _ & F3).
  destruct (sendDiscordNotification
              "VIP Download Failed" ("❌ " ++ "No VIP file data received")
              0xFF0000 w3) as [r4 w4] eqn:S4.
  pose proof S4 as F4.
  apply sendDiscordNotification_facts in F4 as (-> & B4 & F4).
  assert (R : downloadVipFile toISOString w
              = (Throw "No VIP file data received", w4)).
  { unfold downloadVipFile. erewrite try_catch_throw.
    - rewrite (bind_ok _ _ _ _ _ L3), (bind_ok _ _ _ _ _ S4). reflexivity.
    - rewrite (bind_ok _ _ _ _ _ L0).
      rewrite (bind_ok _ _ w0 w2 v).
      + rewrite Fa. reflexivity.
      + erewrite try_catch_ok; [reflexivity|].
        rewrite (bind_ok _ _ _ _ _ R1), (bind_ok _ _ _ _ _ L2).
        reflexivity. }
  rewrite R. cbn [fst snd]. split; [reflexivity|].
  pose proof (step_facts_trans _ _ _ _ _ _ _ F0
                (step_facts_trans _ _ _ _ _ _ _ F1
                   (step_facts_trans _ _ _ _ _ _ _ F2
                      (step_facts_trans _ _ _ _ _ _ _ F3 F4)))) as [_ N U].
  rewrite C0 in U. cbn in N, U. unfold push.
  split; [exact U|]. split; [congruence | exact N].
Qed.

(** X30. An export that comes as an array is not refused for what it is.
    The empty array is written as an empty file and reported as saved,
    with size 0, in the confirmation; an array of records is refused at its
    first record, after the file has been opened, so that an empty file is
    left under the snapshot's name while the failure is notified and
    rethrown. *)
Theorem downloadVipFile_array_export (w : World) (chunks : list VipRecord) :
  let now := clock (env w) in
  let name := snapshot_name toISOString now in
  let outcome :=
    match chunks with
    | [] => Ok {| filepath := path_join_backupDir name; filename := name;
                  dl_size := 0 |}
    | _ :: _ => Throw (invalid_chunk_error (env w))
    end in
  fst (makeRequest download_vips w) = Ok (JVips chunks) ->
  (backups w = None -> mkdir_error (env w) = None) ->
  writeFile_error (env w) name = None ->
  exists w',
    downloadVipFile toISOString w = (outcome, w') /\
    backups w' = Some (<[name := written now EmptyString]> (files_of w)) /\
    notified w' = push (notified w) (download_note outcome).
Proof.
  cbv zeta. intros Dl Mk Wr.
  assert (T : truthy (apiToken (config w)) = true)
    by exact (makeRequest_Ok_token _ _ _ Dl).
  destruct (log Manager "Downloading VIP file from CRCON..." LInfo w)
    as [r0 w0] eqn:L0.
  pose proof L0 as F0. apply log_facts in F0 as (-> & B0 & H0 & F0).
  assert (C0 : config w0 = config w) by apply F0.
  assert (E0 : env w0 = env w) by apply F0.
  destruct (makeRequest_run download_vips w0) as (w1 & R1 & H1 & B1 & F1).
  { rewrite C0. exact T. }
  rewrite (makeRequest_outcome download_vips w w0 C0 E0 H0), Dl in R1.
  destruct (log Manager "VIP file downloaded via download_vips endpoint"
                LSuccess w1) as [r2 w2] eqn:L2.
  pose proof L2 as F2. apply log_facts in F2 as (-> & B2 & _ & F2).
  pose proof (step_facts_trans _ _ _ _ _ _ _ F0
                (step_facts_trans _ _ _ _ _ _ _ F1 F2)) as F02.
  assert (E2 : env w2 = env w) by apply F02.
  assert (B02 : backups w2 = backups w) by congruence.
  destruct (fs_mkdir_ok w2) as (w3 & M3 & B3 & F3).
  { rewrite B02, E2. exact Mk. }
  assert (E3 : env w3 = env w).
  { destruct F3 as [(_ & A & _) _ _]. congruence. }
  rewrite B02 in B3. fold (files_of w) in B3.
  set (name := snapshot_name toISOString (clock (env w))) in *.
  set (w4 := set_backups
               (Some (<[name := written (clock (env w)) EmptyString]>
                        (files_of w))) w3).
  assert (W4 : fs_writeFile_chunks name chunks w3
               = (match chunks with
                  | [] => Ok tt
                  | _ :: _ => Throw (invalid_chunk_error (env w))
                  end, w4)).
  { unfold fs_writeFile_chunks. rewrite B3, E3, Wr.
    destruct chunks; reflexivity. }
  destruct (downloadVipFile toISOString w) as [r w'] eqn:R.
  pose proof R as FR. apply downloadVipFile_facts in FR as [urls [_ N _]].
  exists w'.
  assert (Run : r = match chunks with
                    | [] => Ok {| filepath := path_join_backupDir name;
                                  filename := name; dl_size := 0 |}
                    | _ :: _ => Throw (invalid_chunk_error (env w))
                    end /\ backups w' = backups w4).
  { unfold downloadVipFile in R.
    apply try_catch_inv in R.
    rewrite (bind_ok _ _ _ _ _ L0) in R.
    rewrite (bind_ok _ _ w0 w2 (JVips chunks)) in R
      by (erewrite try_catch_ok; [reflexivity|];
          rewrite (bind_ok _ _ _ _ _ R1), (bind_ok _ _ _ _ _ L2);
          reflexivity).
    cbn [js_truthy negb] in R.
    rewrite (bind_ok _ _ _ _ _ M3) in R. cbv beta zeta in R.
    rewrite E3 in R. fold name in R.
    destruct chunks as [|chunk rest].
    - rewrite (bind_ok _ _ w3 w4 0) in R
        by (rewrite (bind_ok _ _ _ _ _ W4); reflexivity).
      destruct R as [(res & R & ->) | (message & v & R & H)];
        inv_files; split; try reflexivity; congruence.
    - rewrite (bind_throw _ _ w3 w4 (invalid_chunk_error (env w))) in R
        by (rewrite (bind_throw _ _ _ _ _ W4); reflexivity).
      destruct R as [(res & R & ->) | (message & v & R & H)];
        [discriminate R|].
      injection R as <- <-.
      inv_files; split; try reflexivity; congruence. }
  destruct Run as [-> Bw]. split; [reflexivity|]. split; [|exact N].
  rewrite Bw. reflexivity.
Qed.

End DirectoryFacts.

(** ** The classification, list by list *)

Lemma analysis_eq (a b : Analysis) :
  total a = total b -> permanent a = permanent b ->
  temporary a = temporary b -> expired a = expired b ->
  expiringSoon a = expiringSoon b -> expiringToday a = expiringToday b ->
  pc (platforms a) = pc (platforms b) ->
  console (platforms a) = console (platforms b) ->
  unknown (platforms a) = unknown (platforms b) ->
  a = b.
Proof.
  destruct a as [? ? ? ? ? ? [? ? ?]], b as [? ? ? ? ? ? [? ? ?]]. cbn.
  intros; subst; reflexivity.
Qed.

Section ClassifyFacts.

Variable Date_parse : string -> option Z.
Variable now : Z.

Local Abbreviation step := (analyzeVips_forEach Date_parse now).

(** A round of the [forEach] started from a sum adds to the second
    summand. *)
Lemma analyzeVips_forEach_shift (a b : Analysis) (al bl : list string)
    (v : VipRecord) :
  step (plus_analysis a b, (al ++ bl)%list) v
  = (plus_analysis a (fst (step (b, bl) v)),
     (al ++ snd (step (b, bl) v))%list).
Proof.
  unfold analyzeVips_forEach, push.
  destruct (startsWith (player_id v) "76561198");
    destruct (startsWith (player_id v) "11000"
              || startsWith (player_id v) "76561199");
    destruct (expiration v) as [e|];
    try destruct (String.eqb e EmptyString || String.eqb e "None");
    try destruct (Date_parse e) as [t|];
    repeat match goal with
           | |- context [if ?c then _ else _] => destruct c
           end;
    cbn [fst snd]; rewrite ?app_assoc;
    f_equal; try reflexivity; apply analysis_eq; cbn; lia.
Qed.

Lemma analyzeVips_fold_shift (l : list VipRecord) :
  forall (a b : Analysis) (al bl : list string),
    fold_left step l (plus_analysis a b, (al ++ bl)%list)
    = (plus_analysis a (fst (fold_left step l (b, bl))),
       (al ++ snd (fold_left step l (b, bl)))%list).
Proof.
  induction l as [|v l IH]; intros a b al bl; [reflexivity|].
  cbn [fold_left]. rewrite analyzeVips_forEach_shift.
  destruct (step (b, bl) v) as [b' bl']. cbn [fst snd]. apply IH.
Qed.

(** X10. The classification of two lists one after the other is the sum of
    their classifications, counter by counter, and its alerts are the alerts
    of the first followed by those of the second: alerts come in the order
    of the records. *)
Theorem analyzeVips_classify_app (l1 l2 : list VipRecord) :
  analyzeVips_classify Date_parse now (l1 ++ l2)
  = (plus_analysis (fst (analyzeVips_classify Date_parse now l1))
                   (fst (analyzeVips_classify Date_parse now l2)),
     (snd (analyzeVips_classify Date_parse now l1)
      ++ snd (analyzeVips_classify Date_parse now l2))%list).
Proof.
  unfold analyzeVips_classify. rewrite fold_left_app, length_app.
  set (rest := {| total := length l2; permanent := 0; temporary := 0;
                  expired := 0; expiringSoon := 0; expiringToday := 0;
                  platforms := {| pc := 0; console := 0; unknown := 0 |} |}).
  assert (E1 : (initial_analysis (length l1 + length l2), @nil string)
               = (plus_analysis rest (initial_analysis (length l1)),
                  ([] ++ [])%list)).
  { f_equal. apply analysis_eq; cbn; lia. }
  rewrite E1, analyzeVips_fold_shift.
  destruct (fold_left step l1 (initial_analysis (length l1), []))
    as [a1 al1] eqn:F1.
  cbn [fst snd app].
  pose proof (analyzeVips_fold_counts Date_parse now l1
                (initial_analysis (length l1)) []) as C.
  cbv zeta in C. rewrite F1 in C. destruct C as (T & _). cbn in T.
  assert (E2 : (plus_analysis rest a1, al1)
               = (plus_analysis a1 (initial_analysis (length l2)),
                  (al1 ++ [])%list)).
  { rewrite app_nil_r. f_equal. apply analysis_eq; cbn; lia. }
  rewrite E2, analyzeVips_fold_shift. reflexivity.
Qed.

(** X11. Whatever the list, the classification raises exactly one alert line
    for every record it counts as expired, expiring today or expiring
    soon. *)
Theorem analyzeVips_classify_alerts (vipList : list VipRecord) :
  length (snd (analyzeVips_classify Date_parse now vipList))
  = expired (fst (analyzeVips_classify Date_parse now vipList))
    + expiringToday (fst (analyzeVips_classify Date_parse now vipList))
    + expiringSoon (fst (analyzeVips_classify Date_parse now vipList)).
Proof.
  unfold analyzeVips_classify.
  pose proof (analyzeVips_fold_counts Date_parse now vipList
                (initial_analysis (length vipList)) []) as C.
  cbv zeta in C. destruct C as (_ & _ & _ & _ & _ & _ & _ & _ & L).
  rewrite L. unfold alerted. cbn. lia.
Qed.

End ClassifyFacts.

(** ** Retention, names and lines *)

Lemma removed_monotone (second first : option Z) (files : gmap string File) :
  not_later second first -> removed second files ⊆ removed first files.
Proof.
  intros NL. unfold removed. apply map_subseteq_spec. intros name f L.
  apply map_lookup_filter_Some in L as [L O].
  apply map_lookup_filter_Some. split; [exact L|].
  exact (old_not_later _ _ _ NL O).
Qed.

Lemma kept_monotone (second first : option Z) (files : gmap string File) :
  not_later second first -> kept first files ⊆ kept second files.
Proof.
  intros NL. unfold kept. apply map_subseteq_spec. intros name f L.
  apply map_lookup_filter_Some in L as [L N].
  apply map_lookup_filter_Some. split; [exact L|].
  intros O. exact (N (old_not_later _ _ _ NL O)).
Qed.

(** Where the offsets of local time differ by no more than a day, and the
    cutoff of the shorter retention is a date, the cutoff of the longer
    retention is not later. *)
Lemma cutoffDate_monotone (e : Env) (now k1 k2 : Z) :
  (k1 <= k2)%Z ->
  (forall l l', LocalTZA_local e l - LocalTZA_local e l' <= msPerDay)%Z ->
  cutoffDate e now k1 <> None ->
  not_later (cutoffDate e now k2) (cutoffDate e now k1).
Proof.
  intros K O V. unfold cutoffDate, TimeClip in *. cbv zeta in *.
  set (local := (now + LocalTZA_utc e now)%Z) in *.
  destruct (Z.abs (local - k1 * msPerDay
                   - LocalTZA_local e (local - k1 * msPerDay))
            <=? maxTimeValue)%Z; [|contradiction].
  destruct (Z.abs (local - k2 * msPerDay
                   - LocalTZA_local e (local - k2 * msPerDay))
            <=? maxTimeValue)%Z; [|exact I].
  cbn. destruct (Z.eq_dec k1 k2) as [->|Ne]; [lia|].
  specialize (O (local - k1 * msPerDay)%Z (local - k2 * msPerDay)%Z).
  assert (0 < msPerDay)%Z by reflexivity. nia.
Qed.

(** X12. A longer retention deletes no more, where the offsets of local
    time differ by no more than a day and the cutoff of the shorter
    retention is a date: of two sweeps of the same directory that read the
    same instant, the one with the larger [keepDays] returns the smaller or
    equal count, and every file the other leaves it leaves too. *)
Theorem cleanupOldBackups_monotone (k1 k2 : Z) (w : World) :
  (k1 <= k2)%Z ->
  (forall l l',
     LocalTZA_local (env w) l - LocalTZA_local (env w) l' <= msPerDay)%Z ->
  sweep_cutoff k1 w <> None ->
  exists n1 n2,
    fst (cleanupOldBackups k1 w) = Ok n1 /\
    fst (cleanupOldBackups k2 w) = Ok n2 /\ n2 <= n1 /\
    files_of (snd (cleanupOldBackups k1 w))
    ⊆ files_of (snd (cleanupOldBackups k2 w)).
Proof.
  intros K O V.
  pose proof (cutoffDate_monotone (env w) (sweepDate w) k1 k2 K O V) as NL.
  fold (sweep_cutoff k1 w) (sweep_cutoff k2 w) in NL.
  destruct (cleanupOldBackups_spec k1 w) as (w1 & R1 & B1 & _).
  destruct (cleanupOldBackups_spec k2 w) as (w2 & R2 & B2 & _).
  rewrite R1, R2. cbn [fst snd].
  exists (deleted_by_cleanup k1 w), (deleted_by_cleanup k2 w).
  split; [reflexivity|]. split; [reflexivity|].
  unfold files_of. rewrite B1, B2.
  unfold deleted_by_cleanup, backups_after_cleanup.
  destruct (backups w) as [files|]; [|split; [lia | reflexivity]].
  destruct (readdir_fails (env w)); [split; [lia | reflexivity]|].
  split.
  - apply map_subseteq_size, removed_monotone, NL.
  - cbn. apply kept_monotone, NL.
Qed.

Lemma replace_colon_dot_lacks (text : string) :
  lacks ":"%char (replace_colon_dot text) = true /\
  lacks "."%char (replace_colon_dot text) = true.
Proof.
  induction text as [|c text [IH1 IH2]]; [split; reflexivity|].
  cbn [replace_colon_dot lacks]. rewrite IH1, IH2, !andb_true_r.
  destruct (Ascii.eqb c ":") eqn:E1; [split; reflexivity|].
  destruct (Ascii.eqb c ".") eqn:E2; [split; reflexivity|].
  cbn [orb]. rewrite E1, E2. split; reflexivity.
Qed.

(** X13. The time stamp of a file name holds no colon and no period,
    whatever [toISOString] returns, and has the length of the ISO text;
    replacing twice is replacing once; and neither the snapshot's name nor
    the report's holds a colon. *)
Theorem replace_colon_dot_names (toISOString : Z -> string) (now : Z)
    (text : string) :
  lacks ":"%char (replace_colon_dot text) = true /\
  lacks "."%char (replace_colon_dot text) = true /\
  String.length (replace_colon_dot text) = String.length text /\
  replace_colon_dot (replace_colon_dot text) = replace_colon_dot text /\
  lacks ":"%char (snapshot_name toISOString now) = true /\
  lacks ":"%char (report_name toISOString now) = true.
Proof.
  destruct (replace_colon_dot_lacks text) as [C D].
  split; [exact C|]. split; [exact D|]. split.
  { clear C D. induction text as [|c text IH]; [reflexivity|].
    cbn [replace_colon_dot String.length]. rewrite IH. reflexivity. }
  split.
  { clear C D. induction text as [|c text IH]; [reflexivity|].
    cbn [replace_colon_dot]. rewrite IH. f_equal.
    destruct (Ascii.eqb c ":" || Ascii.eqb c ".") eqn:E;
      [reflexivity | rewrite E; reflexivity]. }
  unfold snapshot_name, report_name. rewrite !lacks_app.
  rewrite (proj1 (replace_colon_dot_lacks (toISOString now))).
  split; reflexivity.
Qed.

(** X14. When no field holds a line feed, nor the time stamp, the rendering
    of [formatVipList] is three comment lines (the time stamp, the number of
    records, the format), a blank line, and then exactly one line per
    record, in the order of the list, each ended by a line feed. *)
Theorem formatVipList_lines (toISOString : Z -> string) (now : Z)
    (vipList : list VipRecord) :
  lacks "010"%char (toISOString now) = true ->
  forallb (fun v => lacks "010"%char (record_line v)) vipList = true ->
  lines (formatVipList toISOString now vipList)
  = ("# VIP File Generated " ++ toISOString now)
      :: ("# Total VIPs: " ++ show (length vipList))
      :: "# Format: STEAM_ID_64 # Player_Name (expiration)"
      :: EmptyString
      :: (map record_line vipList ++ [EmptyString])%list.
Proof.
  intros Iso F.
  assert (L : Forall (fun v => lacks "010"%char (record_line v) = true)
                     vipList).
  { clear Iso. induction vipList as [|v l IH]; [constructor|].
    cbn [forallb] in F. apply andb_true_iff in F as [Fv Fl].
    constructor; auto. }
  unfold formatVipList. cbv zeta.
  match goal with
  | |- context [fold_left formatVipList_forEach vipList ?header] =>
    destruct (lines_records vipList header L) as (body & -> & B)
  end.
  rewrite !append_assoc.
  rewrite <- (append_assoc "# VIP File Generated " (toISOString now)).
  rewrite (lines_line ("# VIP File Generated " ++ toISOString now))
    by (rewrite lacks_app, Iso; reflexivity).
  rewrite <- (append_assoc "# Total VIPs: " (show (length vipList))).
  rewrite (lines_line ("# Total VIPs: " ++ show (length vipList)))
    by (rewrite lacks_app, show_lacks_LF; reflexivity).
  rewrite (lines_line "# Format: STEAM_ID_64 # Player_Name (expiration)")
    by reflexivity.
  change (LF ++ body) with (EmptyString ++ LF ++ body).
  rewrite (lines_line EmptyString) by reflexivity.
  rewrite B. reflexivity.
Qed.

(** ** The sweeps a run has begun *)

(** Only [cleanupOldBackups] begins a sweep: the other methods leave the
    count of sweeps, and with it the instant the next sweep reads, alone. *)
Lemma emit_sweeps (e : Event) (w w' : World) (r : Outcome unit) :
  emit e w = (r, w') -> sweeps w' = sweeps w.
Proof. intros [= _ <-]. reflexivity. Qed.

Lemma makeRequest_sweeps (endpoint : Endpoint) (w w' : World)
    (r : Outcome JsValue) :
  makeRequest endpoint w = (r, w') -> sweeps w' = sweeps w.
Proof.
  unfold makeRequest. intros H.
  repeat match type of H with
         | context [match ?x with _ => _ end] => destruct x
         | context [if ?x then _ else _] => destruct x
         end; injection H as _ <-; reflexivity.
Qed.

Lemma sendDiscordNotification_sweeps (title description : string) (color : Z)
    (w w' : World) (r : Outcome unit) :
  sendDiscordNotification title description color w = (r, w') ->
  sweeps w' = sweeps w.
Proof.
  unfold sendDiscordNotification, bind, log, emit. cbn [snd].
  intros H.
  destruct (negb (truthy (webhookUrl (config _)))); cbn in H;
    [|destruct (webhook _ _)]; injection H as _ <-; reflexivity.
Qed.

Lemma fs_mkdir_sweeps (w w' : World) (r : Outcome unit) :
  fs_mkdir w = (r, w') -> sweeps w' = sweeps w.
Proof.
  unfold fs_mkdir. intros H.
  destruct (backups w); [|destruct (mkdir_error (env w))];
    injection H as _ <-; reflexivity.
Qed.

Lemma fs_writeFile_sweeps (file data : string) (w w' : World)
    (r : Outcome unit) :
  fs_writeFile file data w = (r, w') -> sweeps w' = sweeps w.
Proof.
  unfold fs_writeFile. intros H.
  destruct (backups w); [destruct (writeFile_error (env w) file)|];
    injection H as _ <-; reflexivity.
Qed.

Lemma fs_writeFile_chunks_sweeps (file : string) (chunks : list VipRecord)
    (w w' : World) (r : Outcome unit) :
  fs_writeFile_chunks file chunks w = (r, w') -> sweeps w' = sweeps w.
Proof.
  unfold fs_writeFile_chunks. intros H.
  destruct (backups w); [destruct (writeFile_error (env w) file)|];
    [|destruct chunks|]; injection H as _ <-; reflexivity.
Qed.

Lemma forEach_console_log_sweeps (ls : list string) :
  forall (w w' : World) (r : Outcome unit),
    forEach_M console_log ls w = (r, w') -> sweeps w' = sweeps w.
Proof.
  induction ls as [|line rest IH]; intros w w' r H; cbn [forEach_M] in H.
  - injection H as _ <-. reflexivity.
  - apply bind_inv in H.
    destruct H as [(? & w1 & H1 & H) | (? & H & ?)].
    + apply emit_sweeps in H1. apply IH in H. congruence.
    + exact (emit_sweeps _ _ _ _ H).
Qed.

(** Inversion of a run that keeps what every step did to the count. *)
Ltac inv_sweeps :=
  repeat
    (cbv beta in *;
     match goal with
     | H : bind _ _ _ = (_, _) |- _ =>
       apply bind_inv in H;
       destruct H as [(? & ? & ? & H) | (? & H & ?)]
     | H : try_catch _ _ _ = (_, _) |- _ =>
       apply try_catch_inv in H;
       destruct H as [(? & H & ?) | (? & ? & ? & H)]
     | H : ret _ _ = (_, _) |- _ => unfold ret in H; simplify_eq
     | H : throw _ _ = (_, _) |- _ => unfold throw in H; simplify_eq
     | H : log _ _ _ _ = (_, _) |- _ => apply emit_sweeps in H
     | H : console_log _ _ = (_, _) |- _ => apply emit_sweeps in H
     | H : makeRequest _ _ = (_, _) |- _ => apply makeRequest_sweeps in H
     | H : sendDiscordNotification _ _ _ _ = (_, _) |- _ =>
       apply sendDiscordNotification_sweeps in H
     | H : fs_mkdir _ = (_, _) |- _ => apply fs_mkdir_sweeps in H
     | H : fs_writeFile _ _ _ = (_, _) |- _ =>
       apply fs_writeFile_sweeps in H
     | H : fs_writeFile_chunks _ _ _ = (_, _) |- _ =>
       apply fs_writeFile_chunks_sweeps in H
     | H : forEach_M console_log _ _ = (_, _) |- _ =>
       apply forEach_console_log_sweeps in H
     | H : (if ?c then _ else _) _ = (_, _) |- _ => destruct c eqn:?
     | H : (let '(_, _) := ?p in _) _ = (_, _) |- _ => destruct p eqn:?
     | H : match ?v with _ => _ end _ = (_, _) |- _ => destruct v eqn:?
     | H : (let '(_, _) := ?p in _) = (_, _) |- _ => destruct p eqn:?
     end).

Lemma testConnection_sweeps (w w' : World) (r : Outcome ConnectionTest) :
  testConnection w = (r, w') -> sweeps w' = sweeps w.
Proof. unfold testConnection. intros H. inv_sweeps; congruence. Qed.

Lemma downloadVipFile_sweeps (toISOString : Z -> string) (w w' : World)
    (r : Outcome DownloadResult) :
  downloadVipFile toISOString w = (r, w') -> sweeps w' = sweeps w.
Proof. unfold downloadVipFile. intros H. inv_sweeps; congruence. Qed.

Lemma analyzeVips_sweeps (Date_parse : string -> option Z)
    (toISOString : Z -> string) (w w' : World) (r : Outcome Analysis) :
  analyzeVips Date_parse toISOString w = (r, w') -> sweeps w' = sweeps w.
Proof. unfold analyzeVips. intros H. inv_sweeps; congruence. Qed.

(** ** A scheduled backup and its own files *)

Lemma snapshot_is_not_report (toISOString : Z -> string) (t t' : Z) :
  report_name toISOString t' <> snapshot_name toISOString t.
Proof.
  unfold snapshot_name, report_name. rewrite !append_cons. discriminate.
Qed.

Section BackupFacts.

Variable Date_parse : string -> option Z.
Variable toISOString : Z -> string.

(** A scheduled backup whose download and analysis succeed: the directory
    it leaves is the one the sweep makes of what the analysis left. *)
Lemma performScheduledBackup_success (w w1 w2 : World) (res : DownloadResult)
    (a : Analysis) :
  downloadVipFile toISOString
    (snd (log Service "Starting scheduled backup..." LInfo w))
  = (Ok res, w1) ->
  analyzeVips Date_parse toISOString w1 = (Ok a, w2) ->
  exists w',
    performScheduledBackup Date_parse toISOString w = (Ok tt, w') /\
    backups w' = backups_after_cleanup (retentionDays (config w)) w2 /\
    env w2 = env w /\ sweeps w2 = sweeps w.
Proof.
  intros D A.
  destruct (log Service "Starting scheduled backup..." LInfo w)
    as [r0 w0] eqn:L0.
  pose proof (emit_sweeps _ _ _ _ L0) as S0.
  pose proof L0 as F0. apply log_facts in F0 as (-> & _ & _ & F0).
  cbn [snd] in D.
  pose proof (downloadVipFile_sweeps _ _ _ _ D) as S1.
  pose proof (analyzeVips_sweeps _ _ _ _ _ A) as S2.
  pose proof D as FD. apply downloadVipFile_facts in FD as [urls FD].
  pose proof A as FA. apply analyzeVips_facts in FA as [[urls2 FA] _].
  pose proof (step_facts_trans _ _ _ _ _ _ _ F0
                (step_facts_trans _ _ _ _ _ _ _ FD FA))
    as [(C2 & E2 & _) _ _].
  destruct (cleanupOldBackups_spec (retentionDays (config w)) w2)
    as (w3 & RC & BC & FC & _).
  edestruct (log_then_notify Service
               "Scheduled backup completed successfully" LSuccess
               "Scheduled Backup Complete"
               ("✅ **Backup Summary**" ++ LF ++ "📁 VIP file backed up" ++ LF
                ++ "📊 " ++ show (total a) ++ " VIPs analyzed" ++ LF
                ++ "🧹 "
                ++ show (deleted_by_cleanup (retentionDays (config w)) w2)
                ++ " old files cleaned")
               0x00FF00 w3)
    as (w' & R & B & F).
  exists w'. split.
  { unfold performScheduledBackup. erewrite try_catch_ok; [reflexivity|].
    rewrite (bind_ok _ _ _ _ _ L0), (bind_ok _ _ _ _ _ D),
      (bind_ok _ _ _ _ _ A).
    rewrite (bind_ok _ _ w2 w3 (deleted_by_cleanup (retentionDays (config w))
                                                   w2))
      by (rewrite C2; exact RC).
    exact R. }
  split; [congruence|]. split; [exact E2 | congruence].
Qed.

(** The directory after the download and the analysis of a scheduled
    backup: the snapshot and the report, written at the clock's time, on
    top of what was there; the sweep takes what is old against the cutoff
    it would have read at the start. *)
Lemma performScheduledBackup_written (w : World) (res : DownloadResult)
    (a : Analysis) :
  let w0 := snd (log Service "Starting scheduled backup..." LInfo w) in
  let w1 := snd (downloadVipFile toISOString w0) in
  let now := clock (env w) in
  fst (downloadVipFile toISOString w0) = Ok res ->
  fst (analyzeVips Date_parse toISOString w1) = Ok a ->
  exists w' text report files,
    performScheduledBackup Date_parse toISOString w = (Ok tt, w') /\
    dl_size res = js_length text /\
    files !! snapshot_name toISOString now = Some (written now text) /\
    files !! report_name toISOString now = Some (written now report) /\
    backups w'
    = (if readdir_fails (env w) then Some files
       else Some (kept (sweep_cutoff (retentionDays (config w)) w) files)).
Proof.
  cbv zeta. intros D A.
  destruct (log Service "Starting scheduled backup..." LInfo w)
    as [r0 w0] eqn:L0.
  pose proof L0 as F0. apply log_facts in F0 as (-> & _ & _ & F0).
  assert (E0 : env w0 = env w) by apply F0.
  cbn [snd] in *.
  pose proof (downloadVipFile_inv toISOString w0) as ID.
  cbv zeta in ID. destruct ID as (_ & S1 & ID).
  destruct (downloadVipFile toISOString w0) as [r1 w1] eqn:RD.
  cbn [fst snd] in *. subst r1.
  destruct ID as (Fn & _ & text & Sz & B1).
  assert (E1 : env w1 = env w0) by apply S1.
  pose proof (analyzeVips_inv Date_parse toISOString w1) as IA.
  cbv zeta in IA. destruct IA as (_ & _ & IA).
  destruct (analyzeVips Date_parse toISOString w1) as [r2 w2] eqn:RA.
  cbn [fst snd] in *. subst r2.
  destruct IA as (vipList & _ & B2).
  destruct (performScheduledBackup_success w w1 w2 res a)
    as (w' & R & B & E2 & S2).
  { rewrite L0. exact RD. }
  { exact RA. }
  rewrite E1, E0 in B2. rewrite Fn, E0 in B1.
  exists w', text. eexists. eexists. split; [exact R|].
  split; [exact Sz|].
  split; [|split];
    [| |rewrite B; unfold backups_after_cleanup, sweep_cutoff, sweepDate;
        rewrite B2, E2, S2; reflexivity].
  - rewrite lookup_insert_ne by apply snapshot_is_not_report.
    unfold files_of. rewrite B1. cbn. apply lookup_insert_eq.
  - apply lookup_insert_eq.
Qed.

(** The cutoff of a sweep with a negative retention lies after the instant
    of the sweep, where the offsets of local time differ by less than a
    day and the cutoff is a date. *)
Lemma cutoffDate_negative (e : Env) (now keepDays : Z) :
  (keepDays < 0)%Z ->
  (forall l t, LocalTZA_local e l - LocalTZA_utc e t < msPerDay)%Z ->
  cutoffDate e now keepDays <> None ->
  before_cutoff now (cutoffDate e now keepDays).
Proof.
  intros K O V. unfold cutoffDate, TimeClip in *. cbv zeta in *.
  set (newDate := (now + LocalTZA_utc e now - keepDays * msPerDay)%Z) in *.
  destruct (Z.abs (newDate - LocalTZA_local e newDate) <=? maxTimeValue)%Z;
    [|contradiction].
  cbn. specialize (O newDate now). subst newDate.
  assert (0 < msPerDay)%Z by reflexivity. nia.
Qed.

(** X15. When the cutoff of its sweep is not after the instant its files
    are stamped with, a scheduled backup whose download and analysis
    succeed leaves the snapshot and the report it has just written in the
    backup directory: its own sweep does not take them. *)
Theorem performScheduledBackup_keeps_new_files (w : World)
    (res : DownloadResult) (a : Analysis) :
  let w0 := snd (log Service "Starting scheduled backup..." LInfo w) in
  let w1 := snd (downloadVipFile toISOString w0) in
  let w' := snd (performScheduledBackup Date_parse toISOString w) in
  let now := clock (env w) in
  fst (downloadVipFile toISOString w0) = Ok res ->
  fst (analyzeVips Date_parse toISOString w1) = Ok a ->
  ~ before_cutoff now (sweep_cutoff (retentionDays (config w)) w) ->
  exists text report,
    dl_size res = js_length text /\
    files_of w' !! snapshot_name toISOString now = Some (written now text) /\
    files_of w' !! report_name toISOString now = Some (written now report).
Proof.
  cbv zeta. intros D A K.
  destruct (performScheduledBackup_written w res a D A)
    as (w' & text & report & files & R & Sz & Ls & Lr & B).
  rewrite R. cbn [snd]. exists text, report. split; [exact Sz|].
  unfold files_of. rewrite B.
  assert (Fresh : forall data,
             ~ old_and_accessible
                 (sweep_cutoff (retentionDays (config w)) w)
                 (written (clock (env w)) data)).
  { intros data (_ & O & _). exact (K O). }
  destruct (readdir_fails (env w)); cbn; [auto|].
  split; apply map_lookup_filter_Some_2; auto; apply Fresh.
Qed.

(** X16. With a negative retention and a readable directory, a scheduled
    backup whose download and analysis succeed deletes the snapshot and the
    report it has just written, where the sweep reads the clock no earlier
    than the files were stamped, the offsets of local time differ by less
    than a day and the cutoff is a date: the cutoff of its sweep lies in
    the future. *)
Theorem performScheduledBackup_negative_retention (w : World)
    (res : DownloadResult) (a : Analysis) :
  let w0 := snd (log Service "Starting scheduled backup..." LInfo w) in
  let w1 := snd (downloadVipFile toISOString w0) in
  let w' := snd (performScheduledBackup Date_parse toISOString w) in
  let now := clock (env w) in
  fst (downloadVipFile toISOString w0) = Ok res ->
  fst (analyzeVips Date_parse toISOString w1) = Ok a ->
  (retentionDays (config w) < 0)%Z -> readdir_fails (env w) = false ->
  (0 <= elapsed (env w) (sweeps w))%Z ->
  (forall l t,
     LocalTZA_local (env w) l - LocalTZA_utc (env w) t < msPerDay)%Z ->
  sweep_cutoff (retentionDays (config w)) w <> None ->
  files_of w' !! snapshot_name toISOString now = None /\
  files_of w' !! report_name toISOString now = None.
Proof.
  cbv zeta. intros D A K RF El O V.
  destruct (performScheduledBackup_written w res a D A)
    as (w' & text & report & files & R & Sz & Ls & Lr & B).
  rewrite R. cbn [snd]. unfold files_of. rewrite B, RF. cbn.
  assert (Old : forall data,
             old_and_accessible
               (sweep_cutoff (retentionDays (config w)) w)
               (written (clock (env w)) data)).
  { intros data. split; [reflexivity|]. split; [|reflexivity].
    pose proof (cutoffDate_negative (env w) (sweepDate w) _ K O V) as C.
    unfold sweep_cutoff in *.
    destruct (cutoffDate (env w) (sweepDate w) (retentionDays (config w)))
      as [c|]; [|contradiction].
    cbn in *. unfold sweepDate in C. lia. }
  split; apply map_lookup_filter_None_2; right; intros f L N;
    [rewrite Ls in L | rewrite Lr in L]; injection L as <-;
    exact (N (Old _)).
Qed.

End BackupFacts.

(** ** The files the scheduled operations touch *)

Lemma testConnection_files (w w' : World) (r : Outcome ConnectionTest) :
  testConnection w = (r, w') -> backups w' = backups w.
Proof.
  unfold testConnection. intros R. inv_files; congruence.
Qed.

Section FootprintFacts.

Variable Date_parse : string -> option Z.
Variable toISOString : Z -> string.

Lemma downloadVipFile_touches (w w' : World) (r : Outcome DownloadResult)
    (name : string) :
  downloadVipFile toISOString w = (r, w') ->
  name <> snapshot_name toISOString (clock (env w)) ->
  files_of w' !! name = files_of w !! name.
Proof.
  intros R N. pose proof (downloadVipFile_inv toISOString w) as I.
  cbv zeta in I. rewrite R in I. cbn [fst snd] in I.
  destruct I as (_ & _ & I). destruct r as [res|message].
  - destruct I as (Fn & _ & text & _ & B).
    unfold files_of at 1. rewrite B, Fn. cbn.
    apply lookup_insert_ne. congruence.
  - destruct I as [I | I]; rewrite I; [reflexivity|].
    apply lookup_insert_ne. congruence.
Qed.

Lemma analyzeVips_touches (w w' : World) (r : Outcome Analysis)
    (name : string) :
  analyzeVips Date_parse toISOString w = (r, w') ->
  name <> report_name toISOString (clock (env w)) ->
  files_of w' !! name = files_of w !! name.
Proof.
  intros R N. pose proof (analyzeVips_inv Date_parse toISOString w) as I.
  cbv zeta in I. rewrite R in I. cbn [fst snd] in I.
  destruct I as (_ & _ & I). destruct r as [a|message].
  - destruct I as (vipList & _ & B).
    unfold files_of at 1. rewrite B. cbn.
    apply lookup_insert_ne. congruence.
  - destruct I as [I _]. rewrite I. reflexivity.
Qed.

Lemma cleanupOldBackups_spares (keepDays : Z) (w w' : World)
    (r : Outcome nat) (name : string) (f : File) :
  cleanupOldBackups keepDays w = (r, w') ->
  files_of w !! name = Some f ->
  ~ old_and_accessible (sweep_cutoff keepDays w) f ->
  files_of w' !! name = Some f.
Proof.
  intros R L N.
  destruct (cleanupOldBackups_spec keepDays w) as (v & R' & B & _).
  rewrite R in R'. injection R' as _ <-.
  unfold files_of in *. rewrite B. unfold backups_after_cleanup.
  destruct (backups w) as [files|]; [|exact L].
  destruct (readdir_fails (env w)); cbn in *; [exact L|].
  apply map_lookup_filter_Some_2; assumption.
Qed.

(** X17. [performHealthCheck] leaves the configuration, the service flag
    and the scheduler alone, and of the backup directory it touches at most
    one file, the analysis report of its time stamp: every other file is
    there afterwards as it was before. *)
Theorem performHealthCheck_footprint (w : World) (name : string) :
  let w' := snd (performHealthCheck Date_parse toISOString w) in
  same_setting w w' /\
  (name <> report_name toISOString (clock (env w)) ->
   files_of w' !! name = files_of w !! name).
Proof.
  cbv zeta.
  destruct (performHealthCheck Date_parse toISOString w) as [r w'] eqn:R.
  cbn [snd]. unfold performHealthCheck in R.
  apply try_catch_inv in R.
  match type of R with
  | (exists _, ?m w = _ /\ _) \/ _ =>
    assert (Body : forall (r1 : Outcome unit) (w1 : World),
               m w = (r1, w1) ->
             same_setting w w1 /\
             (name <> report_name toISOString (clock (env w)) ->
              files_of w1 !! name = files_of w !! name))
  end.
  { clear R. intros r1 w1 R.
    apply bind_inv in R. destruct R as [(u & w0 & L & R) | (m & L & _)].
    2:{ apply log_facts in L as (L & _). discriminate L. }
    apply log_facts in L as (_ & B0 & _ & [S0 _ _]).
    assert (E0 : env w0 = env w) by apply S0.
    apply bind_inv in R. destruct R as [(t & wt & T & R) | (m & T & _)].
    2:{ apply testConnection_facts in T as [[t T] _]. discriminate T. }
    pose proof (testConnection_files _ _ _ T) as Bt.
    apply testConnection_facts in T as [_ [urls [St _ _]]].
    assert (Et : env wt = env w0) by apply St.
    assert (Ft : files_of wt = files_of w).
    { unfold files_of. congruence. }
    destruct t as [sn pc mp | error].
    2:{ unfold throw in R. injection R as _ <-.
        split; [|rewrite Ft; reflexivity].
        exact (same_setting_trans _ _ _ S0 St). }
    assert (An : forall ra wa,
               analyzeVips Date_parse toISOString wt = (ra, wa) ->
               same_setting w wa /\
               (name <> report_name toISOString (clock (env w)) ->
                files_of wa !! name = files_of w !! name)).
    { intros ra wa A. split.
      - apply analyzeVips_facts in A as [[urls2 [Sa _ _]] _].
        exact (same_setting_trans _ _ _ S0 (same_setting_trans _ _ _ St Sa)).
      - intros N. rewrite <- Ft.
        apply (analyzeVips_touches _ _ _ _ A). congruence. }
    apply bind_inv in R. destruct R as [(a & wa & A & R) | (m & A & ->)];
      [|exact (An _ _ A)].
    apply An in A as [Sa Fa].
    assert (Keep : forall (k : M unit) rk wk,
               (k = sendDiscordNotification
                      "VIP Alert"
                      ("🔔 **VIP Status Alert**" ++ LF
                       ++ String.concat LF (criticalIssues a)) 0xFF8C00
                \/ k = ret tt) ->
               k wa = (rk, wk) ->
               rk = Ok tt /\ backups wk = backups wa /\ same_setting wa wk).
    { intros k rk wk [-> | ->] K.
      - apply sendDiscordNotification_facts in K as (-> & B & [S _ _]).
        auto.
      - injection K as <- <-. split; [reflexivity|]. split; [reflexivity|].
        apply same_setting_refl. }
    apply bind_inv in R. destruct R as [(u2 & wk & K & R) | (m & K & ->)].
    - apply Keep in K as (_ & Bk & Sk);
        [|destruct (0 <? length (criticalIssues a))%nat; auto].
      apply log_facts in R as (_ & Bl & _ & [Sl _ _]).
      split.
      + exact (same_setting_trans _ _ _ Sa (same_setting_trans _ _ _ Sk Sl)).
      + intros N. rewrite <- (Fa N). unfold files_of. congruence.
    - apply Keep in K as (K & _);
        [discriminate K|destruct (0 <? length (criticalIssues a))%nat; auto].
  }
  destruct R as [(x & R & ->) | (message & w1 & R & H)].
  - exact (Body _ _ R).
  - apply Body in R as [S1 F1].
    apply bind_inv in H. destruct H as [(u & wl & L & H) | (m & L & _)].
    2:{ apply log_facts in L as (L & _). discriminate L. }
    apply log_facts in L as (_ & Bl & _ & [Sl _ _]).
    apply sendDiscordNotification_facts in H as (_ & Bs & [Ss _ _]).
    split.
    + exact (same_setting_trans _ _ _ S1 (same_setting_trans _ _ _ Sl Ss)).
    + intros N. rewrite <- (F1 N). unfold files_of. congruence.
Qed.

(** X18. [performScheduledBackup] leaves the configuration, the service
    flag and the scheduler alone, and whatever its download and analysis
    come to, a file of the backup directory that is not old and accessible
    against the cutoff its sweep reads, and whose name is neither the one
    of its snapshot nor the one of its report, is there afterwards as it
    was before. *)
Theorem performScheduledBackup_spares_recent (w : World) (name : string)
    (f : File) :
  let w' := snd (performScheduledBackup Date_parse toISOString w) in
  let now := clock (env w) in
  files_of w !! name = Some f ->
  ~ old_and_accessible (sweep_cutoff (retentionDays (config w)) w) f ->
  name <> snapshot_name toISOString now ->
  name <> report_name toISOString now ->
  same_setting w w' /\ files_of w' !! name = Some f.
Proof.
  cbv zeta. intros L Young Ns Nr.
  destruct (performScheduledBackup Date_parse toISOString w) as [r w'] eqn:R.
  cbn [snd]. unfold performScheduledBackup in R.
  apply try_catch_inv in R.
  match type of R with
  | (exists _, ?m w = _ /\ _) \/ _ =>
    assert (Body : forall (r1 : Outcome unit) (w1 : World),
               m w = (r1, w1) ->
             same_setting w w1 /\ files_of w1 !! name = Some f)
  end.
  { clear R. intros r1 w1 R.
    apply bind_inv in R. destruct R as [(u & w0 & L0 & R) | (m & L0 & _)].
    2:{ apply log_facts in L0 as (L0 & _). discriminate L0. }
    pose proof (emit_sweeps _ _ _ _ L0) as W0.
    apply log_facts in L0 as (_ & B0 & _ & [S0 _ _]).
    assert (E0 : env w0 = env w) by apply S0.
    assert (F0 : files_of w0 = files_of w) by (unfold files_of; congruence).
    assert (Dl : forall rd wd,
               downloadVipFile toISOString w0 = (rd, wd) ->
               same_setting w wd /\ files_of wd !! name = Some f).
    { intros rd wd D. split.
      - apply downloadVipFile_facts in D as [urls [Sd _ _]].
        exact (same_setting_trans _ _ _ S0 Sd).
      - rewrite <- L, <- F0.
        apply (downloadVipFile_touches _ _ _ _ D). congruence. }
    apply bind_inv in R. destruct R as [(res & wd & D & R) | (m & D & ->)];
      [|exact (Dl _ _ D)].
    pose proof (downloadVipFile_sweeps _ _ _ _ D) as Wd.
    apply Dl in D as [Sd Fd].
    assert (Ed : env wd = env w) by apply Sd.
    assert (An : forall ra wa,
               analyzeVips Date_parse toISOString wd = (ra, wa) ->
               same_setting w wa /\ files_of wa !! name = Some f).
    { intros ra wa A. split.
      - apply analyzeVips_facts in A as [[urls2 [Sa _ _]] _].
        exact (same_setting_trans _ _ _ Sd Sa).
      - rewrite <- Fd.
        apply (analyzeVips_touches _ _ _ _ A). congruence. }
    apply bind_inv in R. destruct R as [(a & wa & A & R) | (m & A & ->)];
      [|exact (An _ _ A)].
    pose proof (analyzeVips_sweeps _ _ _ _ _ A) as Wa.
    apply An in A as [Sa Fa].
    assert (Ea : env wa = env w) by apply Sa.
    assert (Ca : config wa = config w) by apply Sa.
    assert (Cl : forall rc wc,
               cleanupOldBackups (retentionDays (config wa)) wa = (rc, wc) ->
               same_setting w wc /\ files_of wc !! name = Some f).
    { intros rc wc C. split.
      - destruct (cleanupOldBackups_spec (retentionDays (config wa)) wa)
          as (v & C' & _ & [Sc _ _] & _).
        rewrite C in C'. injection C' as _ <-.
        exact (same_setting_trans _ _ _ Sa Sc).
      - apply (cleanupOldBackups_spares _ _ _ _ _ _ C Fa).
        unfold sweep_cutoff, sweepDate in *.
        rewrite Ea, Ca, Wa, Wd, W0. exact Young. }
    apply bind_inv in R. destruct R as [(n & wc & C & R) | (m & C & ->)];
      [|exact (Cl _ _ C)].
    apply Cl in C as [Sc Fc].
    apply bind_inv in R. destruct R as [(u2 & wl & Lg & R) | (m & Lg & _)].
    2:{ apply log_facts in Lg as (Lg & _). discriminate Lg. }
    apply log_facts in Lg as (_ & Bl & _ & [Sl _ _]).
    apply sendDiscordNotification_facts in R as (_ & Bs & [Ss _ _]).
    split.
    - exact (same_setting_trans _ _ _ Sc (same_setting_trans _ _ _ Sl Ss)).
    - rewrite <- Fc. unfold files_of. congruence. }
  destruct R as [(x & R & ->) | (message & w1 & R & H)].
  - exact (Body _ _ R).
  - apply Body in R as [S1 F1].
    apply bind_inv in H. destruct H as [(u & wl & Lg & H) | (m & Lg & _)].
    2:{ apply log_facts in Lg as (Lg & _). discriminate Lg. }
    apply log_facts in Lg as (_ & Bl & _ & [Sl _ _]).
    apply sendDiscordNotification_facts in H as (_ & Bs & [Ss _ _]).
    split.
    + exact (same_setting_trans _ _ _ S1 (same_setting_trans _ _ _ Sl Ss)).
    + rewrite <- F1. unfold files_of. congruence.
Qed.

End FootprintFacts.

(** ** What [start] and [stop] register *)

Section RegistrationFacts.

Variable cron_validate : string -> bool.

(** All that [start] does in a stopped service with valid schedules. *)
Lemma start_stopped_run (w : World) :
  isRunning w = false ->
  cron_validate (backupSchedule (config w)) = true ->
  cron_validate (alertSchedule (config w)) = true ->
  exists w',
    start cron_validate w = (Ok tt, w') /\
    isRunning w' = true /\ config w' = config w /\ env w' = env w /\
    backups w' = backups w /\
    cronTasks w'
    = (cronTasks w ++ [backup_trigger (config w);
                       health_trigger (config w)])%list /\
    timers w' = push (timers w) (30000%Z, HealthCheckJob) /\
    signalHandlers w' = (signalHandlers w ++ ["SIGINT"; "SIGTERM"])%list /\
    notified w' = push (notified w) (startup_note (config w)).
Proof.
  intros R Vb Va. unfold start. rewrite R.
  unfold bind at 1. cbn [log emit].
  unfold bind at 1. cbn [log emit].
  unfold bind at 1. cbn [log emit].
  unfold bind at 1. cbn [log emit].
  rewrite Vb, Va. cbn [negb].
  unfold bind at 1. cbn [cron_schedule].
  unfold bind at 1. cbn [cron_schedule].
  unfold bind at 1. cbn [task_start].
  unfold bind at 1. cbn [task_start].
  unfold bind at 1.
  unfold bind at 1. cbn [log emit].
  cbn [cronTasks set_cronTasks set_trace set_isRunning].
  rewrite alter_new_pair.
  match goal with
  | |- context [bind (sendDiscordNotification ?t ?d ?c) _ ?w0] =>
    destruct (sendDiscordNotification t d c w0) as [rs ws] eqn:S
  end.
  pose proof S as FS.
  apply sendDiscordNotification_facts in FS as (-> & B & [FS N _]).
  destruct FS as (C & E & RS & T & Tm & Sg).
  unfold bind at 1. rewrite S.
  unfold bind, setTimeout, process_on. cbn.
  eexists. split; [reflexivity|]. cbn.
  rewrite RS, C, E, B, T, Tm, Sg. cbn.
  repeat (split; [reflexivity|]).
  unfold push. rewrite <- !app_assoc. repeat (split; [reflexivity|]).
  unfold notified in *. cbn [trace]. rewrite N. clear. cbn.
  unfold push. rewrite !notifications_app. cbn. rewrite !app_nil_r.
  reflexivity.
Qed.

(** X19. [start] in a stopped service whose backup schedule, or else alert
    schedule, is not a valid cron expression throws the error that names
    the schedule, the backup one first, and has registered nothing by then:
    the service is still stopped, the registry, the timers and the signal
    handlers are as before, and no notification has been sent. *)
Theorem start_invalid_schedule (w : World) :
  let w' := snd (start cron_validate w) in
  isRunning w = false ->
  cron_validate (backupSchedule (config w))
  && cron_validate (alertSchedule (config w)) = false ->
  fst (start cron_validate w)
  = Throw (if cron_validate (backupSchedule (config w))
           then "Invalid alert schedule: " ++ alertSchedule (config w)
           else "Invalid backup schedule: " ++ backupSchedule (config w)) /\
  same_setting w w' /\ notified w' = notified w /\ backups w' = backups w.
Proof.
  cbv zeta. intros R V. unfold start. rewrite R.
  unfold bind at 1. cbn [log emit].
  unfold bind at 1. cbn [log emit].
  unfold bind at 1. cbn [log emit].
  unfold bind at 1. cbn [log emit].
  destruct (cron_validate (backupSchedule (config w))); cbn in V |- *.
  - rewrite V. cbn. unfold same_setting, notified, push. cbn.
    rewrite !notifications_app. cbn. rewrite !app_nil_r. auto 10.
  - unfold same_setting, notified, push. cbn.
    rewrite !notifications_app. cbn. rewrite !app_nil_r. auto 10.
Qed.

(** X20. [start] in a stopped service with valid schedules sends the
    startup notification with the two schedules, sets one timer, the health
    check in 30 seconds, and adds one handler for each of [SIGINT] and
    [SIGTERM]; it leaves the backup directory alone. *)
Theorem start_registers (w : World) :
  let w' := snd (start cron_validate w) in
  isRunning w = false ->
  cron_validate (backupSchedule (config w)) = true ->
  cron_validate (alertSchedule (config w)) = true ->
  notified w' = push (notified w) (startup_note (config w)) /\
  timers w' = push (timers w) (30000%Z, HealthCheckJob) /\
  signalHandlers w' = (signalHandlers w ++ ["SIGINT"; "SIGTERM"])%list /\
  backups w' = backups w.
Proof.
  cbv zeta. intros R Vb Va.
  destruct (start_stopped_run w R Vb Va)
    as (w' & S & _ & _ & _ & B & _ & Tm & Sg & N).
  rewrite S. cbn [snd]. auto.
Qed.

(** What [stop] in a running service leaves. *)
Lemma stop_running_run (w : World) :
  isRunning w = true ->
  exists w',
    stop w = (Ok tt, w') /\
    isRunning w' = false /\ config w' = config w /\ env w' = env w /\
    backups w' = backups w /\
    cronTasks w' = map (set_running false) (cronTasks w) /\
    timers w' = timers w /\ signalHandlers w' = signalHandlers w /\
    notified w' = notified w.
Proof.
  intros R. unfold stop. rewrite R. cbn [negb].
  eexists. split; [reflexivity|]. cbn.
  repeat (split; [reflexivity|]).
  unfold notified, push. cbn. rewrite !notifications_app. cbn.
  rewrite !app_nil_r. reflexivity.
Qed.

(** X21. [stop] undoes none of what [start] has registered besides halting
    the triggers: after [start], [stop] and [start] again in a stopped
    service with valid schedules, the registry holds the first pair of
    triggers, halted, and the second, so four tasks more than before; two
    timers for the initial health check are set; [SIGINT] and [SIGTERM]
    have two handlers each; and the startup notification has been sent
    twice, with none for the stop. *)
Theorem restart_accumulates (w : World) :
  let started := snd (start cron_validate w) in
  let halted := snd (stop started) in
  let resumed := snd (start cron_validate halted) in
  let pair := [backup_trigger (config w); health_trigger (config w)] in
  isRunning w = false ->
  cron_validate (backupSchedule (config w)) = true ->
  cron_validate (alertSchedule (config w)) = true ->
  cronTasks resumed
  = (map (set_running false) (cronTasks w ++ pair) ++ pair)%list /\
  timers resumed
  = (timers w ++ [(30000%Z, HealthCheckJob); (30000%Z, HealthCheckJob)])%list /\
  signalHandlers resumed
  = (signalHandlers w ++ ["SIGINT"; "SIGTERM"; "SIGINT"; "SIGTERM"])%list /\
  notified halted = notified started /\
  notified resumed
  = (notified w ++ [startup_note (config w); startup_note (config w)])%list.
Proof.
  cbv zeta. intros R Vb Va.
  destruct (start_stopped_run w R Vb Va)
    as (w1 & S1 & R1 & C1 & _ & _ & T1 & Tm1 & Sg1 & N1).
  rewrite S1. cbn [snd].
  destruct (stop_running_run w1 R1)
    as (w2 & S2 & R2 & C2 & _ & _ & T2 & Tm2 & Sg2 & N2).
  rewrite S2. cbn [snd].
  destruct (start_stopped_run w2 R2)
    as (w3 & S3 & _ & _ & _ & _ & T3 & Tm3 & Sg3 & N3).
  { rewrite C2, C1. exact Vb. }
  { rewrite C2, C1. exact Va. }
  rewrite S3. cbn [snd].
  rewrite T3, T2, T1, Tm3, Tm2, Tm1, Sg3, Sg2, Sg1, N3, N2, N1, C2, C1.
  unfold push. rewrite <- !app_assoc. auto.
Qed.

End RegistrationFacts.

(** ** The status report, the command lines and the health server *)

Lemma testConnection_footprint (w w' : World) (r : Outcome ConnectionTest) :
  testConnection w = (r, w') ->
  (exists t, r = Ok t) /\ same_setting w w' /\ notified w' = notified w /\
  backups w' = backups w.
Proof.
  intros T. pose proof (testConnection_files _ _ _ T) as B.
  apply testConnection_facts in T as [Ok [urls [S N _]]].
  rewrite app_nil_r in N. auto.
Qed.

Section InterfaceFacts.

Variable Date_parse : string -> option Z.
Variable toISOString : Z -> string.
Variable cron_validate : string -> bool.
Variable parseInt : option string -> option Z.

Lemma analyzeVips_footprint (w w' : World) (r : Outcome Analysis)
    (name : string) :
  analyzeVips Date_parse toISOString w = (r, w') ->
  same_setting w w' /\
  notified w' = (notified w ++ analysis_notes r)%list /\
  (name <> report_name toISOString (clock (env w)) ->
   files_of w' !! name = files_of w !! name).
Proof.
  intros A. split; [|split].
  - apply analyzeVips_facts in A as [[urls [S _ _]] _]. exact S.
  - apply analyzeVips_facts in A as [[urls [_ N _]] _]. exact N.
  - intros N. exact (analyzeVips_touches _ _ _ _ _ _ A N).
Qed.

(** X22. [status] never throws, and it is no read-only report: it runs the
    analysis whatever the connection test came to, and sends what the
    analysis sends, its alert when a bucket is not empty.  Of the backup
    directory it touches at most the analysis report of its time stamp;
    the configuration and the scheduler are as before. *)
Theorem status_side_effects (w : World) (name : string) :
  let w1 := snd (testConnection w) in
  let w' := snd (status Date_parse toISOString w) in
  fst (status Date_parse toISOString w) = Ok tt /\
  same_setting w w' /\
  notified w'
  = (notified w
     ++ analysis_notes (fst (analyzeVips Date_parse toISOString w1)))%list /\
  (name <> report_name toISOString (clock (env w)) ->
   files_of w' !! name = files_of w !! name).
Proof.
  cbv zeta.
  destruct (testConnection w) as [rt w1] eqn:T. cbn [snd].
  pose proof T as FT.
  apply testConnection_footprint in FT as ([t ->] & St & Nt & Bt).
  destruct (analyzeVips Date_parse toISOString w1) as [ra wa] eqn:A.
  cbn [fst].
  pose proof A as FA.
  apply (analyzeVips_footprint _ _ _ name) in FA as (Sa & Na & Fa).
  assert (E1 : env w1 = env w) by apply St.
  assert (F1 : files_of w1 = files_of w) by (unfold files_of; congruence).
  rewrite E1, F1, Nt in *.
  pose proof (same_setting_trans _ _ _ St Sa) as S.
  unfold status, try_catch.
  rewrite (bind_ok _ _ _ _ _ T).
  destruct ra as [a|message].
  - rewrite (bind_ok _ _ _ _ _ A).
    unfold bind, console_log, emit. unfold notified in *. cbn.
    unfold push. rewrite !notifications_app. cbn. rewrite !app_nil_r.
    split; [reflexivity|]. split; [exact S|]. split; [exact Na|exact Fa].
  - rewrite (bind_throw _ _ _ _ _ A).
    unfold console_error, emit. unfold notified in *. cbn.
    unfold push. rewrite !notifications_app. cbn. rewrite !app_nil_r.
    cbn in Na. rewrite app_nil_r in Na.
    split; [reflexivity|]. split; [exact S|]. split; [exact Na|exact Fa].
Qed.

End InterfaceFacts.

(** ** Computations that spare a file *)

Lemma keeps_refl (name : string) (w : World) : keeps name w w.
Proof. split; [apply same_setting_refl | reflexivity]. Qed.

Lemma keeps_trans (name : string) (w1 w2 w3 : World) :
  keeps name w1 w2 -> keeps name w2 w3 -> keeps name w1 w3.
Proof.
  intros [S1 F1] [S2 F2]. split.
  - exact (same_setting_trans _ _ _ S1 S2).
  - congruence.
Qed.

Lemma keeps_clock (name : string) (w w' : World) :
  keeps name w w' -> clock (env w') = clock (env w).
Proof. intros [(_ & E & _) _]. rewrite E. reflexivity. Qed.

Lemma keeps_quiet (name : string) (w w' : World) :
  same_setting w w' -> backups w' = backups w -> keeps name w w'.
Proof.
  intros S B. split; [exact S|]. unfold files_of. rewrite B. reflexivity.
Qed.

Section Spares.

Context {A B : Type}.
Variable name : string.
Variable now : Z.

Lemma spares_bind (m : M A) (k : A -> M B) :
  spares name now m -> (forall a, spares name now (k a)) ->
  spares name now (bind m k).
Proof.
  intros Hm Hk w w' r C R. apply bind_inv in R.
  destruct R as [(a & w1 & R1 & R2) | (message & R1 & _)].
  - pose proof (Hm _ _ _ C R1) as K1.
    apply (keeps_trans _ _ _ _ K1). apply (Hk a _ _ _) in R2; [exact R2|].
    rewrite (keeps_clock _ _ _ K1). exact C.
  - exact (Hm _ _ _ C R1).
Qed.

Lemma spares_try_catch (m : M A) (h : string -> M A) :
  spares name now m -> (forall message, spares name now (h message)) ->
  spares name now (try_catch m h).
Proof.
  intros Hm Hh w w' r C R. apply try_catch_inv in R.
  destruct R as [(a & R1 & _) | (message & w1 & R1 & R2)].
  - exact (Hm _ _ _ C R1).
  - pose proof (Hm _ _ _ C R1) as K1.
    apply (keeps_trans _ _ _ _ K1). apply (Hh message _ _ _) in R2;
      [exact R2|].
    rewrite (keeps_clock _ _ _ K1). exact C.
Qed.

Lemma spares_ret (a : A) : spares name now (ret a).
Proof. intros w w' r _ [= _ <-]. apply keeps_refl. Qed.

Lemma spares_throw (message : string) :
  spares name now (throw message : M A).
Proof. intros w w' r _ [= _ <-]. apply keeps_refl. Qed.

End Spares.

Lemma spares_emit (name : string) (now : Z) (e : Event) :
  spares name now (emit e).
Proof.
  intros w w' r _ R. apply emit_facts in R as (_ & B & _ & [S _ _]).
  exact (keeps_quiet _ _ _ S B).
Qed.

Lemma spares_emit_reading (name : string) (now : Z) (e : World -> Event) :
  spares name now (fun w => emit (e w) w).
Proof.
  intros w w' r _ R. apply emit_facts in R as (_ & B & _ & [S _ _]).
  exact (keeps_quiet _ _ _ S B).
Qed.

Lemma spares_sendDiscordNotification (name : string) (now : Z)
    (title description : string) (color : Z) :
  spares name now (sendDiscordNotification title description color).
Proof.
  intros w w' r _ R.
  apply sendDiscordNotification_facts in R as (_ & B & [S _ _]).
  exact (keeps_quiet _ _ _ S B).
Qed.

Lemma spares_forEach_console_log (name : string) (now : Z)
    (ls : list string) :
  spares name now (forEach_M console_log ls).
Proof.
  intros w w' r _ R.
  apply forEach_console_log_facts in R as (_ & B & [S _ _]).
  exact (keeps_quiet _ _ _ S B).
Qed.

Lemma spares_testConnection (name : string) (now : Z) :
  spares name now testConnection.
Proof.
  intros w w' r _ R.
  apply testConnection_footprint in R as (_ & S & _ & B).
  exact (keeps_quiet _ _ _ S B).
Qed.

Section SparesFacts.

Variable Date_parse : string -> option Z.
Variable toISOString : Z -> string.
Variable cron_validate : string -> bool.
Variable parseInt : option string -> option Z.
Variable name : string.
Variable now : Z.

Lemma spares_downloadVipFile :
  name <> snapshot_name toISOString now ->
  spares name now (downloadVipFile toISOString).
Proof.
  intros N w w' r C R. split.
  - apply downloadVipFile_facts in R as [urls [S _ _]]. exact S.
  - apply (downloadVipFile_touches _ _ _ _ _ R). rewrite C. exact N.
Qed.

Lemma spares_analyzeVips :
  name <> report_name toISOString now ->
  spares name now (analyzeVips Date_parse toISOString).
Proof.
  intros N w w' r C R. split.
  - apply analyzeVips_facts in R as [[urls [S _ _]] _]. exact S.
  - apply (analyzeVips_touches _ _ _ _ _ _ R). rewrite C. exact N.
Qed.

Lemma spares_status :
  name <> report_name toISOString now ->
  spares name now (status Date_parse toISOString).
Proof.
  intros N. unfold status, console_log, console_error.
  repeat first
    [ simple apply spares_testConnection
    | simple apply spares_analyzeVips
    | simple apply spares_try_catch | simple apply spares_bind
    | match goal with |- forall _, _ => intro end
    | simple apply spares_emit
    | simple apply (spares_emit_reading name now (fun w => Printed _))
    | exact N ].
Qed.

End SparesFacts.

Section CommandFacts.

Variable Date_parse : string -> option Z.
Variable toISOString : Z -> string.
Variable cron_validate : string -> bool.
Variable parseInt : option string -> option Z.

(** X23. Of the manager's commands only [cleanup] deletes: whatever the
    environment, the command and the remote API's answers, a run of any
    other command leaves the configuration and the scheduler alone, and
    every file of the backup directory but the snapshot and the report of
    its time stamp as it was. *)
Theorem manager_main_deletes_only_on_cleanup
    (CRCON_BASE_URL command arg : option string) (w : World)
    (name : string) :
  let w' := snd (manager_main Date_parse toISOString parseInt
                              CRCON_BASE_URL command arg w) in
  command_is command "cleanup" = false ->
  name <> snapshot_name toISOString (clock (env w)) ->
  name <> report_name toISOString (clock (env w)) ->
  same_setting w w' /\ files_of w' !! name = files_of w !! name.
Proof.
  cbv zeta. intros Cl Ns Nr.
  destruct (manager_main Date_parse toISOString parseInt CRCON_BASE_URL
                         command arg w) as [r w'] eqn:R.
  cbn [snd]. change (keeps name w w').
  revert R. unfold manager_main. rewrite Cl.
  destruct (negb (truthy CRCON_BASE_URL));
    [|destruct (negb (truthy (apiToken (config w))))];
    match goal with
    | |- ?m w = _ -> _ =>
      intros R; refine ((_ : spares name (clock (env w)) m) _ _ _ eq_refl R)
    end.
  all: unfold console_log, console_error.
  all: repeat first
         [ simple apply spares_testConnection
         | simple apply spares_downloadVipFile
         | simple apply spares_analyzeVips
         | simple apply spares_sendDiscordNotification
         | simple apply spares_forEach_console_log
         | simple apply spares_try_catch | simple apply spares_bind
         | match goal with |- forall _, _ => intro end
         | simple apply spares_emit | simple apply spares_ret
         | simple apply spares_throw
         | exact Ns | exact Nr
         | match goal with
           | |- spares _ _ (if ?c then _ else _) => destruct c
           | |- spares _ _ (match ?t with _ => _ end) => destruct t
           end ].
Qed.

End CommandFacts.

(** ** Exit codes and status codes *)

Lemma try_catch_returns {A : Type} (m : M A) (h : string -> M A) (w : World) :
  (forall message w1, exists a, fst (h message w1) = Ok a) ->
  exists a, fst (try_catch m h w) = Ok a.
Proof.
  intros H. unfold try_catch. destruct (m w) as [[a|message] w1].
  - exists a. reflexivity.
  - apply H.
Qed.

Lemma unit_returns (m : M unit) (w : World) :
  (exists a, fst (m w) = Ok a) -> exists w', m w = (Ok tt, w').
Proof.
  intros [[] H]. destruct (m w) as [r w']. cbn in H. subst r. eauto.
Qed.

Lemma log_then_notify_returns (c : Component) (line : string) (l : Level)
    (title description : string) (color : Z) (w : World) :
  exists a,
    fst ((let* _ := log c line l in
          sendDiscordNotification title description color) w) = Ok a.
Proof.
  destruct (log_then_notify c line l title description color w)
    as (w' & R & _).
  rewrite R. exists tt. reflexivity.
Qed.

Section ExitFacts.

Variable Date_parse : string -> option Z.
Variable toISOString : Z -> string.
Variable cron_validate : string -> bool.
Variable parseInt : option string -> option Z.

Lemma performScheduledBackup_returns (w : World) :
  exists w', performScheduledBackup Date_parse toISOString w = (Ok tt, w').
Proof.
  apply unit_returns. unfold performScheduledBackup.
  apply try_catch_returns. intros. apply log_then_notify_returns.
Qed.

Lemma performHealthCheck_returns (w : World) :
  exists w', performHealthCheck Date_parse toISOString w = (Ok tt, w').
Proof.
  apply unit_returns. unfold performHealthCheck.
  apply try_catch_returns. intros. apply log_then_notify_returns.
Qed.

Lemma status_returns (w : World) :
  exists w', status Date_parse toISOString w = (Ok tt, w').
Proof.
  apply unit_returns. unfold status.
  apply try_catch_returns. intros. exists tt. reflexivity.
Qed.

(** The outcome of [start], by the service flag and the two schedules. *)
Lemma start_outcome (w : World) :
  fst (start cron_validate w)
  = if isRunning w then Ok tt
    else if cron_validate (backupSchedule (config w))
         then if cron_validate (alertSchedule (config w)) then Ok tt
              else Throw ("Invalid alert schedule: "
                          ++ alertSchedule (config w))
         else Throw ("Invalid backup schedule: "
                     ++ backupSchedule (config w)).
Proof.
  destruct (isRunning w) eqn:R.
  { unfold start. rewrite R. reflexivity. }
  destruct (cron_validate (backupSchedule (config w))) eqn:Vb;
    [destruct (cron_validate (alertSchedule (config w))) eqn:Va|].
  - destruct (start_stopped_run cron_validate w R Vb Va) as (w' & S & _).
    rewrite S. reflexivity.
  - unfold start. rewrite R, Vb, Va. reflexivity.
  - unfold start. rewrite R, Vb. reflexivity.
Qed.

(** X24. The service's command line exits with code 1 in one case only:
    [start] in a stopped service with a schedule that is no valid cron
    expression.  Every other command returns, whatever the remote API and
    the file system do: failures of a backup, a health check or a status
    report are caught on the way. *)
Theorem service_main_exit (command : option string) (w : World) :
  fst (service_main Date_parse toISOString cron_validate command w)
  = Ok (if command_is command "start" && negb (isRunning w)
           && negb (cron_validate (backupSchedule (config w))
                    && cron_validate (alertSchedule (config w)))
        then Exited 1 else Returned).
Proof.
  unfold service_main.
  assert (Run : forall (m : M unit) w1,
             m w = (Ok tt, w1) ->
             fst (try_catch
                    (let* _ := m in ret Returned)
                    (fun message =>
                       let* _ := console_error ("❌ Service failed: "
                                                ++ message) in
                       ret (Exited 1)) w) = Ok Returned).
  { intros m w1 R. unfold try_catch. rewrite (bind_ok _ _ _ _ _ R).
    reflexivity. }
  destruct (command_is command "start") eqn:Cs.
  { pose proof (start_outcome w) as O.
    destruct (start cron_validate w) as [r w1] eqn:S. cbn [fst] in O.
    unfold try_catch. cbn [andb].
    destruct (isRunning w);
      [|destruct (cron_validate (backupSchedule (config w)));
        [destruct (cron_validate (alertSchedule (config w)))|]];
      subst r;
      rewrite ?(bind_ok _ _ _ _ _ S), ?(bind_throw _ _ _ _ _ S);
      reflexivity. }
  cbn [andb].
  destruct (command_is command "backup").
  { destruct (performScheduledBackup_returns w) as [w1 R]. exact (Run _ _ R). }
  destruct (command_is command "check").
  { destruct (performHealthCheck_returns w) as [w1 R]. exact (Run _ _ R). }
  destruct (command_is command "status").
  { destruct (status_returns w) as [w1 R]. exact (Run _ _ R). }
  destruct (command_is command "test").
  { destruct (sendDiscordNotification
                "Service Test"
                "🧪 VIP Service test notification - all systems operational!"
                default_color w) as [rs ws] eqn:S.
    pose proof S as FS. apply sendDiscordNotification_facts in FS as (-> & _).
    eapply Run. rewrite (bind_ok _ _ _ _ _ S). reflexivity. }
  destruct (forEach_M console_log service_usage w) as [ru wu] eqn:U.
  pose proof U as FU. apply forEach_console_log_facts in FU as (-> & _).
  exact (Run _ _ U).
Qed.

(** X25. The manager's command line does nothing without a connection:
    with both variables of the environment set, when the connection test
    fails, every command, the usage text included, ends with exit code 1
    after printing the failure, in the world the connection test left with
    that one line more.  No notification is sent and no file touched. *)
Theorem manager_main_requires_connection
    (CRCON_BASE_URL command arg : option string) (w : World)
    (error : string) :
  let w1 := snd (testConnection w) in
  let w' := snd (manager_main Date_parse toISOString parseInt
                              CRCON_BASE_URL command arg w) in
  truthy CRCON_BASE_URL = true ->
  truthy (apiToken (config w)) = true ->
  fst (testConnection w) = Ok (Disconnected error) ->
  manager_main Date_parse toISOString parseInt CRCON_BASE_URL command arg w
  = (Ok (Exited 1),
     set_trace (push (trace w1) (Printed ("❌ Operation failed: " ++ error)))
               w1) /\
  notified w' = notified w /\ backups w' = backups w.
Proof.
  cbv zeta. intros U K T.
  destruct (testConnection w) as [rt w1] eqn:R. cbn [fst snd] in *.
  subst rt.
  pose proof R as FT.
  apply testConnection_footprint in FT as (_ & _ & N & B).
  assert (E : manager_main Date_parse toISOString parseInt CRCON_BASE_URL
                           command arg w
              = (Ok (Exited 1),
                 set_trace (push (trace w1)
                                 (Printed ("❌ Operation failed: " ++ error)))
                           w1)).
  { unfold manager_main. rewrite U, K. cbn [negb].
    unfold try_catch. rewrite (bind_ok _ _ _ _ _ R). reflexivity. }
  rewrite E. cbn [snd]. split; [reflexivity|]. split; [|exact B].
  unfold notified in *. cbn. unfold push. rewrite notifications_app. cbn.
  rewrite app_nil_r. exact N.
Qed.

(** X26. [cleanup] with a number of days that reads as zero, or does not
    read as a number, sweeps with the default of 30 days: with the
    environment set and a connection, [cleanup 0] does not empty the backup
    directory but leaves what a sweep of 30 days leaves. *)
Theorem manager_main_cleanup_default
    (CRCON_BASE_URL arg : option string) (w : World) (t : ConnectionTest) :
  let w' := snd (manager_main Date_parse toISOString parseInt
                              CRCON_BASE_URL (Some "cleanup") arg w) in
  truthy CRCON_BASE_URL = true ->
  truthy (apiToken (config w)) = true ->
  fst (testConnection w) = Ok t -> connected t = true ->
  parseInt arg = None \/ parseInt arg = Some 0%Z ->
  fst (manager_main Date_parse toISOString parseInt
                    CRCON_BASE_URL (Some "cleanup") arg w) = Ok Returned /\
  backups w' = backups_after_cleanup 30 w.
Proof.
  cbv zeta. intros U K T C P.
  destruct (testConnection w) as [rt w1] eqn:R. cbn [fst] in T. subst rt.
  pose proof (testConnection_sweeps _ _ _ R) as W.
  pose proof R as FT.
  apply testConnection_footprint in FT as (_ & S & _ & B).
  assert (E : env w1 = env w) by apply S.
  assert (D : days_or_30 parseInt arg = 30%Z).
  { unfold days_or_30. destruct P as [-> | ->]; reflexivity. }
  destruct (cleanupOldBackups_spec 30 w1) as (w2 & RC & BC & _).
  unfold manager_main. rewrite U, K. cbn [negb].
  unfold try_catch. rewrite (bind_ok _ _ _ _ _ R).
  destruct t as [sn pc mp | e]; [|discriminate C].
  cbn [command_is].
  change (String.eqb "cleanup" "test") with false.
  change (String.eqb "cleanup" "download") with false.
  change (String.eqb "cleanup" "analyze") with false.
  change (String.eqb "cleanup" "backup") with false.
  change (String.eqb "cleanup" "cleanup") with true.
  cbv iota zeta. rewrite D.
  assert (Inner : (let* _ := cleanupOldBackups 30 in ret tt) w1
                  = (Ok tt, w2)).
  { rewrite (bind_ok _ _ _ _ _ RC). reflexivity. }
  rewrite (bind_ok _ _ _ _ _ Inner). cbn.
  split; [reflexivity|].
  rewrite BC. unfold backups_after_cleanup, sweep_cutoff, sweepDate.
  rewrite B, E, W. reflexivity.
Qed.

(** X27. The health endpoint answers with what a connection test finds,
    200 when it connects and 503 when it does not, and never otherwise;
    answering does nothing a connection test does not do, so it sends no
    notification and touches no file. *)
Theorem handleHealthCheck_code (w : World) :
  let w' := snd (handleHealthCheck w) in
  (exists t,
     fst (testConnection w) = Ok t /\
     fst (handleHealthCheck w) = Ok (if connected t then 200 else 503)) /\
  w' = snd (testConnection w) /\
  notified w' = notified w /\ backups w' = backups w.
Proof.
  cbv zeta. destruct (testConnection w) as [rt w1] eqn:R.
  pose proof R as FT.
  apply testConnection_footprint in FT as ([t ->] & _ & N & B).
  unfold handleHealthCheck, try_catch. rewrite (bind_ok _ _ _ _ _ R).
  cbn. eauto 10.
Qed.

(** X28. The status endpoint answers 200 exactly when the analysis
    succeeds, whatever the connection test before it came to, and 500
    otherwise.  Answering leaves what the analysis leaves, no less: a
    request for the status page sends the analyzer's alert when a bucket is
    not empty. *)
Theorem handleStatus_code (w : World) :
  let w1 := snd (testConnection w) in
  let w' := snd (handleStatus Date_parse toISOString w) in
  fst (handleStatus Date_parse toISOString w)
  = Ok (match fst (analyzeVips Date_parse toISOString w1) with
        | Ok _ => 200
        | Throw _ => 500
        end) /\
  w' = snd (analyzeVips Date_parse toISOString w1) /\
  notified w'
  = (notified w
     ++ analysis_notes (fst (analyzeVips Date_parse toISOString w1)))%list.
Proof.
  cbv zeta. destruct (testConnection w) as [rt w1] eqn:R. cbn [snd].
  pose proof R as FT.
  apply testConnection_footprint in FT as ([t ->] & _ & N & _).
  destruct (analyzeVips Date_parse toISOString w1) as [ra wa] eqn:A.
  pose proof A as FA. apply analyzeVips_facts in FA as [[urls [_ Na _]] _].
  rewrite N in Na.
  unfold handleStatus, try_catch. rewrite (bind_ok _ _ _ _ _ R).
  destruct ra as [a|message].
  - rewrite (bind_ok _ _ _ _ _ A). cbn. auto.
  - rewrite (bind_throw _ _ _ _ _ A). cbn. auto.
Qed.

(** X29. Of the health server's routes only the status page does more than
    look: a request that is a preflight, or for any other path than
    [/status], is answered 200, 503 or 404 and sends no notification,
    touches no file and leaves the service and its scheduler as they
    were. *)
Theorem health_server_read_only (method url : string) (w : World) :
  let w' := snd (health_server Date_parse toISOString method url w) in
  String.eqb method "OPTIONS" || negb (String.eqb url "/status") = true ->
  (exists code,
     fst (health_server Date_parse toISOString method url w) = Ok code /\
     (code = 200 \/ code = 503 \/ code = 404)) /\
  notified w' = notified w /\ backups w' = backups w /\ same_setting w w'.
Proof.
  cbv zeta. intros H. unfold health_server.
  assert (Still : forall code,
             code = 200 \/ code = 503 \/ code = 404 ->
             (exists c, fst (ret code w) = Ok c /\
                        (c = 200 \/ c = 503 \/ c = 404)) /\
             notified (snd (ret code w)) = notified w /\
             backups (snd (ret code w)) = backups w /\
             same_setting w (snd (ret code w))).
  { intros code C. cbn. split; [eauto|]. split; [reflexivity|].
    split; [reflexivity | apply same_setting_refl]. }
  destruct (String.eqb method "OPTIONS"); [apply Still; auto|].
  destruct (String.eqb url "/health").
  { destruct (testConnection w) as [rt w1] eqn:R.
    pose proof R as FT.
    apply testConnection_footprint in FT as ([t ->] & S & N & B).
    unfold handleHealthCheck, try_catch. rewrite (bind_ok _ _ _ _ _ R).
    cbn. split; [|auto]. destruct (connected t); eauto 10. }
  destruct (String.eqb url "/status"); [discriminate H|].
  destruct (String.eqb url "/"); apply Still; auto.
Qed.

End ExitFacts.

(** ** Further sample runs *)

Lemma makeRequest_error_mapping_witness :
  let w := sample_world remote_unreachable None in
  truthy (apiToken (config w)) = true /\
  fst (makeRequest get_status w)
  = Throw "Request failed: connect ECONNREFUSED 127.0.0.1:8010" /\
  "Request failed: connect ECONNREFUSED 127.0.0.1:8010"
  = "Request failed: " ++ "connect ECONNREFUSED 127.0.0.1:8010".
Proof.
  cbv zeta. split; [reflexivity|]. split; [reflexivity|].
  exact (makeRequest_error_mapping
           get_status (sample_world remote_unreachable None)
           "Request failed: connect ECONNREFUSED 127.0.0.1:8010"
           eq_refl eq_refl).
Defined.

Lemma downloadVipFile_falls_back_witness :
  let w := sample_world (remote_without_export sample_vips) None in
  let name := "vip_file_2024-03-10T12-00-00-000Z.txt" in
  fst (makeRequest download_vips w)
  = Throw "Request failed: Request failed with status code 404" /\
  fst (makeRequest get_vip_ids (set_httpCalls 1 w)) = Ok (JVips sample_vips) /\
  (backups w = None -> mkdir_error (env w) = None) /\
  writeFile_error (env w) name = None /\
  exists w',
    fst (downloadVipFile sample_toISOString w)
    = Ok {| filepath := "backups/" ++ name; filename := name;
            dl_size := js_length (formatVipList sample_toISOString sample_now
                                                sample_vips) |} /\
    w' = snd (downloadVipFile sample_toISOString w) /\
    requested w'
    = ["http://localhost:8010/api/download_vips";
       "http://localhost:8010/api/get_vip_ids"].
Proof.
  cbv zeta. split; [reflexivity|]. split; [reflexivity|].
  split; [reflexivity|]. split; [reflexivity|].
  destruct (downloadVipFile_falls_back
              sample_toISOString
              (sample_world (remote_without_export sample_vips) None)
              sample_vips
              "Request failed: Request failed with status code 404"
              eq_refl eq_refl (fun _ => eq_refl) eq_refl)
    as (w' & R & _ & Q).
  exists w'. rewrite R. split; [reflexivity|]. split; [reflexivity|].
  exact Q.
Defined.

Lemma downloadVipFile_empty_export_witness :
  let w := sample_world remote_empty_export None in
  fst (makeRequest download_vips w) = Ok (JText EmptyString) /\
  js_truthy (JText EmptyString) = false /\
  fst (downloadVipFile sample_toISOString w)
  = Throw "No VIP file data received" /\
  backups (snd (downloadVipFile sample_toISOString w)) = None.
Proof.
  cbv zeta. split; [reflexivity|]. split; [reflexivity|].
  destruct (downloadVipFile_empty_export
              sample_toISOString (sample_world remote_empty_export None)
              (JText EmptyString) eq_refl eq_refl)
    as (T & _ & B & _).
  split; [exact T | exact B].
Defined.

Lemma downloadVipFile_array_export_witness :
  let w := sample_world (remote_array_export sample_vips) None in
  let name := "vip_file_2024-03-10T12-00-00-000Z.txt" in
  fst (makeRequest download_vips w) = Ok (JVips sample_vips) /\
  (backups w = None -> mkdir_error (env w) = None) /\
  writeFile_error (env w) name = None /\
  fst (downloadVipFile sample_toISOString w)
  = Throw (invalid_chunk_error (env w)) /\
  backups (snd (downloadVipFile sample_toISOString w))
  = Some (<[name := written sample_now EmptyString]> ∅).
Proof.
  cbv zeta. split; [reflexivity|]. split; [reflexivity|].
  split; [reflexivity|].
  destruct (downloadVipFile_array_export
              sample_toISOString
              (sample_world (remote_array_export sample_vips) None)
              sample_vips eq_refl (fun _ => eq_refl) eq_refl)
    as (w' & R & B & _).
  rewrite R. split; [reflexivity | exact B].
Defined.

Lemma cleanupOldBackups_monotone_witness :
  let w := sample_world remote_unreachable (Some sample_backups) in
  (7 <= 30)%Z /\
  (forall l l',
     LocalTZA_local (env w) l - LocalTZA_local (env w) l' <= msPerDay)%Z /\
  sweep_cutoff 7 w <> None /\
  files_of (snd (cleanupOldBackups 7 w))
  ⊆ files_of (snd (cleanupOldBackups 30 w)).
Proof.
  cbv zeta.
  assert (K : (7 <= 30)%Z) by lia.
  assert (O : forall l l',
             (LocalTZA_local
                (env (sample_world remote_unreachable (Some sample_backups)))
                l
              - LocalTZA_local
                  (env (sample_world remote_unreachable
                                     (Some sample_backups))) l'
              <= msPerDay)%Z).
  { intros l l'. cbn. discriminate. }
  assert (V : sweep_cutoff
                7 (sample_world remote_unreachable (Some sample_backups))
              <> None) by (vm_compute; discriminate).
  split; [exact K|]. split; [exact O|]. split; [exact V|].
  destruct (cleanupOldBackups_monotone
              7 30 (sample_world remote_unreachable (Some sample_backups))
              K O V)
    as (n1 & n2 & _ & _ & _ & Sub).
  exact Sub.
Defined.

Lemma formatVipList_lines_witness :
  lacks "010"%char (sample_toISOString sample_now) = true /\
  forallb (fun v => lacks "010"%char (record_line v)) sample_vips = true /\
  lines (formatVipList sample_toISOString sample_now sample_vips)
  = ["# VIP File Generated 2024-03-10T12:00:00.000Z";
     "# Total VIPs: 3";
     "# Format: STEAM_ID_64 # Player_Name (expiration)";
     EmptyString;
     "76561198000000001 # Alice (permanent)";
     "1100000100000001 # Bob (expires: 2024-03-17T12:00:00.000Z)";
     "990000000 # Carol (expires: 2024-03-09T12:00:00.000Z)";
     EmptyString].
Proof.
  split; [reflexivity|]. split; [reflexivity|].
  exact (formatVipList_lines sample_toISOString sample_now sample_vips
                             eq_refl eq_refl).
Defined.

Lemma performScheduledBackup_keeps_new_files_witness :
  let w := sample_world (remote_serving sample_vips) (Some sample_backups) in
  let w0 := snd (log Service "Starting scheduled backup..." LInfo w) in
  let w1 := snd (downloadVipFile sample_toISOString w0) in
  let w' := snd (performScheduledBackup sample_Date_parse sample_toISOString
                                        w) in
  fst (downloadVipFile sample_toISOString w0) = Ok sample_download /\
  fst (analyzeVips sample_Date_parse sample_toISOString w1)
  = Ok sample_analysis /\
  ~ before_cutoff (clock (env w))
                  (sweep_cutoff (retentionDays (config w)) w) /\
  exists text report,
    files_of w' !! "vip_file_2024-03-10T12-00-00-000Z.txt"
    = Some (written sample_now text) /\
    files_of w' !! "vip_analysis_2024-03-10T12-00-00-000Z.txt"
    = Some (written sample_now report).
Proof.
  cbv zeta.
  assert (D : fst (downloadVipFile
                     sample_toISOString
                     (snd (log Service "Starting scheduled backup..." LInfo
                               (sample_world (remote_serving sample_vips)
                                             (Some sample_backups)))))
              = Ok sample_download) by (vm_compute; reflexivity).
  assert (A : fst (analyzeVips
                     sample_Date_parse sample_toISOString
                     (snd (downloadVipFile
                             sample_toISOString
                             (snd (log Service "Starting scheduled backup..."
                                       LInfo
                                       (sample_world
                                          (remote_serving sample_vips)
                                          (Some sample_backups)))))))
              = Ok sample_analysis) by (vm_compute; reflexivity).
  assert (K : ~ before_cutoff
                  (clock (env (sample_world (remote_serving sample_vips)
                                            (Some sample_backups))))
                  (sweep_cutoff
                     (retentionDays
                        (config (sample_world (remote_serving sample_vips)
                                              (Some sample_backups))))
                     (sample_world (remote_serving sample_vips)
                                   (Some sample_backups))))
    by (vm_compute; discriminate).
  split; [exact D|]. split; [exact A|]. split; [exact K|].
  destruct (performScheduledBackup_keeps_new_files
              sample_Date_parse sample_toISOString
              (sample_world (remote_serving sample_vips)
                            (Some sample_backups))
              sample_download sample_analysis D A K)
    as (text & report & _ & Ls & Lr).
  exists text, report. split; [exact Ls | exact Lr].
Defined.

Lemma performScheduledBackup_negative_retention_witness :
  let w := configured (sample_config_keeping (-1))
                      (sample_world (remote_serving sample_vips)
                                    (Some sample_backups)) in
  let w0 := snd (log Service "Starting scheduled backup..." LInfo w) in
  let w1 := snd (downloadVipFile sample_toISOString w0) in
  let w' := snd (performScheduledBackup sample_Date_parse sample_toISOString
                                        w) in
  fst (downloadVipFile sample_toISOString w0) = Ok sample_download /\
  fst (analyzeVips sample_Date_parse sample_toISOString w1)
  = Ok sample_analysis /\
  (retentionDays (config w) < 0)%Z /\ readdir_fails (env w) = false /\
  (0 <= elapsed (env w) (sweeps w))%Z /\
  (forall l t,
     LocalTZA_local (env w) l - LocalTZA_utc (env w) t < msPerDay)%Z /\
  sweep_cutoff (retentionDays (config w)) w <> None /\
  files_of w' !! "vip_file_2024-03-10T12-00-00-000Z.txt" = None /\
  files_of w' !! "vip_analysis_2024-03-10T12-00-00-000Z.txt" = None.
Proof.
  cbv zeta.
  assert (D : fst (downloadVipFile
                     sample_toISOString
                     (snd (log Service "Starting scheduled backup..." LInfo
                               (configured
                                  (sample_config_keeping (-1))
                                  (sample_world (remote_serving sample_vips)
                                                (Some sample_backups))))))
              = Ok sample_download) by (vm_compute; reflexivity).
  assert (A : fst (analyzeVips
                     sample_Date_parse sample_toISOString
                     (snd (downloadVipFile
                             sample_toISOString
                             (snd (log Service "Starting scheduled backup..."
                                       LInfo
                                       (configured
                                          (sample_config_keeping (-1))
                                          (sample_world
                                             (remote_serving sample_vips)
                                             (Some sample_backups))))))))
              = Ok sample_analysis) by (vm_compute; reflexivity).
  assert (K : (retentionDays
                 (config (configured
                            (sample_config_keeping (-1))
                            (sample_world (remote_serving sample_vips)
                                          (Some sample_backups)))) < 0)%Z)
    by (cbn; lia).
  assert (El : (0 <= elapsed
                       (env (configured
                               (sample_config_keeping (-1))
                               (sample_world (remote_serving sample_vips)
                                             (Some sample_backups))))
                       (sweeps (configured
                                  (sample_config_keeping (-1))
                                  (sample_world (remote_serving sample_vips)
                                                (Some sample_backups)))))%Z)
    by (cbn; lia).
  assert (O : forall l t,
             (LocalTZA_local
                (env (configured
                        (sample_config_keeping (-1))
                        (sample_world (remote_serving sample_vips)
                                      (Some sample_backups)))) l
              - LocalTZA_utc
                  (env (configured
                          (sample_config_keeping (-1))
                          (sample_world (remote_serving sample_vips)
                                        (Some sample_backups)))) t
              < msPerDay)%Z).
  { intros l t. cbn. reflexivity. }
  assert (V : sweep_cutoff
                (retentionDays
                   (config (configured
                              (sample_config_keeping (-1))
                              (sample_world (remote_serving sample_vips)
                                            (Some sample_backups)))))
                (configured (sample_config_keeping (-1))
                            (sample_world (remote_serving sample_vips)
                                          (Some sample_backups)))
              <> None) by (vm_compute; discriminate).
  split; [exact D|]. split; [exact A|]. split; [exact K|].
  split; [reflexivity|]. split; [exact El|]. split; [exact O|].
  split; [exact V|].
  exact (performScheduledBackup_negative_retention
           sample_Date_parse sample_toISOString
           (configured (sample_config_keeping (-1))
                       (sample_world (remote_serving sample_vips)
                                     (Some sample_backups)))
           sample_download sample_analysis D A K eq_refl El O V).
Defined.

Lemma performScheduledBackup_spares_recent_witness :
  let w := sample_world (remote_serving sample_vips) (Some sample_backups) in
  let w' := snd (performScheduledBackup sample_Date_parse sample_toISOString
                                        w) in
  files_of w !! "vip_file_29.txt" = Some (aged_file 29) /\
  ~ old_and_accessible (sweep_cutoff (retentionDays (config w)) w)
                       (aged_file 29) /\
  "vip_file_29.txt" <> snapshot_name sample_toISOString sample_now /\
  "vip_file_29.txt" <> report_name sample_toISOString sample_now /\
  same_setting w w' /\ files_of w' !! "vip_file_29.txt" = Some (aged_file 29).
Proof.
  cbv zeta.
  assert (L : files_of (sample_world (remote_serving sample_vips)
                                     (Some sample_backups))
              !! "vip_file_29.txt" = Some (aged_file 29))
    by (vm_compute; reflexivity).
  assert (Y : ~ old_and_accessible
                  (sweep_cutoff
                     (retentionDays
                        (config (sample_world (remote_serving sample_vips)
                                              (Some sample_backups))))
                     (sample_world (remote_serving sample_vips)
                                   (Some sample_backups)))
                  (aged_file 29)).
  { intros (_ & O & _). vm_compute in O. discriminate O. }
  assert (Ns : "vip_file_29.txt"
               <> snapshot_name sample_toISOString sample_now)
    by (vm_compute; discriminate).
  assert (Nr : "vip_file_29.txt"
               <> report_name sample_toISOString sample_now)
    by (vm_compute; discriminate).
  split; [exact L|]. split; [exact Y|]. split; [exact Ns|].
  split; [exact Nr|].
  exact (performScheduledBackup_spares_recent
           sample_Date_parse sample_toISOString
           (sample_world (remote_serving sample_vips) (Some sample_backups))
           "vip_file_29.txt" (aged_file 29) L Y Ns Nr).
Defined.

Lemma start_invalid_schedule_witness :
  let w := configured sample_config_misscheduled
                      (sample_world remote_unreachable None) in
  isRunning w = false /\
  sample_cron_validate (backupSchedule (config w))
  && sample_cron_validate (alertSchedule (config w)) = false /\
  fst (start sample_cron_validate w)
  = Throw "Invalid alert schedule: every morning" /\
  cronTasks (snd (start sample_cron_validate w)) = [].
Proof.
  cbv zeta. split; [reflexivity|]. split; [reflexivity|].
  destruct (start_invalid_schedule
              sample_cron_validate
              (configured sample_config_misscheduled
                          (sample_world remote_unreachable None))
              eq_refl eq_refl)
    as (T & (_ & _ & _ & C & _) & _).
  split; [exact T | exact C].
Defined.

Lemma start_registers_witness :
  let w := sample_world remote_unreachable None in
  let w' := snd (start sample_cron_validate w) in
  isRunning w = false /\
  sample_cron_validate (backupSchedule (config w)) = true /\
  sample_cron_validate (alertSchedule (config w)) = true /\
  timers w' = [(30000%Z, HealthCheckJob)] /\
  signalHandlers w' = ["SIGINT"; "SIGTERM"].
Proof.
  cbv zeta. split; [reflexivity|]. split; [reflexivity|].
  split; [reflexivity|].
  destruct (start_registers
              sample_cron_validate (sample_world remote_unreachable None)
              eq_refl eq_refl eq_refl)
    as (_ & Tm & Sg & _).
  split; [exact Tm | exact Sg].
Defined.

Lemma restart_accumulates_witness :
  let w := sample_world remote_unreachable None in
  let resumed :=
    snd (start sample_cron_validate
               (snd (stop (snd (start sample_cron_validate w))))) in
  isRunning w = false /\
  sample_cron_validate (backupSchedule (config w)) = true /\
  sample_cron_validate (alertSchedule (config w)) = true /\
  timers resumed = [(30000%Z, HealthCheckJob); (30000%Z, HealthCheckJob)] /\
  signalHandlers resumed = ["SIGINT"; "SIGTERM"; "SIGINT"; "SIGTERM"].
Proof.
  cbv zeta. split; [reflexivity|]. split; [reflexivity|].
  split; [reflexivity|].
  destruct (restart_accumulates
              sample_cron_validate (sample_world remote_unreachable None)
              eq_refl eq_refl eq_refl)
    as (_ & Tm & Sg & _).
  split; [exact Tm | exact Sg].
Defined.

Lemma manager_main_deletes_only_on_cleanup_witness :
  let w := sample_world (remote_serving sample_vips) (Some sample_backups) in
  let w' := snd (manager_main sample_Date_parse sample_toISOString
                              sample_parseInt (Some "http://localhost:8010")
                              (Some "backup") None w) in
  command_is (Some "backup") "cleanup" = false /\
  "vip_file_40.txt" <> snapshot_name sample_toISOString (clock (env w)) /\
  "vip_file_40.txt" <> report_name sample_toISOString (clock (env w)) /\
  files_of w' !! "vip_file_40.txt" = files_of w !! "vip_file_40.txt".
Proof.
  cbv zeta.
  assert (Ns : "vip_file_40.txt"
               <> snapshot_name
                    sample_toISOString
                    (clock (env (sample_world (remote_serving sample_vips)
                                              (Some sample_backups)))))
    by (vm_compute; discriminate).
  assert (Nr : "vip_file_40.txt"
               <> report_name
                    sample_toISOString
                    (clock (env (sample_world (remote_serving sample_vips)
                                              (Some sample_backups)))))
    by (vm_compute; discriminate).
  split; [reflexivity|]. split; [exact Ns|]. split; [exact Nr|].
  destruct (manager_main_deletes_only_on_cleanup
              sample_Date_parse sample_toISOString sample_parseInt
              (Some "http://localhost:8010") (Some "backup") None
              (sample_world (remote_serving sample_vips)
                            (Some sample_backups))
              "vip_file_40.txt" eq_refl Ns Nr)
    as (_ & F).
  exact F.
Defined.

Lemma manager_main_requires_connection_witness :
  let w := sample_world remote_unreachable (Some sample_backups) in
  let main := manager_main sample_Date_parse sample_toISOString
                           sample_parseInt (Some "http://localhost:8010")
                           (Some "backup") None in
  truthy (Some "http://localhost:8010") = true /\
  truthy (apiToken (config w)) = true /\
  fst (testConnection w)
  = Ok (Disconnected "Request failed: connect ECONNREFUSED 127.0.0.1:8010") /\
  fst (main w) = Ok (Exited 1) /\
  notified (snd (main w)) = notified w /\ backups (snd (main w)) = backups w.
Proof.
  cbv zeta. split; [reflexivity|]. split; [reflexivity|].
  split; [reflexivity|].
  destruct (manager_main_requires_connection
              sample_Date_parse sample_toISOString sample_parseInt
              (Some "http://localhost:8010") (Some "backup") None
              (sample_world remote_unreachable (Some sample_backups))
              "Request failed: connect ECONNREFUSED 127.0.0.1:8010"
              eq_refl eq_refl eq_refl)
    as (R & N & B).
  rewrite R in *. split; [reflexivity|]. split; [exact N | exact B].
Defined.

Lemma manager_main_cleanup_default_witness :
  let w := sample_world (remote_serving sample_vips) (Some sample_backups) in
  let main := manager_main sample_Date_parse sample_toISOString
                           sample_parseInt (Some "http://localhost:8010")
                           (Some "cleanup") (Some "0") in
  truthy (Some "http://localhost:8010") = true /\
  truthy (apiToken (config w)) = true /\
  fst (testConnection w) = Ok (Connected "Sample Server" 12 100) /\
  connected (Connected "Sample Server" 12 100) = true /\
  sample_parseInt (Some "0") = Some 0%Z /\
  fst (main w) = Ok Returned /\
  backups (snd (main w)) = backups_after_cleanup 30 w.
Proof.
  cbv zeta. split; [reflexivity|]. split; [reflexivity|].
  split; [reflexivity|]. split; [reflexivity|]. split; [reflexivity|].
  exact (manager_main_cleanup_default
           sample_Date_parse sample_toISOString sample_parseInt
           (Some "http://localhost:8010") (Some "0")
           (sample_world (remote_serving sample_vips) (Some sample_backups))
           (Connected "Sample Server" 12 100)
           eq_refl eq_refl eq_refl eq_refl (or_intror eq_refl)).
Defined.

Lemma health_server_read_only_witness :
  let w := sample_world remote_unreachable (Some sample_backups) in
  let w' := snd (health_server sample_Date_parse sample_toISOString
                               "GET" "/health" w) in
  String.eqb "GET" "OPTIONS" || negb (String.eqb "/health" "/status") = true /\
  notified w' = notified w /\ backups w' = backups w.
Proof.
  cbv zeta. split; [reflexivity|].
  destruct (health_server_read_only
              sample_Date_parse sample_toISOString "GET" "/health"
              (sample_world remote_unreachable (Some sample_backups))
              eq_refl)
    as (_ & N & B & _).
  split; [exact N | exact B].
Defined.
